(** * CIBF postprocessor: phone and transcript normalisation, identity
      resolution and analytics upsert

    A shallow embedding of [main.py].  The text functions
    ([normalize_phone_number], [normalize_conversation_tags]) are pure; the
    request handler [process_conversation] is embedded in a small state and
    exception monad over the three collections of the document store, with
    a log of the external calls it makes.

    Text is a list of characters, a character being a code point below
    256 (ASCII and its Latin-1 supplement).  On these Python's [str.isdigit]
    accepts '0'..'9' and the superscripts U+00B2, U+00B3 and U+00B9;
    [str.isspace] (used by [str.strip] and by [\s] in a [re] pattern)
    accepts the characters 9-13, 28-32, U+0085 and U+00A0; [str.lower] and
    the case folding of [re.IGNORECASE] move 'A'..'Z' and the capitals
    U+00C0..U+00DE.  [str.upper] is as in Python except on U+00B5 and
    U+00FF, whose capitals lie beyond these characters.

    The language-understanding service is an oracle: a request comes with
    the answers the service gives while it is handled ([gateway]).  The
    document store is taken to be reachable: [get_mongodb_client] and the
    operations on collections do not raise.  An ObjectId is named by a
    number; new ones are numbered in the order they are handed out. *)

From Stdlib Require Import Ascii String.
From stdpp Require Import gmap strings list fin_maps sorting.

(** ** Text *)

Definition str := list ascii.

Definition text (s : string) : str := list_ascii_of_string s.

Definition code (c : ascii) : nat := nat_of_ascii c.

(** [str.isdigit], one character: a decimal digit, or one of the
    superscripts two, three and one. *)
Definition isdigit (c : ascii) : bool :=
  ((48 <=? code c) && (code c <=? 57))
  || (code c =? 178) || (code c =? 179) || (code c =? 185).

(** A string of digits. *)
Definition digits (s : str) : Prop := Forall (fun c => isdigit c = true) s.

(** [str.isspace], one character. *)
Definition isspace (c : ascii) : bool :=
  ((9 <=? code c) && (code c <=? 13)) || ((28 <=? code c) && (code c <=? 32))
  || (code c =? 133) || (code c =? 160).

(** [s.startswith(p)] *)
Fixpoint startswith (p s : str) : bool :=
  match p, s with
  | [], _ => true
  | _ :: _, [] => false
  | a :: p', b :: s' => if decide (a = b) then startswith p' s' else false
  end.

(** [s[-n:]] for [n > 0]: the last [n] characters, the whole of [s] when it
    is shorter. *)
Definition last_chars (n : nat) (s : str) : str := drop (length s - n) s.

(** [s.zfill(width)]: zeros on the left up to [width], after a leading sign
    when there is one. *)
Definition zfill (width : nat) (s : str) : str :=
  if width <=? length s then s
  else
    let fill := replicate (width - length s) "0"%char in
    match s with
    | c :: rest =>
        if decide (c = "+"%char ∨ c = "-"%char) then c :: fill ++ rest else fill ++ s
    | [] => fill
    end.

(** ** Phone normaliser *)

Module Phone.

(** [''.join(filter(str.isdigit, phone_number))] *)
Definition digits_only (phone_number : str) : str :=
  List.filter isdigit phone_number.

Definition normalize_phone_number (phone_number : str) : str :=
  let digits_only := digits_only phone_number in
  if startswith (text "91") digits_only && (10 <? length digits_only)
  then drop 2 digits_only
  else if 10 <? length digits_only
  then last_chars 10 digits_only
  else if length digits_only <? 10
  then zfill 10 digits_only
  else digits_only.

End Phone.

(** ** A backtracking matcher for the [re] patterns of the source

    The patterns of [normalize_conversation_tags] use literals, alternation,
    greedy repetition of a one-character set ([\s*], [[^)]*], [.*]), one
    capturing group and [$].  [run] is the usual backtracking search in
    continuation style: alternatives left to right, repetition longest
    first. *)

Module Re.

Inductive regex :=
| Lit (c : ascii)
| Star (set : ascii -> bool)
| Cat (r1 r2 : regex)
| Alt (r1 r2 : regex)
| Group (r : regex)
| Eos.

(** The small letter of one character, which is also its case folding
    under [re.IGNORECASE]: 'A'..'Z' and the capitals U+00C0..U+00DE (the
    multiplication sign U+00D7 among them is no letter). *)
Definition lower (c : ascii) : ascii :=
  if ((65 <=? code c) && (code c <=? 90))
     || ((192 <=? code c) && (code c <=? 222) && negb (code c =? 215))
  then ascii_of_nat (code c + 32) else c.

(** The capital of one character, where it is one character below 256:
    'a'..'z' and the small letters U+00E0..U+00FE (the division sign
    U+00F7 among them is no letter). *)
Definition upper (c : ascii) : ascii :=
  if ((97 <=? code c) && (code c <=? 122))
     || ((224 <=? code c) && (code c <=? 254) && negb (code c =? 247))
  then ascii_of_nat (code c - 32) else c.

Definition char_matches (ignorecase : bool) (c x : ascii) : bool :=
  if ignorecase then bool_decide (lower c = lower x) else bool_decide (c = x).

(** [\s] *)
Definition space : ascii -> bool := isspace.
(** [[^)]] *)
Definition not_rparen (c : ascii) : bool := negb (bool_decide (c = ")"%char)).
(** [.] (without [re.DOTALL]) *)
Definition dot (c : ascii) : bool := negb (bool_decide (c = "010"%char)).

(** A literal word, character by character. *)
Fixpoint word (w : str) : regex :=
  match w with
  | [] => Star (fun _ => false)
  | [c] => Lit c
  | c :: w' => Cat (Lit c) (word w')
  end.

Fixpoint star_greedy {R} (set : ascii -> bool) (s : str)
    (k : str -> option R) : option R :=
  match s with
  | c :: s' =>
      if set c then
        match star_greedy set s' k with
        | Some r => Some r
        | None => k s
        end
      else k s
  | [] => k s
  end.

(** [run r s cap k]: match [r] at the head of [s]; [cap] is what group 1
    holds so far; [k] continues on the rest of the text. *)
Fixpoint run {R} (ignorecase : bool) (r : regex) (s : str) (cap : option str)
    (k : str -> option str -> option R) : option R :=
  match r with
  | Lit c =>
      match s with
      | x :: s' => if char_matches ignorecase c x then k s' cap else None
      | [] => None
      end
  | Star set => star_greedy set s (fun s' => k s' cap)
  | Cat r1 r2 =>
      run ignorecase r1 s cap (fun s' cap' => run ignorecase r2 s' cap' k)
  | Alt r1 r2 =>
      match run ignorecase r1 s cap k with
      | Some x => Some x
      | None => run ignorecase r2 s cap k
      end
  | Group r1 =>
      run ignorecase r1 s cap
        (fun s' _ => k s' (Some (take (length s - length s') s)))
  | Eos =>
      match s with
      | [] => k s cap
      | [c] => if bool_decide (c = "010"%char) then k s cap else None
      | _ => None
      end
  end.

(** [re.match(pattern, line, flags)]: the match object is represented by
    what its group 1 holds ([None] for a group that took no part). *)
Definition re_match (pattern : regex) (line : str) (ignorecase : bool)
    : option (option str) :=
  run ignorecase pattern line None (fun _ cap => Some cap).

(** [f"{m.group(1)}"] *)
Definition group1 (m : option str) : str := default (text "None") m.

End Re.

(** ** Conversation tag normaliser *)

Module Tags.
Import Re.

Definition nl : ascii := "010"%char.

(** [s.split(sep)] for a one-character separator *)
Fixpoint split (sep : ascii) (s : str) : list str :=
  match s with
  | [] => [[]]
  | c :: s' =>
      if decide (c = sep) then [] :: split sep s'
      else match split sep s' with
           | l :: ls => (c :: l) :: ls
           | [] => [[c]]
           end
  end.

(** [sep.join(ls)] *)
Fixpoint join (sep : ascii) (ls : list str) : str :=
  match ls with
  | [] => []
  | [l] => l
  | l :: ls' => l ++ sep :: join sep ls'
  end.

Infix "-:-" := Cat (at level 60, right associativity).
Infix "|:|" := Alt (at level 65, right associativity).

(** The agent pattern of the source: a non-capturing alternation of
    "Natalie \s* (Agent)", "Agent \s* ( [^)]* )", "Natalie" and "Agent",
    then "\s* : \s*", then group 1 holding ". *" up to "$".  [re.match]
    anchors at the start of the line, which is what the leading "^" asks. *)
Definition agent_pattern : regex :=
  (word (text "Natalie") -:- Star space -:- word (text "(Agent)")
   |:| word (text "Agent") -:- Star space -:- Lit "(" -:- Star not_rparen -:- Lit ")"
   |:| word (text "Natalie")
   |:| word (text "Agent"))
  -:- Star space -:- Lit ":" -:- Star space -:- Group (Star dot) -:- Eos.

(** The user pattern: "User", then "\s* : \s*", group 1 holding ". *", "$". *)
Definition user_pattern : regex :=
  word (text "User") -:- Star space -:- Lit ":" -:- Star space
  -:- Group (Star dot) -:- Eos.

Definition IGNORECASE : bool := true.

(** The body of the [for line in lines] loop: one line appended to
    [normalized_lines]. *)
Definition normalize_step (normalized_lines : list str) (line : str)
    : list str :=
  match re_match agent_pattern line IGNORECASE with
  | Some agent_match =>
      normalized_lines ++ [text "Agent: " ++ group1 agent_match]
  | None =>
      match re_match user_pattern line IGNORECASE with
      | Some user_match =>
          normalized_lines ++ [text "User: " ++ group1 user_match]
      | None => normalized_lines ++ [line]
      end
  end.

Definition normalize_conversation_tags (conversation : str) : str :=
  let lines := split nl conversation in
  let normalized_lines := foldl normalize_step [] lines in
  join nl normalized_lines.

End Tags.

(** ** Python strings: the methods the pipeline uses *)

Module Py.

Fixpoint lstrip_by (set : ascii -> bool) (s : str) : str :=
  match s with
  | c :: s' => if set c then lstrip_by set s' else s
  | [] => []
  end.

Definition rstrip_by (set : ascii -> bool) (s : str) : str :=
  rev (lstrip_by set (rev s)).

Definition strip_by (set : ascii -> bool) (s : str) : str :=
  rstrip_by set (lstrip_by set s).

(** [s.strip()] *)
Definition strip (s : str) : str := strip_by isspace s.

Definition one_of (chars : str) (c : ascii) : bool := bool_decide (c ∈ chars).

(** [s.lower()] *)
Definition lower (s : str) : str := map Re.lower s.

(** [s.upper()]: the sharp s U+00DF becomes "SS".  The capitals of U+00B5
    and U+00FF are U+039C and U+0178, which are no characters here: these
    two are left as they are. *)
Definition upper_chars (c : ascii) : str :=
  if code c =? 223 then text "SS" else [Re.upper c].
Definition upper (s : str) : str := concat (map upper_chars s).

(** Truth value of a string and of an optional string. *)
Definition nonempty (s : str) : bool := negb (bool_decide (s = [])).
Definition truthy_opt (o : option str) : bool :=
  match o with Some s => nonempty s | None => false end.

End Py.

(** ** Documents and the document store *)

Inductive value :=
| VNone
| VBool (b : bool)
| VInt (z : Z)
| VStr (s : str)
| VObjectId (n : N)
| VStrList (l : list str)
| VDatetime (t : N).

Global Instance value_eq_dec : EqDecision value.
Proof. solve_decision. Defined.

(** A document (a Python dict, a BSON document): field name to value. *)
Abbreviation doc := (gmap string value).

(** Python's truth value. *)
Definition truthy (v : value) : bool :=
  match v with
  | VNone => false
  | VBool b => b
  | VInt z => negb (bool_decide (z = 0%Z))
  | VStr s => Py.nonempty s
  | VObjectId _ => true
  | VStrList l => negb (bool_decide (l = []))
  | VDatetime _ => true
  end.

(** [d.get(k)] and [d.get(k, dflt)] *)
Definition get (d : doc) (k : string) : value := default VNone (d !! k).
Definition get_or (d : doc) (k : string) (dflt : value) : value :=
  default dflt (d !! k).

(** [a or b] *)
Definition py_or (a b : value) : value := if truthy a then a else b.

(** Truth value of a dict, and of the result of [find_one]. *)
Definition truthy_doc (d : doc) : bool := negb (bool_decide (d = ∅)).
Definition found (o : option doc) : bool :=
  match o with Some d => truthy_doc d | None => false end.

Inductive collection := users | userAnalytics | conversationHistory.

Record store := {
  users_of : list doc;
  userAnalytics_of : list doc;
  conversationHistory_of : list doc;
  next_oid : N
}.

Definition docs (c : collection) (s : store) : list doc :=
  match c with
  | users => users_of s
  | userAnalytics => userAnalytics_of s
  | conversationHistory => conversationHistory_of s
  end.

Definition set_docs (c : collection) (l : list doc) (s : store) : store :=
  match c with
  | users =>
      {| users_of := l; userAnalytics_of := userAnalytics_of s;
         conversationHistory_of := conversationHistory_of s;
         next_oid := next_oid s |}
  | userAnalytics =>
      {| users_of := users_of s; userAnalytics_of := l;
         conversationHistory_of := conversationHistory_of s;
         next_oid := next_oid s |}
  | conversationHistory =>
      {| users_of := users_of s; userAnalytics_of := userAnalytics_of s;
         conversationHistory_of := l; next_oid := next_oid s |}
  end.

Definition fresh_oid (s : store) : store :=
  {| users_of := users_of s; userAnalytics_of := userAnalytics_of s;
     conversationHistory_of := conversationHistory_of s;
     next_oid := N.succ (next_oid s) |}.

(** A query [{field: v}] selects the documents holding [v] in [field]. *)
Definition selects (field : string) (v : value) (d : doc) : bool :=
  bool_decide (d !! field = Some v).

(** [$set]: the fields of [upd] are written over those of the first
    selected document; its other fields stay. *)
Fixpoint set_first (field : string) (v : value) (upd : doc) (l : list doc)
    : list doc :=
  match l with
  | [] => []
  | d :: l' =>
      if selects field v d then (upd ∪ d) :: l'
      else d :: set_first field v upd l'
  end.

(** ** The request monad: store, log of external calls, exceptions *)

Inductive call :=
| chat_phone | chat_email | chat_languages | chat_profile
| chat_follow_up | chat_analytics.

Inductive event :=
| Chat (c : call)
| Connect
| FindOne (c : collection) (field : string) (v : value)
| InsertOne (c : collection) (d : doc)
| UpdateOne (c : collection) (field : string) (v : value) (upd : doc).

Inductive exn :=
| HTTPException (status_code : nat) (detail : string)
| Exception (what : string).

Record world := { db : store; log : list event }.

Definition M (A : Type) : Type := world -> (exn + A) * world.

Global Instance M_ret : MRet M := fun A (a : A) w => (inr a, w).

Global Instance M_bind : MBind M := fun A B (f : A -> M B) (m : M A) w =>
  match m w with
  | (inl e, w') => (inl e, w')
  | (inr a, w') => f a w'
  end.

Definition raise {A} (e : exn) : M A := fun w => (inl e, w).

Definition emit (e : event) : M unit := fun w =>
  (inr tt, {| db := db w; log := log w ++ [e] |}).

(** [get_mongodb_client()] *)
Definition get_mongodb_client : M unit := emit Connect.

(** [collection.find_one({field: v})] *)
Definition find_one (c : collection) (field : string) (v : value)
    : M (option doc) := fun w =>
  (inr (List.find (selects field v) (docs c (db w))),
   {| db := db w; log := log w ++ [FindOne c field v] |}).

(** [collection.insert_one(d)], for a document without [_id]: the driver
    gives it a new ObjectId, which is returned as [inserted_id]. *)
Definition insert_one (c : collection) (d : doc) : M value := fun w =>
  let oid := VObjectId (next_oid (db w)) in
  (inr oid,
   {| db := fresh_oid
              (set_docs c (docs c (db w) ++ [<["_id" := oid]> d]) (db w));
      log := log w ++ [InsertOne c d] |}).

(** [collection.update_one({field: v}, {"$set": upd})] *)
Definition update_one (c : collection) (field : string) (v : value)
    (upd : doc) : M unit := fun w =>
  (inr tt,
   {| db := set_docs c (set_first field v upd (docs c (db w))) (db w);
      log := log w ++ [UpdateOne c field v upd] |}).

(** [try: m  except HTTPException: raise  except Exception: raise h] *)
Definition reraise_as {A} (h : exn) (m : M A) : M A := fun w =>
  match m w with
  | (inl (Exception _), w') => (inl h, w')
  | r => r
  end.

(** ** The pipeline *)

Module Pipeline.
Import Phone Tags.

(** What the language-understanding service answers during one request.
    A reply is [None] when the call, or reading its answer, raises; the
    callers catch that.  Replies asked for in JSON are given parsed. *)
Record gateway := {
  phone_reply : option str;
  email_reply : option str;
  languages_reply : list str;
  profile_reply : option doc;
  analytics_reply : option doc;
  follow_up_reply : option doc;
  follow_up_reply_again : option doc
}.

Record ConversationRequest := { conversation_of : str }.

Record response := {
  user_of : doc;
  analytics_of : doc;
  conversation_history_of : doc
}.

(** [openai_client.chat.completions.create(...)] *)
Definition chat {A} (c : call) (reply : A) : M A :=
  _ ← emit (Chat c); mret reply.

Definition NOT_FOUND : str := text "NOT_FOUND".

(** An optional string that passes [if x:]. *)
Definition present (o : option str) : option str :=
  match o with
  | Some s => if Py.nonempty s then Some s else None
  | None => None
  end.

(** What [extract_phone_number] makes of the answer. *)
Definition phone_of_reply (content : option str) : option str :=
  match content with
  | None => None
  | Some content =>
      let phone_number := Py.strip content in
      if bool_decide (phone_number = NOT_FOUND)
         || negb (Py.nonempty phone_number)
      then None
      else
        let normalized := normalize_phone_number phone_number in
        if negb (length normalized =? 10) then None else Some normalized
  end.

Definition extract_phone_number (reply : option str) : M (option str) :=
  content ← chat chat_phone reply;
  mret (phone_of_reply content).

Definition dquote : ascii := "034"%char.
Definition squote : ascii := "039"%char.

(** What [extract_email] makes of the answer. *)
Definition email_of_reply (content : option str) : option str :=
  match content with
  | None => None
  | Some content =>
      let email := Py.strip content in
      if bool_decide (email = NOT_FOUND) || negb (Py.nonempty email)
      then None
      else
        let email :=
          Py.strip_by (Py.one_of [squote])
            (Py.strip_by (Py.one_of [dquote]) (Py.strip (Py.lower email))) in
        let email := Py.rstrip_by (Py.one_of (text ".,;:!?")) email in
        if negb (bool_decide ("@"%char ∈ email))
           || negb (bool_decide ("."%char ∈ nth 1 (split "@" email) []))
        then None
        else
          let parts := split "@" email in
          if negb (length parts =? 2)
             || negb (Py.nonempty (nth 0 parts []))
             || negb (Py.nonempty (nth 1 parts []))
          then None
          else
            let domain := nth 1 parts [] in
            if negb (bool_decide ("."%char ∈ domain)) then None
            else Some email
  end.

Definition extract_email (reply : option str) : M (option str) :=
  content ← chat chat_email reply;
  mret (email_of_reply content).

(** [detect_languages]: never raises; its list is taken as the service
    gives it (it is only stored with the history entry). *)
Definition detect_languages (reply : list str) : M (list str) :=
  chat chat_languages reply.

Definition phone_db_format (phone_number : str) : value :=
  VStr (text "91" ++ phone_number).

(** [extracted_email = email or user_data.get("email", "")], lowered and
    stripped when it is true; [None] when that raises (a true value that
    is not a string). *)
Definition extracted_email_of (email : option str) (user_data : doc)
    : option value :=
  let extracted_email :=
    match present email with
    | Some e => VStr e
    | None => get_or user_data "email" (VStr [])
    end in
  if truthy extracted_email then
    match extracted_email with
    | VStr e => Some (VStr (Py.strip (Py.lower e)))
    | _ => None
    end
  else Some extracted_email.

Definition user_doc_of (phone_number : option str) (extracted_email : value)
    (user_data : doc) : doc :=
  let user_doc : doc :=
    <["email" := extracted_email]>
      {[ "name" := get_or user_data "name" (VStr []) ]} in
  match present phone_number with
  | Some p => <["phone_number" := phone_db_format p]> user_doc
  | None => user_doc
  end.

Definition create_user_from_conversation
    (phone_number email : option str) (reply : option doc)
    : M (option doc) :=
  user_data ← chat chat_profile reply;
  match user_data with
  | None => mret None
  | Some user_data =>
      match extracted_email_of email user_data with
      | None => mret None
      | Some extracted_email =>
          let user_doc := user_doc_of phone_number extracted_email user_data in
          _ ← get_mongodb_client;
          by_phone ←
            match present phone_number with
            | Some p => find_one users "phone_number" (phone_db_format p)
            | None => mret None
            end;
          if found by_phone then mret by_phone
          else
            by_email ←
              (if truthy extracted_email
               then find_one users "email" extracted_email
               else mret None);
            if found by_email then mret by_email
            else
              inserted_id ← insert_one users user_doc;
              mret (Some (<["_id" := inserted_id]> user_doc))
      end
  end.

(** What [detect_follow_up] makes of the answer. *)
Definition follow_up_of (result : option doc) : bool :=
  match result with
  | None => false
  | Some result =>
      let follow_up := get_or result "follow_up" (VBool false) in
      let follow_up :=
        match follow_up with
        | VStr s =>
            VBool (bool_decide
                     (Py.lower s ∈ [text "true"; text "yes"; text "1"]))
        | _ => follow_up
        end in
      truthy follow_up
  end.

Definition detect_follow_up (reply : option doc) : M bool :=
  result ← chat chat_follow_up reply;
  mret (follow_up_of result).

Definition analytics_doc_of (user_id : value) (analytics_data : doc)
    (follow_up : bool) : doc :=
  let country := py_or (get analytics_data "country") (VStr []) in
  let intent_level :=
    py_or (get analytics_data "intent_level") (VStr (text "TOFU")) in
  let intent_level :=
    match intent_level with
    | VStr s => VStr (Py.upper s)
    | _ => VStr (text "TOFU")
    end in
  <["user_id" := user_id]>
    (<["country" := country]>
      (<["intent_level" := intent_level]>
        {[ "follow_up" := VBool follow_up ]})).

Definition generate_analytics (user_id : value) (g : gateway)
    : M (option doc) :=
  analytics_data ← chat chat_analytics (analytics_reply g);
  match analytics_data with
  | None => mret None
  | Some analytics_data =>
      follow_up ← detect_follow_up (follow_up_reply g);
      mret (Some (analytics_doc_of user_id analytics_data follow_up))
  end.

(** One hexadecimal digit, in either case. *)
Definition hex_digit (c : ascii) : option N :=
  if (48 <=? code c) && (code c <=? 57) then Some (N.of_nat (code c - 48))
  else if (97 <=? code c) && (code c <=? 102) then Some (N.of_nat (code c - 87))
  else if (65 <=? code c) && (code c <=? 70) then Some (N.of_nat (code c - 55))
  else None.

(** ASCII white space: the characters 9-13 and the space. *)
Definition ascii_space (c : ascii) : bool :=
  ((9 <=? code c) && (code c <=? 13)) || (code c =? 32).

(** [bytes.fromhex(s)]: two hexadecimal digits for each byte; ASCII white
    space is skipped, but not between the two digits of a byte.  [None]
    when it raises ValueError. *)
Fixpoint fromhex (s : str) : option (list N) :=
  match s with
  | [] => Some []
  | c :: s' =>
      if ascii_space c then fromhex s'
      else
        match hex_digit c with
        | Some top =>
            match s' with
            | d :: s'' =>
                match hex_digit d with
                | Some bot => cons (16 * top + bot)%N <$> fromhex s''
                | None => None
                end
            | [] => None
            end
        | None => None
        end
  end.

(** Bytes read as one number, the first byte the highest. *)
Definition big_endian (bs : list N) : N :=
  foldl (fun acc b => 256 * acc + b)%N 0%N bs.

(** The number that names the ObjectId of the bytes [bs].  An ObjectId
    has twelve bytes and is named by their number, which is below 2^96.
    [bytes.fromhex] gives fewer bytes for a string with white space; the
    resulting identifier is named by a number from 2^96 on, which tells
    its length and its bytes. *)
Definition oid_of_bytes (bs : list N) : N :=
  if length bs =? 12 then big_endian bs
  else (2 ^ 96 + 256 ^ N.of_nat (length bs) + big_endian bs)%N.

(** [ObjectId.__validate(oid)]: an ObjectId gives its own bytes, a string
    of 24 characters the bytes that [bytes.fromhex] reads (InvalidId when
    it reads none, and for a string of another length); any other value
    is a TypeError.  Documents here hold no [bytes] value, the third form
    that is accepted. *)
Definition validate (oid : value) : exn + value :=
  match oid with
  | VObjectId _ => inr oid
  | VStr s =>
      if length s =? 24 then
        match fromhex s with
        | Some bs => inr (VObjectId (oid_of_bytes bs))
        | None => inl (Exception "InvalidId")
        end
      else inl (Exception "InvalidId")
  | _ => inl (Exception "TypeError")
  end.

(** [ObjectId()]: a new identifier, from the same supply as the ones that
    [insert_one] gives. *)
Definition generate : M value := fun w =>
  (inr (VObjectId (next_oid (db w))),
   {| db := fresh_oid (db w); log := log w |}).

(** [ObjectId(oid)] *)
Definition ObjectId (oid : value) : M value :=
  match oid with
  | VNone => generate
  | _ =>
      match validate oid with
      | inl e => raise e
      | inr x => mret x
      end
  end.

(** The body of [process_conversation] is embedded phase by phase, as its
    comments divide it: Phase 1 (extraction, then the user), Phase 2
    (analytics), Phase 3 (history). *)

(** Phase 1, first half: the phone number, or else the e-mail address. *)
Definition identify (g : gateway) : M (option str * option str) :=
  phone_number ← extract_phone_number (phone_reply g);
  if negb (Py.truthy_opt phone_number) then
    email ← extract_email (email_reply g);
    if negb (Py.truthy_opt email)
    then raise (HTTPException 400
           "Could not extract phone number or email from conversation")
    else mret (phone_number, email)
  else mret (phone_number, None).

(** Phase 1, second half: find the user by phone, then by e-mail, or
    create it. *)
Definition find_or_create_user (phone_number email : option str)
    (g : gateway) : M doc :=
  user ←
    match present phone_number with
    | Some p => find_one users "phone_number" (phone_db_format p)
    | None => mret None
    end;
  user ←
    (if negb (found user) then
       match present email with
       | Some e => find_one users "email" (VStr (Py.strip (Py.lower e)))
       | None => mret user
       end
     else mret user);
  user ←
    (if negb (found user) then
       created ← create_user_from_conversation phone_number email
                   (profile_reply g);
       if negb (found created)
       then raise (HTTPException 500 "Failed to create user")
       else mret created
     else mret user);
  mret (default ∅ user).

(** Phase 2: generate the analytics, then update the record of the user
    or insert one. *)
Definition upsert_analytics (user_id : value) (g : gateway) : M doc :=
  generated ← generate_analytics user_id g;
  if negb (found generated)
  then raise (HTTPException 500 "Failed to generate analytics")
  else
    let analytics_doc : doc := default ∅ generated in
    oid ← ObjectId user_id;
    existing_analytics ← find_one userAnalytics "user_id" oid;
    if found existing_analytics then
      let existing : doc := default ∅ existing_analytics in
      analytics_doc ←
        (if negb (bool_decide (is_Some (existing !! "follow_up")))
         then
           follow_up ← detect_follow_up (follow_up_reply_again g);
           mret (<["follow_up" := VBool follow_up]> analytics_doc)
         else mret analytics_doc);
      _ ← update_one userAnalytics "user_id" oid analytics_doc;
      mret (<["_id" := get existing "_id"]> analytics_doc)
    else
      inserted_id ← insert_one userAnalytics analytics_doc;
      mret (<["_id" := inserted_id]> analytics_doc).

(** Phase 3: the history entry, always a new one. *)
Definition store_history (conversation : str) (user_id : value)
    (languages_used : list str) (now : N) : M doc :=
  let normalized_conversation := normalize_conversation_tags conversation in
  oid ← ObjectId user_id;
  let conversation_history_doc : doc :=
    <["user_id" := oid]>
      (<["conversation" := VStr normalized_conversation]>
        (<["timestamp" := VDatetime now]>
          {[ "languages_used" := VStrList languages_used ]})) in
  inserted_id ← insert_one conversationHistory conversation_history_doc;
  mret (<["_id" := inserted_id]> conversation_history_doc).

Definition response_of (user analytics_doc conversation_history_doc : doc)
    : response :=
  {| user_of :=
       <["_id" := get user "_id"]>
         (<["name" := get user "name"]>
           (<["email" := get user "email"]>
             {[ "phone_number" := get user "phone_number" ]}));
     analytics_of :=
       <["_id" := get analytics_doc "_id"]>
         (<["user_id" := get analytics_doc "user_id"]>
           (<["country" := get analytics_doc "country"]>
             (<["intent_level" := get analytics_doc "intent_level"]>
               {[ "follow_up" := get analytics_doc "follow_up" ]})));
     conversation_history_of :=
       <["_id" := get conversation_history_doc "_id"]>
         (<["user_id" := get conversation_history_doc "user_id"]>
           {[ "conversation" :=
                get conversation_history_doc "conversation" ]}) |}.

Definition process_conversation
    (request : ConversationRequest) (g : gateway) (now : N) : M response :=
  reraise_as (HTTPException 500 "Internal server error") (
    let conversation := conversation_of request in
    if negb (Py.nonempty conversation)
       || negb (Py.nonempty (Py.strip conversation))
    then raise (HTTPException 400 "Conversation data is required")
    else
      '(phone_number, email) ← identify g;
      languages_used ← detect_languages (languages_reply g);
      _ ← get_mongodb_client;
      user ← find_or_create_user phone_number email g;
      let user_id := get user "_id" in
      if negb (truthy user_id)
      then raise (HTTPException 500 "User ID not found")
      else
        analytics_doc ← upsert_analytics user_id g;
        conversation_history_doc ←
          store_history conversation user_id languages_used now;
        mret (response_of user analytics_doc conversation_history_doc)).

End Pipeline.

(** ** Vocabulary of the statements on tags

    These definitions say what the specification calls a tagged line; they
    are not part of the embedded code. *)

Module TagSpec.
Import Tags.

(** The line the loop body appends for [line]. *)
Definition normalize_line (line : str) : str :=
  match Re.re_match agent_pattern line IGNORECASE with
  | Some agent_match => text "Agent: " ++ Re.group1 agent_match
  | None =>
      match Re.re_match user_pattern line IGNORECASE with
      | Some user_match => text "User: " ++ Re.group1 user_match
      | None => line
      end
  end.

(** Equal up to the case of letters. *)
Definition ci_eq (a b : str) : Prop := Py.lower a = Py.lower b.

(** White space only (possibly none). *)
Definition blanks (w : str) : Prop := Forall (fun c => isspace c = true) w.

(** The agent tags: the display name with the role in parentheses, the
    role with anything in parentheses, the display name, the role. *)
Inductive agent_tag : str -> Prop :=
| tag_name_role n w r :
    ci_eq n (text "Natalie") -> blanks w -> ci_eq r (text "(Agent)") ->
    agent_tag (n ++ w ++ r)
| tag_role_paren a w inner :
    ci_eq a (text "Agent") -> blanks w -> ")"%char ∉ inner ->
    agent_tag (a ++ w ++ "("%char :: inner ++ [")"%char])
| tag_name n : ci_eq n (text "Natalie") -> agent_tag n
| tag_role a : ci_eq a (text "Agent") -> agent_tag a.

Definition user_tag (t : str) : Prop := ci_eq t (text "User").

(** [line] is a tag, optional white space, a colon, and [after]. *)
Definition tagged (tag : str -> Prop) (line after : str) : Prop :=
  exists t w, tag t /\ blanks w /\ line = t ++ w ++ ":"%char :: after.

(** The remainder kept from what follows the colon: its leading white
    space is dropped. *)
Definition remainder (after : str) : str := Py.lstrip_by isspace after.

(** Strip a prefix equal to [p] up to case. *)
Fixpoint after_ci (p s : str) : option str :=
  match p, s with
  | [], _ => Some s
  | c :: p', x :: s' =>
      if bool_decide (Re.lower c = Re.lower x) then after_ci p' s' else None
  | _ :: _, [] => None
  end.

(** What the common tail of both patterns does on a line without newline. *)
Definition tail_of (s : str) : option (option str) :=
  match Py.lstrip_by isspace s with
  | c :: s' =>
      if bool_decide (c = ":"%char) then Some (Some (remainder s')) else None
  | [] => None
  end.

Definition or_else {A} (a b : option A) : option A :=
  match a with Some x => Some x | None => b end.

(** The agent pattern as a deterministic scan. *)
Definition agent_scan (line : str) : option (option str) :=
  or_else
    (s1 ← after_ci (text "Natalie") line;
     s2 ← after_ci (text "(Agent)") (Py.lstrip_by isspace s1);
     tail_of s2)
  (or_else
    (s1 ← after_ci (text "Agent") line;
     s2 ← after_ci (text "(") (Py.lstrip_by isspace s1);
     s3 ← after_ci (text ")") (Py.lstrip_by Re.not_rparen s2);
     tail_of s3)
  (or_else
    (s1 ← after_ci (text "Natalie") line; tail_of s1)
    (s1 ← after_ci (text "Agent") line; tail_of s1))).

Definition user_scan (line : str) : option (option str) :=
  s1 ← after_ci (text "User") line; tail_of s1.

(** Two words that differ, up to case, in their first character. *)
Definition head_mismatch (q p : str) : Prop :=
  match q, p with
  | a :: _, c :: _ => Re.lower a <> Re.lower c
  | _, _ => False
  end.

End TagSpec.

(** ** Vocabulary of the statements on the pipeline *)

Module PipelineSpec.
Import Pipeline.

(** The world after more external calls, the store untouched. *)
Definition logged (w : world) (evs : list event) : world :=
  {| db := db w; log := log w ++ evs |}.

(** Empty or white space only: what the handler rejects first. *)
Definition blank (conversation : str) : Prop := Py.strip conversation = [].

Definition InvalidInput : exn :=
  HTTPException 400 "Conversation data is required".

Definition ExtractionFailed : exn :=
  HTTPException 400
    "Could not extract phone number or email from conversation".

(** A decimal digit, '0'..'9', and a string of them. *)
Definition decimal (c : ascii) : bool := (48 <=? code c) && (code c <=? 57).
Definition decimals (s : str) : Prop := Forall (fun c => decimal c = true) s.

(** The stored form of a phone number: "91" and ten decimal digits. *)
Definition phone_number_format (v : value) : Prop :=
  exists p, v = VStr (text "91" ++ p) /\ length p = 10 /\ decimals p.

(** A string that [ObjectId] reads as an identifier: 24 characters that
    [bytes.fromhex] accepts.  For such an [_id], [ObjectId(_id)] is not
    the [_id]. *)
Definition hex_id (v : value) : bool :=
  match v with
  | VStr _ => match validate v with inr _ => true | inl _ => false end
  | _ => false
  end.

(** No user of the store has such a string as [_id]. *)
Definition no_hex_ids (l : list doc) : Prop :=
  Forall (fun u => hex_id (get u "_id") = false) l.

(** At most one analytics record for each user id. *)
Definition one_per_user (l : list doc) : Prop :=
  forall v, length (List.filter (selects "user_id" v) l) <= 1.

(** The look-up by phone number, when there is a phone number: what it
    finds and the event it leaves. *)
Definition by_phone (phone_number : option str) (w : world) : option doc :=
  match present phone_number with
  | Some p =>
      List.find (selects "phone_number" (phone_db_format p)) (users_of (db w))
  | None => None
  end.

Definition phone_lookup (phone_number : option str) : list event :=
  match present phone_number with
  | Some p => [FindOne users "phone_number" (phone_db_format p)]
  | None => []
  end.

(** The same for the look-up by e-mail address of the handler. *)
Definition by_email (email : option str) (w : world) : option doc :=
  match present email with
  | Some e =>
      List.find (selects "email" (VStr (Py.strip (Py.lower e))))
        (users_of (db w))
  | None => None
  end.

Definition email_lookup (email : option str) : list event :=
  match present email with
  | Some e => [FindOne users "email" (VStr (Py.strip (Py.lower e)))]
  | None => []
  end.

(** An event of identity resolution: an access to the users collection,
    the extraction of an e-mail address or of a profile. *)
Definition identity_event (e : event) : bool :=
  match e with
  | FindOne users _ _ | InsertOne users _ | UpdateOne users _ _ _ => true
  | Chat chat_email | Chat chat_profile => true
  | _ => false
  end.

(** The four fields of a derived analytics document. *)
Definition derived_fields : list string :=
  ["user_id"; "country"; "intent_level"; "follow_up"].

End PipelineSpec.

(** ** Sample requests and stores *)

Module Samples.
Import Pipeline.

Definition request : ConversationRequest :=
  {| conversation_of :=
       text "Natalie (Agent): Hello" ++ Tags.nl
         :: text "User: my number is 98765 43210" |}.

(** The answers of the service for a caller: the phone number read from
    the transcript, the e-mail address of the profile, the intent level. *)
Definition answers (phone profile_email intent : string) : gateway :=
  {| phone_reply := Some (text phone);
     email_reply := None;
     languages_reply := [text "english"];
     profile_reply :=
       Some (<["name" := VStr (text "Asha")]>
               {[ "email" := VStr (text profile_email) ]});
     analytics_reply :=
       Some (<["country" := VStr (text "India")]>
               {[ "intent_level" := VStr (text intent) ]});
     follow_up_reply := Some {[ "follow_up" := VBool true ]};
     follow_up_reply_again := Some {[ "follow_up" := VBool false ]} |}.

Definition empty_world : world :=
  {| db := {| users_of := []; userAnalytics_of := [];
              conversationHistory_of := []; next_oid := 1 |};
     log := [] |}.

(** A store with one user known by e-mail address only. *)
Definition email_user : doc :=
  <["_id" := VObjectId 1]>
    (<["name" := VStr (text "Asha")]>
      {[ "email" := VStr (text "asha@example.com") ]}).

Definition email_world : world :=
  {| db := {| users_of := [email_user]; userAnalytics_of := [];
              conversationHistory_of := []; next_oid := 2 |};
     log := [] |}.

(** A store with one user known by phone number and an analytics record
    of an older shape: no [follow_up], and a [budget]. *)
Definition phone_user : doc :=
  <["_id" := VObjectId 1]>
    (<["name" := VStr (text "Asha")]>
      (<["email" := VStr []]>
        {[ "phone_number" := VStr (text "919876543210") ]})).

Definition legacy_record : doc :=
  <["_id" := VObjectId 2]>
    (<["user_id" := VObjectId 1]>
      (<["country" := VStr (text "India")]>
        (<["intent_level" := VStr (text "TOFU")]>
          {[ "budget" := VStr (text "1,90,000-2,00,000") ]}))).

Definition legacy_world : world :=
  {| db := {| users_of := [phone_user]; userAnalytics_of := [legacy_record];
              conversationHistory_of := []; next_oid := 3 |};
     log := [] |}.

(** A phone number that the service writes in superscript digits, which
    [str.isdigit] accepts. *)
Definition superscripts : str := replicate 10 "178"%char.

Definition superscript_answers : gateway :=
  {| phone_reply := Some superscripts;
     email_reply := None;
     languages_reply := [text "english"];
     profile_reply := Some {[ "name" := VStr (text "Asha") ]};
     analytics_reply := Some {[ "country" := VStr (text "India") ]};
     follow_up_reply := None;
     follow_up_reply_again := None |}.

(** A store whose one user has a string as [_id], of the kind that
    [ObjectId] accepts. *)
Definition hex_user : doc :=
  <["_id" := VStr (text "0123456789abcdef01234567")]>
    (<["name" := VStr (text "Asha")]>
      (<["email" := VStr []]>
        {[ "phone_number" := VStr (text "919876543210") ]})).

Definition hex_world : world :=
  {| db := {| users_of := [hex_user]; userAnalytics_of := [];
              conversationHistory_of := []; next_oid := 1 |};
     log := [] |}.

(** The first user of a store. *)
Definition first_user (w : world) : doc :=
  default ∅ (head (users_of (db w))).

(** A field of the user, and of the analytics, that a request returned. *)
Definition returned_user (field : string) (out : exn + response)
    : option value :=
  match out with
  | inr r => user_of r !! field
  | inl _ => None
  end.

Definition returned_analytics (field : string) (out : exn + response)
    : option value :=
  match out with
  | inr r => analytics_of r !! field
  | inl _ => None
  end.

(** The first analytics record of a store. *)
Definition first_record (w : world) : doc :=
  default ∅ (head (userAnalytics_of (db w))).

End Samples.

(** ** The other helpers of the source *)

Module Helpers.
Import Pipeline.

(** The order of Python on strings: character by character, by code
    point; a proper prefix comes first. *)
Fixpoint str_leb (a b : str) : bool :=
  match a, b with
  | [], _ => true
  | _ :: _, [] => false
  | x :: a', y :: b' =>
      if code x <? code y then true
      else if code y <? code x then false
      else str_leb a' b'
  end.

Definition str_le (a b : str) : Prop := str_leb a b = true.

Global Instance str_le_dec : RelDecision str_le.
Proof. intros a b. unfold str_le. apply _. Defined.

(** [sorted(list(set(l)))]: the distinct elements in ascending order.
    The order in which a Python set lists its elements is not fixed; the
    sorted list does not depend on it ([sorted_set_unique] below). *)
Definition sorted_set (l : list str) : list str :=
  merge_sort str_le (remove_dups l).

(** [for lang in v]: the strings a value yields when iterated, [None]
    when it cannot be iterated (TypeError).  A string yields its
    characters. *)
Definition iterate (v : value) : option (list str) :=
  match v with
  | VStrList l => Some l
  | VStr s => Some (map (fun c => [c]) s)
  | _ => None
  end.

Definition english : str := text "english".

(** What [detect_languages] makes of the answer ([None]: the call, or
    reading the JSON, raised).  Its result is what [languages_reply]
    stands for in a [gateway]. *)
Definition languages_of_reply (result : option doc) : list str :=
  match result with
  | None => [english]
  | Some result =>
      match iterate (get_or result "languages" (VStrList [])) with
      | None => [english]
      | Some languages =>
          let languages :=
            map (fun lang => Py.strip (Py.lower lang))
              (List.filter
                 (fun lang => Py.nonempty lang && Py.nonempty (Py.strip lang))
                 languages) in
          let languages :=
            if bool_decide (languages = []) then [english] else languages in
          sorted_set languages
      end
  end.

(** [sub in s] *)
Fixpoint contains (sub s : str) : bool :=
  startswith sub s
  || match s with
     | [] => false
     | _ :: s' => contains sub s'
     end.

(** The test of [format_budget_indian_style] for a text that is already
    formatted. *)
Definition already_formatted (budget_text : str) : bool :=
  bool_decide ("-"%char ∈ budget_text)
  && bool_decide (","%char ∈ budget_text)
  && negb (contains (text "lakh") (Py.lower budget_text))
  && negb (contains (text "per") (Py.lower budget_text)).

(** [format_budget_indian_style(budget_text)]: the result, and whether
    the service was asked.  [reply] is the answer of the service, [None]
    when the call raises. *)
Definition format_budget_indian_style (budget_text : value)
    (reply : option str) : str * bool :=
  match budget_text with
  | VStr budget_text =>
      if negb (Py.nonempty budget_text) then ([], false)
      else if already_formatted budget_text
      then (Py.strip budget_text, false)
      else
        match reply with
        | Some content =>
            (Py.strip_by (Py.one_of [squote])
               (Py.strip_by (Py.one_of [dquote]) (Py.strip content)), true)
        | None => (budget_text, true)
        end
  | _ => ([], false)
  end.

End Helpers.

(** ** Vocabulary of the further statements *)

Module HelpersSpec.
Import Pipeline PipelineSpec.

(** All letters in lower case, in upper case. *)
Definition lowercase (s : str) : Prop := Py.lower s = s.
Definition uppercase (s : str) : Prop := Py.upper s = s.

(** No white space at either end. *)
Definition stripped (s : str) : Prop := Py.strip s = s.

(** The first character is not white space. *)
Definition no_leading_blank (s : str) : Prop :=
  Py.lstrip_by isspace s = s.

(** No two documents hold the same true value in [field]. *)
Definition unique_on (field : string) (l : list doc) : Prop :=
  forall v, truthy v = true ->
    length (List.filter (selects field v) l) <= 1.

(** What the handler turns an exception into before it leaves. *)
Definition as_http (e : exn) : exn :=
  match e with
  | Exception _ => HTTPException 500 "Internal server error"
  | _ => e
  end.

(** The call that extracts an e-mail address. *)
Definition asks_email (e : event) : bool :=
  match e with
  | Chat chat_email => true
  | _ => false
  end.

(** The reply can be used: it is not blank and not the NOT_FOUND mark. *)
Definition usable (content : str) : Prop :=
  Py.strip content <> [] /\ Py.strip content <> NOT_FOUND.

End HelpersSpec.

(** * Properties *)

(** ** Phone normaliser *)

Section PhoneFacts.
Import Phone.

Lemma digits_only_digits x : digits (digits_only x).
Proof.
  unfold digits, digits_only. apply Forall_forall. intros c Hc.
  apply list_elem_of_In, filter_In in Hc. tauto.
Qed.

Lemma digits_drop n s : digits s -> digits (drop n s).
Proof. apply Forall_drop. Qed.

Lemma digits_replicate_zero n : digits (replicate n "0"%char).
Proof. apply Forall_replicate. reflexivity. Qed.

Lemma digit_not_sign c : isdigit c = true -> ¬ (c = "+"%char ∨ c = "-"%char).
Proof. intros H [-> | ->]; discriminate H. Qed.

(** On a string of digits [zfill] only pads: there is no sign to skip. *)
Lemma zfill_digits width s :
  digits s -> length s < width ->
  zfill width s = replicate (width - length s) "0"%char ++ s.
Proof.
  intros Hd Hlt. unfold zfill.
  destruct (Nat.leb_spec width (length s)) as [Hle | _]; [lia |].
  destruct Hd as [| c rest Hc _]; simpl.
  - by rewrite app_nil_r.
  - destruct (decide _) as [Hs | _]; [| done].
    by apply digit_not_sign in Hs.
Qed.

Lemma length_zfill_digits width s :
  digits s -> length s < width -> length (zfill width s) = width.
Proof.
  intros Hd Hlt. rewrite zfill_digits by done.
  rewrite length_app, length_replicate. lia.
Qed.

Lemma normalize_phone_number_digits x : digits (normalize_phone_number x).
Proof.
  unfold normalize_phone_number. pose proof (digits_only_digits x) as Hd.
  destruct (_ && _).
  - by apply digits_drop.
  - destruct (Nat.ltb_spec 10 (length (digits_only x))).
    + by apply digits_drop.
    + destruct (Nat.ltb_spec (length (digits_only x)) 10); [| done].
      rewrite zfill_digits by done.
      apply Forall_app; split; [apply digits_replicate_zero | done].
Qed.

(** Outside the prefix-stripping branch the result has ten characters. *)
Lemma normalize_phone_number_length_other x :
  startswith (text "91") (digits_only x) && (10 <? length (digits_only x))
    = false ->
  length (normalize_phone_number x) = 10.
Proof.
  intros Hb. unfold normalize_phone_number. rewrite Hb.
  pose proof (digits_only_digits x) as Hd.
  destruct (Nat.ltb_spec 10 (length (digits_only x))).
  - unfold last_chars. rewrite length_drop. lia.
  - destruct (Nat.ltb_spec (length (digits_only x)) 10).
    + by apply length_zfill_digits.
    + lia.
Qed.

(** In the prefix-stripping branch it has two characters less than the
    digit string. *)
Lemma normalize_phone_number_length_91 x :
  startswith (text "91") (digits_only x) && (10 <? length (digits_only x))
    = true ->
  length (normalize_phone_number x) = length (digits_only x) - 2.
Proof.
  intros Hb. unfold normalize_phone_number. rewrite Hb. apply length_drop.
Qed.

(** A ten-digit string is a fixed point. *)
Lemma normalize_phone_number_fixed s :
  digits s -> length s = 10 -> normalize_phone_number s = s.
Proof.
  intros Hd Hl. unfold normalize_phone_number.
  assert (digits_only s = s) as ->.
  { unfold digits_only. clear Hl. induction Hd as [| c r Hc _ IH]; simpl.
    - done.
    - rewrite Hc. by f_equal. }
  rewrite Hl. simpl. by rewrite andb_false_r.
Qed.

Lemma normalize_phone_number_idem_iff x :
  normalize_phone_number (normalize_phone_number x) = normalize_phone_number x
  <-> length (normalize_phone_number x) = 10.
Proof.
  split.
  - intros Heq.
    destruct (startswith (text "91") (digits_only (normalize_phone_number x))
              && (10 <? length (digits_only (normalize_phone_number x))))
      eqn:Hb.
    + apply normalize_phone_number_length_91 in Hb as Hlen.
      apply andb_prop in Hb as [_ Hlt]. apply Nat.ltb_lt in Hlt.
      rewrite Heq in Hlen.
      pose proof (filter_length_le isdigit (normalize_phone_number x)).
      unfold digits_only in *. lia.
    + apply normalize_phone_number_length_other in Hb. by rewrite Heq in Hb.
  - intros Hl. apply normalize_phone_number_fixed; [| done].
    apply normalize_phone_number_digits.
Qed.

(** C3.  The cases are tried in order: an overlong digit string starting
    with "91" loses its first two characters; any other overlong digit
    string keeps its last ten; a ten-digit string starting with "91" is
    returned as it is; a shorter one is padded on the left with "0" to
    width ten.  The two examples of the specification are included. *)
Theorem normalize_phone_number_cases :
  (forall x : str,
     let d := digits_only x in
     (startswith (text "91") d = true -> 10 < length d ->
      normalize_phone_number x = drop 2 d) /\
     (startswith (text "91") d = false -> 10 < length d ->
      normalize_phone_number x = drop (length d - 10) d
      /\ length (normalize_phone_number x) = 10) /\
     (startswith (text "91") d = true -> length d = 10 ->
      normalize_phone_number x = d) /\
     (length d < 10 ->
      normalize_phone_number x = replicate (10 - length d) "0"%char ++ d
      /\ length (normalize_phone_number x) = 10))
  /\ normalize_phone_number (text "123456789012") = text "3456789012"
  /\ normalize_phone_number (text "12345") = text "0000012345".
Proof.
  split; [| split; reflexivity].
  intros x d. pose proof (digits_only_digits x) as Hd. fold d in Hd.
  unfold normalize_phone_number. fold d.
  split; [| split; [| split]].
  - intros -> Hlt. apply Nat.ltb_lt in Hlt. by rewrite Hlt.
  - intros -> Hlt. apply Nat.ltb_lt in Hlt as Hlt'. rewrite Hlt'. simpl.
    split; [done |]. unfold last_chars. rewrite length_drop. lia.
  - intros _ ->. simpl. by rewrite andb_false_r.
  - intros Hlt. rewrite <- zfill_digits by done.
    destruct (Nat.ltb_spec 10 (length d)); [lia |]. rewrite andb_false_r.
    apply Nat.ltb_lt in Hlt as Hlt'. rewrite Hlt'.
    split; [done |]. by apply length_zfill_digits.
Qed.

Lemma normalize_phone_number_cases_witness :
  normalize_phone_number (text "+91 98765 43210") = text "9876543210"
  /\ normalize_phone_number (text "0044 20 7946 0958") = text "2079460958"
  /\ normalize_phone_number (text "9198765432") = text "9198765432"
  /\ normalize_phone_number (text "98765") = text "0000098765".
Proof.
  pose proof (proj1 normalize_phone_number_cases) as H.
  split; [| split; [| split]].
  - destruct (H (text "+91 98765 43210")) as (H1 & _).
    rewrite H1; [reflexivity | reflexivity | simpl; lia].
  - destruct (H (text "0044 20 7946 0958")) as (_ & H2 & _).
    destruct H2 as [H2 _]; [reflexivity | simpl; lia |].
    rewrite H2. reflexivity.
  - destruct (H (text "9198765432")) as (_ & _ & H3 & _).
    rewrite H3; reflexivity.
  - destruct (H (text "98765")) as (_ & _ & _ & H4).
    destruct H4 as [H4 _]; [simpl; lia |]. rewrite H4. reflexivity.
Defined.

(** C1.  The prefix-stripping branch does not bring the result to ten
    characters: an eleven-digit string starting with "91" gives nine
    digits, a thirteen-digit one gives eleven. *)
Theorem normalize_phone_number_not_ten :
  normalize_phone_number (text "91123456789") = text "123456789"
  /\ length (normalize_phone_number (text "91123456789")) = 9
  /\ normalize_phone_number (text "+91 98765 432109") = text "98765432109"
  /\ length (normalize_phone_number (text "+91 98765 432109")) = 11.
Proof. repeat split. Qed.

(** C2.  On the same input a second pass changes the result: the nine
    digits left by the first pass are padded to ten. *)
Theorem normalize_phone_number_not_idempotent :
  normalize_phone_number (text "91123456789") = text "123456789"
  /\ normalize_phone_number (normalize_phone_number (text "91123456789"))
     = text "0123456789"
  /\ normalize_phone_number (normalize_phone_number (text "91123456789"))
     <> normalize_phone_number (text "91123456789").
Proof. repeat split. discriminate. Qed.

End PhoneFacts.

(** ** Lines: [split] and [join] *)

Section Lines.
Import Tags.

Lemma split_not_nil sep s : split sep s <> [].
Proof.
  destruct s as [| c s]; simpl; [done |].
  destruct (decide (c = sep)); [done |]. by destruct (split sep s).
Qed.

Lemma split_no_sep sep s : Forall (fun l => sep ∉ l) (split sep s).
Proof.
  induction s as [| c s IH]; simpl.
  - constructor; [apply not_elem_of_nil | constructor].
  - destruct (decide (c = sep)) as [-> | Hne].
    + constructor; [apply not_elem_of_nil | done].
    + destruct (split sep s) as [| l ls]; simpl.
      * repeat constructor. rewrite elem_of_cons. intros [? | H]; [done |].
        by apply not_elem_of_nil in H.
      * inversion IH as [| ? ? Hl Hls]; subst. constructor; [| done].
        rewrite elem_of_cons. intros [? | ?]; [done | by apply Hl].
Qed.

Lemma join_split sep s : join sep (split sep s) = s.
Proof.
  induction s as [| c s IH]; simpl; [done |].
  destruct (decide (c = sep)) as [-> | Hne].
  - pose proof (split_not_nil sep s). simpl.
    destruct (split sep s) as [| l ls]; [done |]. by rewrite IH.
  - pose proof (split_not_nil sep s).
    destruct (split sep s) as [| l ls]; [done |].
    destruct ls; simpl in *; by rewrite IH.
Qed.

Lemma split_free sep l : sep ∉ l -> split sep l = [l].
Proof.
  induction l as [| c l IH]; simpl; [done |].
  rewrite not_elem_of_cons. intros [Hne Hl].
  destruct (decide (c = sep)); [done |]. by rewrite IH.
Qed.

Lemma split_app sep a b :
  sep ∉ a -> split sep (a ++ sep :: b) = a :: split sep b.
Proof.
  induction a as [| c a IH]; simpl.
  - intros _. by destruct (decide (sep = sep)).
  - rewrite not_elem_of_cons. intros [Hne Ha].
    destruct (decide (c = sep)); [done |]. by rewrite IH.
Qed.

Lemma split_join sep ls :
  ls <> [] -> Forall (fun l => sep ∉ l) ls -> split sep (join sep ls) = ls.
Proof.
  induction ls as [| l ls IH]; [done |]. intros _ Hall.
  inversion Hall as [| ? ? Hl Hls]; subst.
  destruct ls as [| l' ls].
  - simpl. by apply split_free.
  - change (join sep (l :: l' :: ls)) with (l ++ sep :: join sep (l' :: ls)).
    rewrite split_app by done. by rewrite IH.
Qed.

Lemma foldl_normalize_step acc ls :
  foldl normalize_step acc ls = acc ++ map TagSpec.normalize_line ls.
Proof.
  revert acc. induction ls as [| l ls IH]; intros acc; simpl.
  - by rewrite app_nil_r.
  - rewrite IH. unfold normalize_step, TagSpec.normalize_line.
    destruct (Re.re_match agent_pattern l IGNORECASE);
      [| destruct (Re.re_match user_pattern l IGNORECASE)];
      by rewrite <- app_assoc.
Qed.

Lemma normalize_conversation_tags_lines x :
  normalize_conversation_tags x
  = join nl (map TagSpec.normalize_line (split nl x)).
Proof. unfold normalize_conversation_tags. by rewrite foldl_normalize_step. Qed.

End Lines.

(** ** The matcher on the two patterns *)

Section Matcher.
Import Re Tags TagSpec.

(** Greedy repetition stops where the set stops, when the continuation
    rejects every text that begins inside the set ... *)
Lemma star_greedy_reject {R} set s (k : str -> option R) :
  (forall c t, set c = true -> k (c :: t) = None) ->
  star_greedy set s k = k (Py.lstrip_by set s).
Proof.
  intros Hk. induction s as [| c s IH]; simpl; [done |].
  destruct (set c) eqn:Hc; [| done].
  rewrite IH. destruct (k (Py.lstrip_by set s)); [done |]. by apply Hk.
Qed.

(** ... and also when the continuation accepts there. *)
Lemma star_greedy_longest {R} set s (k : str -> option R) :
  is_Some (k (Py.lstrip_by set s)) ->
  star_greedy set s k = k (Py.lstrip_by set s).
Proof.
  induction s as [| c s IH]; simpl; [done |].
  destruct (set c) eqn:Hc; [| done].
  intros Hs. rewrite IH by done. by destruct Hs as [r ->].
Qed.

Lemma run_word p s cap {R} (k : str -> option str -> option R) :
  run true (word p) s cap k = (s' ← after_ci p s; k s' cap).
Proof.
  revert s. induction p as [| c p IH]; intros s.
  - simpl. by destruct s.
  - destruct p as [| c' p].
    + simpl. destruct s as [| x s]; [done |]. unfold char_matches.
      by destruct (bool_decide _).
    + change (word (c :: c' :: p)) with (Cat (Lit c) (word (c' :: p))).
      simpl run. destruct s as [| x s]; [done |].
      unfold char_matches. simpl after_ci.
      destruct (bool_decide _); [| done]. apply IH.
Qed.

Lemma run_lit c s cap {R} (k : str -> option str -> option R) :
  run true (Lit c) s cap k = (s' ← after_ci [c] s; k s' cap).
Proof. apply (run_word [c]). Qed.

(** Suffixes and pieces. *)
Lemma after_ci_Some p s s' :
  after_ci p s = Some s' -> exists t, s = t ++ s' /\ ci_eq t p.
Proof.
  revert s. induction p as [| c p IH]; intros s; simpl.
  - intros [= ->]. by exists [].
  - destruct s as [| x s]; [done |].
    destruct (bool_decide_reflect (lower c = lower x)) as [Hc |]; [| done].
    intros (t & -> & Ht)%IH. exists (x :: t). split; [done |].
    unfold ci_eq, Py.lower in *. simpl. by rewrite Hc, Ht.
Qed.

Lemma after_ci_app t p r : ci_eq t p -> after_ci p (t ++ r) = Some r.
Proof.
  unfold ci_eq, Py.lower. revert t.
  induction p as [| c p IH]; intros [| x t]; simpl; try done.
  intros [= Hx Ht]. rewrite bool_decide_true by done. by apply IH.
Qed.

Lemma lstrip_by_pieces set s :
  exists w, s = w ++ Py.lstrip_by set s /\ Forall (fun c => set c = true) w.
Proof.
  induction s as [| c s (w & Hs & Hw)]; simpl.
  - by exists [].
  - destruct (set c) eqn:Hc.
    + exists (c :: w). split; [by rewrite Hs at 1 | by constructor].
    + by exists [].
Qed.

Lemma lstrip_by_app set w c r :
  Forall (fun c => set c = true) w -> set c = false ->
  Py.lstrip_by set (w ++ c :: r) = c :: r.
Proof.
  intros Hw Hc. induction Hw as [| x w Hx _ IH]; simpl.
  - by rewrite Hc.
  - by rewrite Hx.
Qed.

Lemma lstrip_by_head set s c r :
  Py.lstrip_by set s = c :: r -> set c = false.
Proof.
  induction s as [| x s IH]; simpl; [done |].
  destruct (set x) eqn:Hx; [done |]. by intros [= <- _].
Qed.

Lemma lstrip_by_fixed set s :
  Py.lstrip_by set (Py.lstrip_by set s) = Py.lstrip_by set s.
Proof.
  destruct (Py.lstrip_by set s) as [| c r] eqn:E; [done |].
  apply lstrip_by_head in E. simpl. by rewrite E.
Qed.

Lemma no_nl_app (a b : str) : (nl ∉ a ++ b) <-> (nl ∉ a) /\ (nl ∉ b).
Proof. rewrite elem_of_app. tauto. Qed.

Lemma no_nl_after_ci p s s' : nl ∉ s -> after_ci p s = Some s' -> nl ∉ s'.
Proof. intros Hs (t & -> & _)%after_ci_Some. by apply no_nl_app in Hs as []. Qed.

Lemma no_nl_lstrip_by set s : nl ∉ s -> nl ∉ Py.lstrip_by set s.
Proof.
  intros Hs. destruct (lstrip_by_pieces set s) as (w & Heq & _).
  rewrite Heq in Hs. by apply no_nl_app in Hs as [].
Qed.

(** Characters. *)
Lemma space_not_colon c : isspace c = true -> c <> ":"%char.
Proof. by intros H ->. Qed.

Lemma space_rejects_colon c :
  isspace c = true -> bool_decide (lower ":" = lower c) = false.
Proof.
  intros H. apply bool_decide_eq_false. intros E.
  destruct c as [[] [] [] [] [] [] [] []]; by vm_compute in H, E.
Qed.

Lemma space_rejects_lparen c :
  isspace c = true -> bool_decide (lower "(" = lower c) = false.
Proof.
  intros H. apply bool_decide_eq_false. intros E.
  destruct c as [[] [] [] [] [] [] [] []]; by vm_compute in H, E.
Qed.

Lemma not_rparen_rejects c :
  not_rparen c = true -> bool_decide (lower ")" = lower c) = false.
Proof.
  intros H. apply bool_decide_eq_false. intros E.
  destruct c as [[] [] [] [] [] [] [] []]; by vm_compute in H, E.
Qed.

Lemma lower_colon c : lower ":" = lower c -> c = ":"%char.
Proof.
  intros E. destruct c as [[] [] [] [] [] [] [] []]; by vm_compute in E.
Qed.

Lemma lower_lparen c : lower "(" = lower c -> c = "("%char.
Proof.
  intros E. destruct c as [[] [] [] [] [] [] [] []]; by vm_compute in E.
Qed.

Lemma lower_rparen c : lower ")" = lower c -> c = ")"%char.
Proof.
  intros E. destruct c as [[] [] [] [] [] [] [] []]; by vm_compute in E.
Qed.

Lemma lstrip_by_dot s : nl ∉ s -> Py.lstrip_by dot s = [].
Proof.
  induction s as [| c s IH]; simpl; [done |].
  rewrite not_elem_of_cons. intros [Hc Hs]. unfold dot at 1.
  rewrite bool_decide_false by (intros ->; by apply Hc). simpl. by apply IH.
Qed.

Lemma run_alt r1 r2 s cap {R} (k : str -> option str -> option R) :
  run true (Alt r1 r2) s cap k
  = or_else (run true r1 s cap k) (run true r2 s cap k).
Proof. reflexivity. Qed.

Lemma run_cat r1 r2 s cap {R} (k : str -> option str -> option R) :
  run true (Cat r1 r2) s cap k
  = run true r1 s cap (fun s' cap' => run true r2 s' cap' k).
Proof. reflexivity. Qed.

(** Group 1 takes the whole rest of a line. *)
Lemma run_rest s cap :
  nl ∉ s ->
  run true (Group (Star dot) -:- Eos) s cap (fun _ c => Some c)
  = Some (Some s).
Proof.
  intros Hs. cbn [run].
  rewrite star_greedy_longest; rewrite lstrip_by_dot by done; simpl.
  - by rewrite Nat.sub_0_r, firstn_all.
  - done.
Qed.

(** The tail shared by the two patterns: white space, the colon, white
    space, group 1. *)
Lemma run_tail s cap :
  nl ∉ s ->
  run true
    (Star space -:- Lit ":" -:- Star space -:- Group (Star dot) -:- Eos)
    s cap (fun _ c => Some c)
  = tail_of s.
Proof.
  intros Hs. rewrite run_cat. cbn [run]. unfold tail_of.
  rewrite star_greedy_reject.
  2:{ intros c t Hc. unfold char_matches. by rewrite space_rejects_colon. }
  pose proof (no_nl_lstrip_by space s Hs) as Hs'. fold space.
  destruct (Py.lstrip_by space s) as [| c s']; [done |].
  unfold char_matches.
  destruct (bool_decide_reflect (lower ":" = lower c)) as [E | E].
  - apply lower_colon in E as ->. rewrite bool_decide_true by done.
    apply not_elem_of_cons in Hs' as [_ Hs'].
    pose proof (run_rest (Py.lstrip_by space s') cap
                  (no_nl_lstrip_by space s' Hs')) as Hr.
    rewrite run_cat in Hr. cbn [run] in Hr.
    rewrite star_greedy_longest.
    + exact Hr.
    + rewrite Hr. by eexists.
  - rewrite bool_decide_false; [done |]. intros ->. by apply E.
Qed.

Lemma bind_after_ci_ext {X} p s (f g : str -> option X) :
  nl ∉ s -> (forall s', nl ∉ s' -> f s' = g s') ->
  (after_ci p s ≫= f) = (after_ci p s ≫= g).
Proof.
  intros Hs Hfg. destruct (after_ci p s) as [s' |] eqn:E; [| done].
  simpl. apply Hfg. by eapply no_nl_after_ci.
Qed.

Lemma run_star set s cap {R} (k : str -> option str -> option R) :
  run true (Star set) s cap k = star_greedy set s (fun s' => k s' cap).
Proof. reflexivity. Qed.

Lemma agent_scan_correct line :
  nl ∉ line -> re_match agent_pattern line IGNORECASE = agent_scan line.
Proof.
  intros Hnl. unfold re_match, agent_pattern, agent_scan, IGNORECASE.
  rewrite run_cat, !run_alt.
  f_equal; [| f_equal; [| f_equal]].
  - rewrite run_cat, run_word. apply bind_after_ci_ext; [done |].
    intros s1 Hs1. rewrite run_cat, run_star, star_greedy_reject.
    2:{ intros c t Hc. rewrite run_word. simpl.
        by rewrite space_rejects_lparen. }
    rewrite run_word. apply bind_after_ci_ext; [by apply no_nl_lstrip_by |].
    intros s2 Hs2. exact (run_tail s2 None Hs2).
  - rewrite run_cat, run_word. apply bind_after_ci_ext; [done |].
    intros s1 Hs1. rewrite run_cat, run_star, star_greedy_reject.
    2:{ intros c t Hc. rewrite run_cat, run_lit. simpl.
        by rewrite space_rejects_lparen. }
    rewrite run_cat, run_lit.
    apply bind_after_ci_ext; [by apply no_nl_lstrip_by |].
    intros s2 Hs2. rewrite run_cat, run_star, star_greedy_reject.
    2:{ intros c t Hc. rewrite run_lit. simpl.
        by rewrite not_rparen_rejects. }
    rewrite run_lit.
    apply bind_after_ci_ext; [by apply no_nl_lstrip_by |].
    intros s3 Hs3. exact (run_tail s3 None Hs3).
  - rewrite run_word. apply bind_after_ci_ext; [done |].
    intros s1 Hs1. exact (run_tail s1 None Hs1).
  - rewrite run_word. apply bind_after_ci_ext; [done |].
    intros s1 Hs1. exact (run_tail s1 None Hs1).
Qed.

Lemma user_scan_correct line :
  nl ∉ line -> re_match user_pattern line IGNORECASE = user_scan line.
Proof.
  intros Hnl. unfold re_match, user_pattern, user_scan, IGNORECASE.
  rewrite run_cat, run_word. apply bind_after_ci_ext; [done |].
  intros s1 Hs1. exact (run_tail s1 None Hs1).
Qed.

End Matcher.

(** ** What the two patterns accept *)

Section Accepts.
Import Re Tags TagSpec.

Lemma ci_eq_cons_r t c p :
  ci_eq t (c :: p) ->
  exists x t', t = x :: t' /\ lower x = lower c /\ ci_eq t' p.
Proof.
  unfold ci_eq, Py.lower. destruct t as [| x t']; simpl; [done |].
  intros [= Hx Ht]. by exists x, t'.
Qed.

Lemma ci_eq_nil_r t : ci_eq t [] -> t = [].
Proof. unfold ci_eq, Py.lower. by destruct t. Qed.

Lemma after_ci_mismatch q t p r :
  ci_eq t p -> head_mismatch q p -> after_ci q (t ++ r) = None.
Proof.
  destruct q as [| a q], p as [| c p]; try done.
  intros (x & t' & -> & Hx & _)%ci_eq_cons_r Hne. simpl.
  rewrite bool_decide_false; [done |]. by rewrite Hx.
Qed.

Lemma or_else_Some {A} (a b : option A) m :
  or_else a b = Some m -> a = Some m \/ b = Some m.
Proof. destruct a; simpl; auto. Qed.

Lemma blanks_app w1 w2 : blanks w1 -> blanks w2 -> blanks (w1 ++ w2).
Proof. intros. by apply Forall_app. Qed.

Lemma lstrip_blanks_colon w after :
  blanks w -> Py.lstrip_by isspace (w ++ ":"%char :: after) = ":"%char :: after.
Proof. intros Hw. by apply lstrip_by_app. Qed.

Lemma tail_of_Some s m :
  tail_of s = Some m ->
  exists w after,
    blanks w /\ s = w ++ ":"%char :: after /\ m = Some (remainder after).
Proof.
  unfold tail_of. destruct (lstrip_by_pieces isspace s) as (w & Hs & Hw).
  destruct (Py.lstrip_by isspace s) as [| c s']; [done |].
  destruct (bool_decide_reflect (c = ":"%char)) as [-> |]; [| done].
  intros [= <-]. by exists w, s'.
Qed.

Lemma tail_of_app w after :
  blanks w -> tail_of (w ++ ":"%char :: after) = Some (Some (remainder after)).
Proof. intros Hw. unfold tail_of. by rewrite lstrip_blanks_colon. Qed.

Lemma not_rparen_Forall inner :
  ")"%char ∉ inner <-> Forall (fun c => not_rparen c = true) inner.
Proof.
  rewrite Forall_forall. unfold not_rparen. split.
  - intros Hn c Hc. apply negb_true_iff, bool_decide_eq_false.
    intros ->. by apply Hn.
  - intros Hall Hin. apply Hall in Hin. by vm_compute in Hin.
Qed.

Lemma ci_eq_lparen t : ci_eq t (text "(") -> t = text "(".
Proof.
  intros (x & t' & -> & Hx & ->%ci_eq_nil_r)%ci_eq_cons_r.
  symmetry in Hx. by apply lower_lparen in Hx as ->.
Qed.

Lemma ci_eq_rparen t : ci_eq t (text ")") -> t = text ")".
Proof.
  intros (x & t' & -> & Hx & ->%ci_eq_nil_r)%ci_eq_cons_r.
  symmetry in Hx. by apply lower_rparen in Hx as ->.
Qed.

Lemma agent_scan_sound line m :
  agent_scan line = Some m ->
  exists after, tagged agent_tag line after /\ m = Some (remainder after).
Proof.
  unfold agent_scan.
  intros [H | [H | [H | H]%or_else_Some]%or_else_Some]%or_else_Some.
  - apply bind_Some in H as (s1 & (n & -> & Hn)%after_ci_Some & H).
    apply bind_Some in H as (s2 & (r & Hr & Hrr)%after_ci_Some & H).
    apply tail_of_Some in H as (w1 & after & Hw1 & -> & ->).
    destruct (lstrip_by_pieces isspace s1) as (w & Hs1 & Hw).
    exists after. split; [| done].
    exists (n ++ w ++ r), w1. split; [by constructor |]. split; [done |].
    rewrite Hs1, Hr. by rewrite <- !app_assoc.
  - apply bind_Some in H as (s1 & (a & -> & Ha)%after_ci_Some & H).
    apply bind_Some in H as (s2 & (l & Hl & ->%ci_eq_lparen)%after_ci_Some & H).
    apply bind_Some in H as (s3 & (r & Hr & ->%ci_eq_rparen)%after_ci_Some & H).
    apply tail_of_Some in H as (w1 & after & Hw1 & -> & ->).
    destruct (lstrip_by_pieces isspace s1) as (w & Hs1 & Hw).
    destruct (lstrip_by_pieces not_rparen s2) as (inner & Hs2 & Hinner).
    exists after. split; [| done].
    exists (a ++ w ++ "("%char :: inner ++ [")"%char]), w1.
    split; [constructor; by try apply not_rparen_Forall |]. split; [done |].
    rewrite Hs1, Hl, Hs2, Hr. simpl. rewrite <- !app_assoc. simpl.
    by rewrite <- !app_assoc.
  - apply bind_Some in H as (s1 & (n & -> & Hn)%after_ci_Some & H).
    apply tail_of_Some in H as (w1 & after & Hw1 & -> & ->).
    exists after. split; [| done]. exists n, w1. split; [by apply tag_name | done].
  - apply bind_Some in H as (s1 & (a & -> & Ha)%after_ci_Some & H).
    apply tail_of_Some in H as (w1 & after & Hw1 & -> & ->).
    exists after. split; [| done]. exists a, w1. split; [by apply tag_role | done].
Qed.

Lemma after_ci_head_mismatch q x r :
  head_mismatch q [x] -> after_ci q (x :: r) = None.
Proof.
  destruct q as [| a q]; [done |]. intros Hne. simpl.
  by rewrite bool_decide_false.
Qed.

Lemma after_ci_one q c x r :
  q = [c] -> lower c = lower x -> after_ci q (x :: r) = Some r.
Proof. intros -> Hc. simpl. by rewrite bool_decide_true. Qed.

Lemma lstrip_blanks_lparen w r p z :
  ci_eq r ("("%char :: p) -> blanks w ->
  Py.lstrip_by isspace (w ++ r ++ z) = r ++ z.
Proof.
  intros (x & r' & -> & Hx & _)%ci_eq_cons_r Hw.
  symmetry in Hx. apply lower_lparen in Hx as ->.
  rewrite <- app_comm_cons. by apply lstrip_by_app.
Qed.

Local Arguments after_ci : simpl never.

Lemma agent_scan_complete line after :
  tagged agent_tag line after ->
  agent_scan line = Some (Some (remainder after)).
Proof.
  intros (t & w1 & Ht & Hw1 & ->). unfold agent_scan.
  destruct Ht as [n w r Hn Hw Hr | a w inner Ha Hw Hinner | n Hn | a Ha].
  - rewrite <- !app_assoc. rewrite (after_ci_app n) by done. simpl.
    rewrite (lstrip_blanks_lparen w r (text "Agent)")) by done.
    rewrite (after_ci_app r) by done. simpl. by rewrite tail_of_app.
  - rewrite <- !app_assoc.
    rewrite (after_ci_mismatch _ a (text "Agent")) by (done || by vm_compute).
    simpl. rewrite (after_ci_app a) by done. simpl.
    rewrite lstrip_by_app by done.
    rewrite (after_ci_one _ "(") by done. simpl.
    rewrite <- !app_assoc. simpl.
    rewrite lstrip_by_app by (done || by apply not_rparen_Forall).
    rewrite (after_ci_one _ ")") by done. simpl.
    by rewrite tail_of_app.
  - rewrite (after_ci_app n) by done. simpl.
    rewrite lstrip_blanks_colon by done.
    rewrite after_ci_head_mismatch by (by vm_compute). simpl.
    rewrite (after_ci_mismatch _ n (text "Natalie")) by (done || by vm_compute). simpl.
    by rewrite tail_of_app.
  - rewrite (after_ci_mismatch _ a (text "Agent")) by (done || by vm_compute). simpl.
    rewrite (after_ci_app a) by done. simpl.
    rewrite lstrip_blanks_colon by done.
    rewrite after_ci_head_mismatch by (by vm_compute). simpl.
    by rewrite tail_of_app.
Qed.

Lemma user_scan_sound line m :
  user_scan line = Some m ->
  exists after, tagged user_tag line after /\ m = Some (remainder after).
Proof.
  unfold user_scan.
  intros (s1 & (u & -> & Hu)%after_ci_Some & H)%bind_Some.
  apply tail_of_Some in H as (w1 & after & Hw1 & -> & ->).
  exists after. split; [| done]. by exists u, w1.
Qed.

Lemma user_scan_complete line after :
  tagged user_tag line after ->
  user_scan line = Some (Some (remainder after)).
Proof.
  intros (t & w1 & Ht & Hw1 & ->). unfold user_scan.
  rewrite (after_ci_app t) by done. simpl. by rewrite tail_of_app.
Qed.

(** The line produced for an agent line, for a user line, for any other. *)
Lemma normalize_line_agent line after :
  nl ∉ line -> tagged agent_tag line after ->
  normalize_line line = text "Agent: " ++ remainder after.
Proof.
  intros Hnl Ht. unfold normalize_line.
  by rewrite agent_scan_correct, (agent_scan_complete _ after).
Qed.

Lemma normalize_line_not_agent line :
  nl ∉ line -> (forall after, ¬ tagged agent_tag line after) ->
  re_match agent_pattern line IGNORECASE = None.
Proof.
  intros Hnl Hno. rewrite agent_scan_correct by done.
  destruct (agent_scan line) as [m |] eqn:E; [| done].
  apply agent_scan_sound in E as (after & Ht & _). by apply Hno in Ht.
Qed.

Lemma normalize_line_user line after :
  nl ∉ line -> (forall a, ¬ tagged agent_tag line a) ->
  tagged user_tag line after ->
  normalize_line line = text "User: " ++ remainder after.
Proof.
  intros Hnl Hno Ht. unfold normalize_line.
  rewrite normalize_line_not_agent by done.
  by rewrite user_scan_correct, (user_scan_complete _ after).
Qed.

Lemma normalize_line_other line :
  nl ∉ line -> (forall a, ¬ tagged agent_tag line a) ->
  (forall a, ¬ tagged user_tag line a) ->
  normalize_line line = line.
Proof.
  intros Hnl Hno Hnu. unfold normalize_line.
  rewrite normalize_line_not_agent by done.
  rewrite user_scan_correct by done.
  destruct (user_scan line) as [m |] eqn:E; [| done].
  apply user_scan_sound in E as (after & Ht & _). by apply Hnu in Ht.
Qed.

Lemma no_nl_remainder after : nl ∉ after -> nl ∉ remainder after.
Proof. apply no_nl_lstrip_by. Qed.

Lemma no_nl_tagged tag line after :
  nl ∉ line -> tagged tag line after -> nl ∉ after.
Proof.
  intros Hnl (t & w & _ & _ & ->).
  apply no_nl_app in Hnl as [_ Hnl]. apply no_nl_app in Hnl as [_ Hnl].
  by apply not_elem_of_cons in Hnl as [_ Hnl].
Qed.

(** Every line is of one of the three kinds. *)
Lemma normalize_line_kinds line :
  nl ∉ line ->
  (exists after, tagged agent_tag line after
     /\ normalize_line line = text "Agent: " ++ remainder after)
  \/ (exists after, tagged user_tag line after
     /\ normalize_line line = text "User: " ++ remainder after)
  \/ normalize_line line = line.
Proof.
  intros Hnl. unfold normalize_line.
  rewrite agent_scan_correct, user_scan_correct by done.
  destruct (agent_scan line) as [m |] eqn:Ea.
  - apply agent_scan_sound in Ea as (after & Ht & ->). left. by exists after.
  - destruct (user_scan line) as [m |] eqn:Eu; [| by right; right].
    apply user_scan_sound in Eu as (after & Ht & ->).
    right; left. by exists after.
Qed.

Lemma no_nl_agent_prefix : nl ∉ text "Agent: ".
Proof. apply (bool_decide_unpack _). by vm_compute. Qed.

Lemma no_nl_user_prefix : nl ∉ text "User: ".
Proof. apply (bool_decide_unpack _). by vm_compute. Qed.

Lemma no_nl_normalize_line line : nl ∉ line -> nl ∉ normalize_line line.
Proof.
  intros Hnl.
  destruct (normalize_line_kinds line Hnl)
    as [(after & Ht & ->) | [(after & Ht & ->) | ->]]; [| | done].
  - apply no_nl_app. split; [apply no_nl_agent_prefix |].
    eapply no_nl_remainder, no_nl_tagged; eauto.
  - apply no_nl_app. split; [apply no_nl_user_prefix |].
    eapply no_nl_remainder, no_nl_tagged; eauto.
Qed.

Lemma remainder_space_remainder after :
  remainder (" "%char :: remainder after) = remainder after.
Proof. unfold remainder. simpl. apply lstrip_by_fixed. Qed.

Lemma normalize_line_idempotent line :
  nl ∉ line -> normalize_line (normalize_line line) = normalize_line line.
Proof.
  intros Hnl.
  destruct (normalize_line_kinds line Hnl)
    as [(after & Ht & E) | [(after & Ht & E) | E]]; rewrite E.
  - assert (nl ∉ text "Agent: " ++ remainder after) as Hnl'.
    { rewrite <- E. by apply no_nl_normalize_line. }
    rewrite (normalize_line_agent _ (" "%char :: remainder after)); [| done |].
    + by rewrite remainder_space_remainder.
    + exists (text "Agent"), []. split; [by apply tag_role |].
      split; [constructor | done].
  - assert (nl ∉ text "User: " ++ remainder after) as Hnl'.
    { rewrite <- E. by apply no_nl_normalize_line. }
    unfold normalize_line.
    rewrite agent_scan_correct, user_scan_correct by done.
    rewrite (user_scan_complete _ (" "%char :: remainder after)).
    + simpl. by rewrite remainder_space_remainder.
    + exists (text "User"), []. split; [done |]. split; [constructor | done].
  - by rewrite E.
Qed.

End Accepts.

(** ** Conversation tag normaliser *)

Section TagFacts.
Import Re Tags TagSpec.

Lemma no_nl_normalized_lines x :
  Forall (fun l => nl ∉ l) (map normalize_line (split nl x)).
Proof.
  apply Forall_map. eapply Forall_impl; [apply split_no_sep |].
  intros l Hl. by apply no_nl_normalize_line.
Qed.

(** The output has the normalised input lines as its lines. *)
Lemma split_normalize_conversation_tags x :
  split nl (normalize_conversation_tags x)
  = map normalize_line (split nl x).
Proof.
  rewrite normalize_conversation_tags_lines. apply split_join.
  - pose proof (split_not_nil nl x). by destruct (split nl x).
  - apply no_nl_normalized_lines.
Qed.

Lemma split_app_sep sep a b :
  split sep (a ++ sep :: b) = split sep a ++ split sep b.
Proof.
  induction a as [| c a IH]; simpl.
  - by destruct (decide (sep = sep)).
  - destruct (decide (c = sep)); [by rewrite IH |].
    rewrite IH. pose proof (split_not_nil sep a).
    by destruct (split sep a).
Qed.

Lemma join_app sep l1 l2 :
  l1 <> [] -> l2 <> [] ->
  join sep (l1 ++ l2) = join sep l1 ++ sep :: join sep l2.
Proof.
  intros H1 H2. induction l1 as [| a l1 IH]; [done |].
  destruct l1 as [| a' l1].
  - simpl. by destruct l2.
  - change (join sep ((a :: a' :: l1) ++ l2))
      with (a ++ sep :: join sep ((a' :: l1) ++ l2)).
    rewrite IH by done. simpl. by rewrite <- app_assoc.
Qed.

Lemma blank_line_untagged tag line after :
  blanks line -> ¬ tagged tag line after.
Proof.
  intros Hb (t & w & _ & _ & ->).
  apply Forall_app in Hb as [_ Hb]. apply Forall_app in Hb as [_ Hb].
  by inversion Hb.
Qed.

(** C8.  The text is handled line by line, each line on its own: the
    result for two texts joined by a newline is the two results joined by
    a newline.  Line [i] of the result is "Agent: " and the remainder when
    line [i] of the input carries an agent tag, "User: " and the remainder
    when it carries none and carries the user tag, and the input line
    itself otherwise.  The example of the specification is included. *)
Theorem normalize_conversation_tags_by_line :
  (forall a b : str,
     normalize_conversation_tags (a ++ nl :: b)
     = normalize_conversation_tags a ++ nl :: normalize_conversation_tags b)
  /\ (forall (x : str) (i : nat) (line : str),
        split nl x !! i = Some line ->
        exists out,
          split nl (normalize_conversation_tags x) !! i = Some out
          /\ (forall after, tagged agent_tag line after ->
              out = text "Agent: " ++ remainder after)
          /\ ((forall a, ¬ tagged agent_tag line a) ->
              forall after, tagged user_tag line after ->
              out = text "User: " ++ remainder after)
          /\ ((forall a, ¬ tagged agent_tag line a) ->
              (forall a, ¬ tagged user_tag line a) ->
              out = line))
  /\ normalize_conversation_tags
       (text "Natalie (Agent): Hello" ++ nl :: text "User: Hi")
     = text "Agent: Hello" ++ nl :: text "User: Hi".
Proof.
  split; [| split; [| reflexivity]].
  - intros a b. rewrite !normalize_conversation_tags_lines.
    rewrite split_app_sep, map_app. apply join_app.
    + pose proof (split_not_nil nl a). by destruct (split nl a).
    + pose proof (split_not_nil nl b). by destruct (split nl b).
  - intros x i line Hi. exists (normalize_line line).
    assert (nl ∉ line) as Hnl.
    { pose proof (split_no_sep nl x) as Hall.
      rewrite Forall_forall in Hall. apply Hall.
      by eapply list_elem_of_lookup_2. }
    split; [| split; [| split]].
    + rewrite split_normalize_conversation_tags, list_lookup_fmap.
      by rewrite Hi.
    + intros after Ht. by apply normalize_line_agent.
    + intros Hno after Ht. by apply normalize_line_user.
    + intros Hno Hnu. by apply normalize_line_other.
Qed.

Lemma normalize_conversation_tags_by_line_witness :
  exists out,
    split nl (normalize_conversation_tags
                (text "Natalie (Agent): Hello" ++ nl :: text "User: Hi"))
      !! 0 = Some out
    /\ out = text "Agent: Hello".
Proof.
  destruct (proj1 (proj2 normalize_conversation_tags_by_line)
              (text "Natalie (Agent): Hello" ++ nl :: text "User: Hi")
              0 (text "Natalie (Agent): Hello") eq_refl)
    as (out & Hout & Hagent & _).
  exists out. split; [exact Hout |].
  apply (Hagent (text " Hello")).
  exists (text "Natalie" ++ text " " ++ text "(Agent)"), [].
  split; [| split; [constructor | reflexivity]].
  apply tag_name_role; [reflexivity | | reflexivity].
  by repeat constructor.
Defined.

(** C9.  A second pass changes nothing, on canonical input and on any
    other. *)
Theorem normalize_conversation_tags_idempotent (x : str) :
  normalize_conversation_tags (normalize_conversation_tags x)
  = normalize_conversation_tags x.
Proof.
  rewrite (normalize_conversation_tags_lines (normalize_conversation_tags x)).
  rewrite split_normalize_conversation_tags.
  rewrite normalize_conversation_tags_lines. f_equal.
  rewrite <- list_fmap_compose. apply Forall_fmap_ext_1.
  eapply Forall_impl; [apply split_no_sep |].
  intros l Hl. by apply normalize_line_idempotent.
Qed.

(** C10.  The result has as many lines as the input, and a line that
    carries neither tag, a blank line among them, is found unchanged at
    the same position. *)
Theorem normalize_conversation_tags_line_structure (x : str) :
  length (split nl (normalize_conversation_tags x)) = length (split nl x)
  /\ (forall i line,
        split nl x !! i = Some line ->
        (forall a, ¬ tagged agent_tag line a) ->
        (forall a, ¬ tagged user_tag line a) ->
        split nl (normalize_conversation_tags x) !! i = Some line)
  /\ (forall i line,
        split nl x !! i = Some line -> blanks line ->
        split nl (normalize_conversation_tags x) !! i = Some line).
Proof.
  rewrite split_normalize_conversation_tags.
  assert (forall i line,
            split nl x !! i = Some line ->
            (forall a, ¬ tagged agent_tag line a) ->
            (forall a, ¬ tagged user_tag line a) ->
            map normalize_line (split nl x) !! i = Some line) as Hother.
  { intros i line Hi Hno Hnu. rewrite list_lookup_fmap, Hi. simpl. f_equal.
    apply normalize_line_other; [| done | done].
    pose proof (split_no_sep nl x) as Hall.
    rewrite Forall_forall in Hall. apply Hall.
    by eapply list_elem_of_lookup_2. }
  split; [apply length_map |]. split; [exact Hother |].
  intros i line Hi Hb.
  apply Hother; [done | |]; intros a; by apply blank_line_untagged.
Qed.

Lemma normalize_conversation_tags_line_structure_witness :
  split nl (normalize_conversation_tags
              (text "agent : hi" ++ nl :: text "(call ends)" ++ nl :: text "  "))
    !! 1 = Some (text "(call ends)")
  /\ split nl (normalize_conversation_tags
              (text "agent : hi" ++ nl :: text "(call ends)" ++ nl :: text "  "))
    !! 2 = Some (text "  ").
Proof.
  destruct (normalize_conversation_tags_line_structure
              (text "agent : hi" ++ nl :: text "(call ends)" ++ nl :: text "  "))
    as (_ & Hother & Hblank).
  split.
  - apply Hother; [reflexivity | |].
    + intros a Ht. apply agent_scan_complete in Ht. by vm_compute in Ht.
    + intros a Ht. apply user_scan_complete in Ht. by vm_compute in Ht.
  - apply Hblank; [reflexivity |]. by repeat constructor.
Defined.

End TagFacts.

(** ** The request monad *)

Section MonadFacts.
Import Pipeline PipelineSpec.

Lemma run_bind {A B} (m : M A) (f : A -> M B) w :
  (m ≫= f) w
  = match m w with
    | (inl e, w') => (inl e, w')
    | (inr a, w') => f a w'
    end.
Proof. reflexivity. Qed.

Lemma bind_inr {A B} (m : M A) (f : A -> M B) w r w' :
  (m ≫= f) w = (inr r, w') ->
  exists a w1, m w = (inr a, w1) /\ f a w1 = (inr r, w').
Proof.
  rewrite run_bind. destruct (m w) as [[e | a] w1]; [done |]. by exists a, w1.
Qed.

Lemma reraise_as_inr {A} h (m : M A) w r w' :
  reraise_as h m w = (inr r, w') -> m w = (inr r, w').
Proof.
  unfold reraise_as. destruct (m w) as [[[] | a] w1]; by intros [= <- <-].
Qed.

Lemma reraise_as_world {A} h (m : M A) w : (reraise_as h m w).2 = (m w).2.
Proof. unfold reraise_as. by destruct (m w) as [[[] | a] w1]. Qed.

Lemma run_chat {A} c (r : A) w : chat c r w = (inr r, logged w [Chat c]).
Proof. reflexivity. Qed.

Lemma logged_logged w a b : logged (logged w a) b = logged w (a ++ b).
Proof. unfold logged. simpl. by rewrite <- app_assoc. Qed.

Lemma run_identify g w :
  identify g w
  = if Py.truthy_opt (phone_of_reply (phone_reply g)) then
      (inr (phone_of_reply (phone_reply g), None), logged w [Chat chat_phone])
    else if Py.truthy_opt (email_of_reply (email_reply g)) then
      (inr (phone_of_reply (phone_reply g), email_of_reply (email_reply g)),
       logged w [Chat chat_phone; Chat chat_email])
    else (inl ExtractionFailed, logged w [Chat chat_phone; Chat chat_email]).
Proof.
  unfold identify, extract_phone_number, extract_email.
  rewrite !run_bind, run_chat. simpl.
  destruct (Py.truthy_opt (phone_of_reply (phone_reply g))); simpl; [done |].
  rewrite !run_bind, run_chat. simpl. rewrite logged_logged. simpl.
  by destruct (Py.truthy_opt (email_of_reply (email_reply g))).
Qed.

Lemma blank_rejected s :
  negb (Py.nonempty s) || negb (Py.nonempty (Py.strip s)) = true <-> blank s.
Proof.
  unfold blank, Py.nonempty. rewrite orb_true_iff, !negb_true_iff.
  rewrite !negb_false_iff, !bool_decide_eq_true. split; [| by right].
  by intros [-> | ?].
Qed.

End MonadFacts.

(** ** Error handling of the request *)

Section Errors.
Import Pipeline PipelineSpec.

(** C7.  A blank conversation is rejected as invalid input with the world
    unchanged: no external call and no store access has been made.  When
    neither a phone number nor an e-mail address comes out of the
    extraction, the request fails with the extraction error after the two
    extraction calls only: the store is unchanged and was not accessed. *)
Theorem process_conversation_rejects :
  (forall request g now w,
     blank (conversation_of request) ->
     process_conversation request g now w = (inl InvalidInput, w))
  /\ (forall request g now w,
        ¬ blank (conversation_of request) ->
        Py.truthy_opt (phone_of_reply (phone_reply g)) = false ->
        Py.truthy_opt (email_of_reply (email_reply g)) = false ->
        process_conversation request g now w
        = (inl ExtractionFailed, logged w [Chat chat_phone; Chat chat_email])
        /\ db (process_conversation request g now w).2 = db w).
Proof.
  split.
  - intros request g now w Hb. unfold process_conversation.
    apply blank_rejected in Hb. by rewrite Hb.
  - intros request g now w Hb Hp He. unfold process_conversation.
    destruct (negb _ || negb _) eqn:E; [by apply blank_rejected in E |].
    unfold reraise_as. rewrite run_bind, run_identify, Hp, He. by split.
Qed.

Lemma process_conversation_rejects_witness :
  process_conversation {| conversation_of := text "   " |}
    {| phone_reply := None; email_reply := None; languages_reply := [];
       profile_reply := None; analytics_reply := None;
       follow_up_reply := None; follow_up_reply_again := None |}
    0%N {| db := {| users_of := []; userAnalytics_of := [];
                    conversationHistory_of := []; next_oid := 0 |};
           log := [] |}
  = (inl InvalidInput,
     {| db := {| users_of := []; userAnalytics_of := [];
                 conversationHistory_of := []; next_oid := 0 |};
        log := [] |})
  /\ process_conversation {| conversation_of := text "User: hello" |}
       {| phone_reply := Some (text "NOT_FOUND");
          email_reply := Some (text "not an address");
          languages_reply := []; profile_reply := None;
          analytics_reply := None; follow_up_reply := None;
          follow_up_reply_again := None |}
       0%N {| db := {| users_of := []; userAnalytics_of := [];
                       conversationHistory_of := []; next_oid := 0 |};
              log := [] |}
     = (inl ExtractionFailed,
        {| db := {| users_of := []; userAnalytics_of := [];
                    conversationHistory_of := []; next_oid := 0 |};
           log := [Chat chat_phone; Chat chat_email] |}).
Proof.
  split.
  - apply (proj1 process_conversation_rejects). reflexivity.
  - apply (proj2 process_conversation_rejects); [| reflexivity | reflexivity].
    intros H. by vm_compute in H.
Defined.

End Errors.

(** ** The phases of the pipeline, run symbolically *)

Import Pipeline PipelineSpec.

Lemma run_ret {A} (a : A) w : @mret M M_ret A a w = (inr a, w).
Proof. reflexivity. Qed.

Lemma run_raise {A} e w : @raise A e w = (inl e, w).
Proof. reflexivity. Qed.

Lemma run_get_mongodb_client w :
  get_mongodb_client w = (inr tt, logged w [Connect]).
Proof. reflexivity. Qed.

Lemma run_find_one c field v w :
  find_one c field v w
  = (inr (List.find (selects field v) (docs c (db w))),
     logged w [FindOne c field v]).
Proof. reflexivity. Qed.

Lemma run_detect_follow_up reply w :
  detect_follow_up reply w
  = (inr (follow_up_of reply), logged w [Chat chat_follow_up]).
Proof. reflexivity. Qed.

Lemma insert_not_empty (k : string) (v : value) (d : doc) : <[k := v]> d <> ∅.
Proof. apply insert_non_empty. Qed.

Lemma found_insert (k : string) (v : value) (d : doc) :
  found (Some (<[k := v]> d)) = true.
Proof.
  unfold found, truthy_doc. apply negb_true_iff, bool_decide_eq_false.
  apply insert_not_empty.
Qed.

Lemma found_selected field v l d :
  List.find (selects field v) l = Some d -> found (Some d) = true.
Proof.
  intros [_ Hs]%find_some. unfold selects in Hs.
  apply bool_decide_eq_true in Hs.
  unfold found, truthy_doc. apply negb_true_iff, bool_decide_eq_false.
  intros ->. by rewrite lookup_empty in Hs.
Qed.

Lemma found_find field v l :
  found (List.find (selects field v) l)
  = bool_decide (is_Some (List.find (selects field v) l)).
Proof.
  destruct (List.find (selects field v) l) as [d |] eqn:E.
  - rewrite (found_selected _ _ _ _ E). symmetry.
    by apply bool_decide_eq_true.
  - symmetry. apply bool_decide_eq_false. by intros [? ?].
Qed.

(** [ObjectId] touches no collection and leaves no event; for a value
    other than None it is the validation. *)
Lemma run_ObjectId oid w :
  oid <> VNone ->
  ObjectId oid w
  = (match validate oid with inl e => inl e | inr x => inr x end, w).
Proof.
  intros Hne. unfold ObjectId.
  destruct oid; try done; by destruct (validate _).
Qed.

Lemma truthy_not_None v : truthy v = true -> v <> VNone.
Proof. by intros Ht ->. Qed.

Lemma ObjectId_footprint oid w :
  users_of (db (ObjectId oid w).2) = users_of (db w)
  /\ userAnalytics_of (db (ObjectId oid w).2) = userAnalytics_of (db w)
  /\ conversationHistory_of (db (ObjectId oid w).2)
     = conversationHistory_of (db w)
  /\ log (ObjectId oid w).2 = log w.
Proof.
  destruct oid; try done; unfold ObjectId; by destruct (validate _).
Qed.

(** Phase 2 as one equation. *)
Lemma run_upsert_analytics user_id g w :
  upsert_analytics user_id g w
  = match analytics_reply g with
    | None =>
        (inl (HTTPException 500 "Failed to generate analytics"),
         logged w [Chat chat_analytics])
    | Some analytics_data =>
        let generated :=
          analytics_doc_of user_id analytics_data
            (follow_up_of (follow_up_reply g)) in
        match ObjectId user_id
                (logged w [Chat chat_analytics; Chat chat_follow_up]) with
        | (inr oid, w1) =>
            match List.find (selects "user_id" oid)
                    (userAnalytics_of (db w1)) with
            | Some existing =>
                let lacks :=
                  negb (bool_decide (is_Some (existing !! "follow_up"))) in
                let derived :=
                  if lacks
                  then <["follow_up" :=
                           VBool (follow_up_of (follow_up_reply_again g))]>
                         generated
                  else generated in
                (inr (<["_id" := get existing "_id"]> derived),
                 {| db := set_docs userAnalytics
                            (set_first "user_id" oid derived
                               (userAnalytics_of (db w1))) (db w1);
                    log := log w1
                      ++ [FindOne userAnalytics "user_id" oid]
                      ++ (if lacks then [Chat chat_follow_up] else [])
                      ++ [UpdateOne userAnalytics "user_id" oid derived] |})
            | None =>
                (inr (<["_id" := VObjectId (next_oid (db w1))]> generated),
                 {| db := fresh_oid
                            (set_docs userAnalytics
                               (userAnalytics_of (db w1)
                                ++ [<["_id" := VObjectId (next_oid (db w1))]>
                                      generated]) (db w1));
                    log := log w1
                      ++ [FindOne userAnalytics "user_id" oid;
                          InsertOne userAnalytics generated] |})
            end
        | (inl e, w1) => (inl e, w1)
        end
    end.
Proof.
  unfold upsert_analytics, generate_analytics.
  rewrite !run_bind, run_chat.
  destruct (analytics_reply g) as [analytics_data |]; [| done].
  rewrite run_bind, run_detect_follow_up, run_ret.
  unfold analytics_doc_of at 1. rewrite found_insert.
  cbn [negb default from_option id]. rewrite run_bind.
  rewrite logged_logged. cbv zeta.
  destruct (ObjectId user_id _) as [[e | oid] w1]; [done |].
  rewrite run_bind, run_find_one. cbn [docs db log logged].
  rewrite found_find.
  destruct (List.find _ (userAnalytics_of (db w1))) as [existing |] eqn:E.
  - rewrite bool_decide_true by done. cbn [default from_option id].
    rewrite run_bind.
    destruct (negb (bool_decide (is_Some (existing !! "follow_up"))));
      cbv iota.
    + rewrite run_bind, run_detect_follow_up, run_ret, run_bind.
      unfold update_one, logged. cbn [db log docs]. rewrite run_ret.
      by rewrite <- !app_assoc.
    + rewrite run_ret, run_bind.
      unfold update_one, logged. cbn [db log docs]. rewrite run_ret.
      by rewrite <- !app_assoc.
  - rewrite bool_decide_false by (by intros [? ?]).
    rewrite run_bind. unfold insert_one, logged. cbn [db log docs].
    rewrite run_ret. by rewrite <- !app_assoc.
Qed.

Lemma run_insert_one c d w :
  insert_one c d w
  = (inr (VObjectId (next_oid (db w))),
     {| db := fresh_oid
                (set_docs c
                   (docs c (db w) ++ [<["_id" := VObjectId (next_oid (db w))]> d])
                   (db w));
        log := log w ++ [InsertOne c d] |}).
Proof. reflexivity. Qed.

Ltac mrun :=
  repeat (first
    [ rewrite run_bind | rewrite run_ret | rewrite run_raise
    | rewrite run_chat | rewrite run_get_mongodb_client
    | rewrite run_find_one | rewrite run_insert_one
    | rewrite run_detect_follow_up | rewrite logged_logged ];
    cbv beta iota).

Lemma run_phone_lookup phone_number w :
  match present phone_number with
  | Some p => find_one users "phone_number" (phone_db_format p)
  | None => mret None
  end w
  = (inr (by_phone phone_number w), logged w (phone_lookup phone_number)).
Proof.
  unfold by_phone, phone_lookup. destruct (present phone_number); [done |].
  rewrite run_ret. unfold logged. by rewrite app_nil_r; destruct w.
Qed.

Lemma found_by_phone phone_number w :
  found (by_phone phone_number w)
  = bool_decide (is_Some (by_phone phone_number w)).
Proof.
  unfold by_phone. destruct (present phone_number); [apply found_find |].
  symmetry. apply bool_decide_eq_false. by intros [? ?].
Qed.

(** [create_user_from_conversation] as one equation. *)
Lemma run_create_user_from_conversation phone_number email reply w :
  create_user_from_conversation phone_number email reply w
  = match reply with
    | None => (inr None, logged w [Chat chat_profile])
    | Some user_data =>
        match extracted_email_of email user_data with
        | None => (inr None, logged w [Chat chat_profile])
        | Some e =>
            let user_doc := user_doc_of phone_number e user_data in
            let evs := [Chat chat_profile; Connect] ++ phone_lookup phone_number in
            match by_phone phone_number w with
            | Some u => (inr (Some u), logged w evs)
            | None =>
                let by_email :=
                  if truthy e
                  then List.find (selects "email" e) (users_of (db w))
                  else None in
                let evs :=
                  evs ++ (if truthy e then [FindOne users "email" e] else []) in
                match by_email with
                | Some u => (inr (Some u), logged w evs)
                | None =>
                    (inr (Some (<["_id" := VObjectId (next_oid (db w))]>
                                  user_doc)),
                     {| db := fresh_oid
                                (set_docs users
                                   (users_of (db w)
                                    ++ [<["_id" := VObjectId (next_oid (db w))]>
                                          user_doc]) (db w));
                        log := log w ++ evs ++ [InsertOne users user_doc] |})
                end
            end
        end
    end.
Proof.
  unfold create_user_from_conversation. mrun.
  destruct reply as [user_data |]; [| by mrun].
  destruct (extracted_email_of email user_data) as [e |]; [| by mrun].
  mrun. rewrite run_phone_lookup. cbv beta iota. mrun.
  rewrite found_by_phone.
  assert (by_phone phone_number
            (logged w ([Chat chat_profile] ++ [Connect]))
          = by_phone phone_number w) as -> by done.
  destruct (by_phone phone_number w) as [u |] eqn:Ep.
  - rewrite bool_decide_true by done. cbv iota. by mrun.
  - rewrite bool_decide_false by (by intros [? ?]). cbv iota. mrun.
    destruct (truthy e); cbv iota; mrun.
    + cbn [docs db logged]. rewrite found_find.
      destruct (List.find (selects "email" e) (users_of (db w))) as [u |].
      * rewrite bool_decide_true by done. cbv iota. mrun.
        by rewrite <- !app_assoc.
      * rewrite bool_decide_false by (by intros [? ?]). cbv iota. mrun.
        unfold logged. cbn [db log docs]. by rewrite <- !app_assoc.
    + cbn [found]. cbv iota. mrun.
      unfold logged. cbn [db log docs]. rewrite app_nil_r.
      by rewrite <- !app_assoc.
Qed.

Lemma run_email_lookup email (user : option doc) w :
  match present email with
  | Some e => find_one users "email" (VStr (Py.strip (Py.lower e)))
  | None => mret None
  end w
  = (inr (by_email email w), logged w (email_lookup email)).
Proof.
  unfold by_email, email_lookup. destruct (present email); [done |].
  rewrite run_ret. unfold logged. by rewrite app_nil_r; destruct w.
Qed.

Lemma found_by_email email w :
  found (by_email email w) = bool_decide (is_Some (by_email email w)).
Proof.
  unfold by_email. destruct (present email); [apply found_find |].
  symmetry. apply bool_decide_eq_false. by intros [? ?].
Qed.

(** Phase 1, second half, as one equation. *)
Lemma run_find_or_create_user phone_number email g w :
  find_or_create_user phone_number email g w
  = match by_phone phone_number w with
    | Some u => (inr u, logged w (phone_lookup phone_number))
    | None =>
        let evs := phone_lookup phone_number ++ email_lookup email in
        match by_email email w with
        | Some u => (inr u, logged w evs)
        | None =>
            match create_user_from_conversation phone_number email
                    (profile_reply g) (logged w evs) with
            | (inr created, w') =>
                if found created then (inr (default ∅ created), w')
                else (inl (HTTPException 500 "Failed to create user"), w')
            | (inl e, w') => (inl e, w')
            end
        end
    end.
Proof.
  unfold find_or_create_user. rewrite run_bind, run_phone_lookup.
  cbv beta iota. rewrite run_bind.
  pose proof (found_by_phone phone_number w) as Hfp.
  destruct (by_phone phone_number w) as [u |] eqn:Ep.
  - rewrite bool_decide_true in Hfp by done.
    rewrite Hfp. cbn [negb]. cbv iota. mrun.
    rewrite Hfp. cbn [negb]. cbv iota. by mrun.
  - clear Hfp. cbn [found negb]. cbv iota.
    assert (match present email with
            | Some e => find_one users "email" (VStr (Py.strip (Py.lower e)))
            | None => mret None
            end (logged w (phone_lookup phone_number))
            = (inr (by_email email w),
               logged w (phone_lookup phone_number ++ email_lookup email)))
      as ->.
    { rewrite (run_email_lookup email None). by rewrite logged_logged. }
    cbv beta iota. rewrite run_bind.
    pose proof (found_by_email email w) as Hfe.
    destruct (by_email email w) as [u |] eqn:Ee.
    + rewrite bool_decide_true in Hfe by done.
      rewrite Hfe. cbn [negb]. cbv iota. by mrun.
    + clear Hfe. cbn [found negb]. cbv iota.
      rewrite run_bind.
      destruct (create_user_from_conversation _ _ _ _) as [[e | created] w'];
        [done |].
      destruct (found created); cbn [negb]; cbv iota; by mrun.
Qed.

(** Phase 3 as one equation. *)
Lemma run_store_history conversation user_id languages_used now w :
  store_history conversation user_id languages_used now w
  = match ObjectId user_id w with
    | (inr oid, w1) =>
        let history : doc :=
          <["user_id" := oid]>
            (<["conversation" :=
                 VStr (Tags.normalize_conversation_tags conversation)]>
              (<["timestamp" := VDatetime now]>
                {[ "languages_used" := VStrList languages_used ]})) in
        (inr (<["_id" := VObjectId (next_oid (db w1))]> history),
         {| db := fresh_oid
                    (set_docs conversationHistory
                       (conversationHistory_of (db w1)
                        ++ [<["_id" := VObjectId (next_oid (db w1))]> history])
                       (db w1));
            log := log w1 ++ [InsertOne conversationHistory history] |})
    | (inl e, w1) => (inl e, w1)
    end.
Proof.
  unfold store_history. rewrite run_bind.
  destruct (ObjectId user_id w) as [[e | oid] w1]; [done |]. by mrun.
Qed.


(** ** What each phase touches *)

Section Footprints.
Import Pipeline PipelineSpec.

Lemma phone_of_reply_format reply p :
  phone_of_reply reply = Some p -> length p = 10 /\ digits p.
Proof.
  unfold phone_of_reply. destruct reply as [content |]; [| done].
  destruct (_ || _); [done |].
  destruct (Nat.eqb_spec
              (length (Phone.normalize_phone_number (Py.strip content))) 10)
    as [Hl |]; [| done].
  simpl. intros [= <-]. split; [done |].
  apply normalize_phone_number_digits.
Qed.

Lemma present_phone_of_reply reply p :
  phone_of_reply reply = Some p -> present (Some p) = Some p.
Proof.
  intros [Hl _]%phone_of_reply_format. unfold present, Py.nonempty.
  rewrite bool_decide_false; [done |]. by intros ->.
Qed.

Lemma truthy_phone_of_reply reply :
  Py.truthy_opt (phone_of_reply reply)
  = bool_decide (is_Some (phone_of_reply reply)).
Proof.
  destruct (phone_of_reply reply) as [p |] eqn:E; [| done].
  apply present_phone_of_reply in E. unfold present in E. simpl.
  by destruct (Py.nonempty p).
Qed.

Lemma present_falsy o : Py.truthy_opt o = false -> present o = None.
Proof. destruct o as [s |]; simpl; [| done]. by intros ->. Qed.

(** The document a new user is stored as. *)
Lemma user_doc_phone_number phone_number e user_data oid :
  (<["_id" := oid]> (user_doc_of phone_number e user_data)) !! "phone_number"
  = phone_db_format <$> present phone_number.
Proof.
  unfold user_doc_of. rewrite lookup_insert_ne by done.
  destruct (present phone_number) as [p |].
  - by rewrite lookup_insert_eq.
  - rewrite lookup_insert_ne by done. by rewrite lookup_singleton_ne.
Qed.

Lemma user_doc_id phone_number e user_data oid :
  get (<["_id" := oid]> (user_doc_of phone_number e user_data)) "_id" = oid.
Proof. unfold get. by rewrite lookup_insert_eq. Qed.

(** User creation: the other collections are left alone; the users
    collection is unchanged and the user returned is one of it, or it has
    one more document, which is returned. *)
Lemma create_user_footprint phone_number email reply w out w' :
  create_user_from_conversation phone_number email reply w = (out, w') ->
  userAnalytics_of (db w') = userAnalytics_of (db w)
  /\ conversationHistory_of (db w') = conversationHistory_of (db w)
  /\ ((users_of (db w') = users_of (db w)
       /\ forall u, out = inr (Some u) -> u ∈ users_of (db w))
      \/ (exists user_data e,
            by_phone phone_number w = None
            /\ users_of (db w')
               = users_of (db w)
                 ++ [<["_id" := VObjectId (next_oid (db w))]>
                       (user_doc_of phone_number e user_data)]
            /\ out = inr (Some (<["_id" := VObjectId (next_oid (db w))]>
                                  (user_doc_of phone_number e user_data))))).
Proof.
  rewrite run_create_user_from_conversation.
  destruct reply as [user_data |].
  2:{ intros [= <- <-]. repeat split; try done. left. by split. }
  destruct (extracted_email_of email user_data) as [e |].
  2:{ intros [= <- <-]. repeat split; try done. left. by split. }
  cbv zeta.
  destruct (by_phone phone_number w) as [u |] eqn:Ep.
  { intros [= <- <-]. repeat split; try done. left. split; [done |].
    intros u' [= <-]. unfold by_phone in Ep.
    destruct (present phone_number); [| done].
    apply find_some in Ep as [Hin _]. by apply list_elem_of_In. }
  destruct (if truthy e
            then List.find (selects "email" e) (users_of (db w))
            else None) as [u |] eqn:Ee.
  { intros [= <- <-]. repeat split; try done. left. split; [done |].
    intros u' [= <-]. destruct (truthy e); [| done].
    apply find_some in Ee as [Hin _]. by apply list_elem_of_In. }
  intros [= <- <-]. repeat split; try done. right. by exists user_data, e.
Qed.

Lemma find_or_create_user_footprint phone_number email g w out w' :
  find_or_create_user phone_number email g w = (out, w') ->
  userAnalytics_of (db w') = userAnalytics_of (db w)
  /\ conversationHistory_of (db w') = conversationHistory_of (db w)
  /\ ((users_of (db w') = users_of (db w)
       /\ forall u, out = inr u -> u ∈ users_of (db w))
      \/ (exists user_data e,
            by_phone phone_number w = None
            /\ users_of (db w')
               = users_of (db w)
                 ++ [<["_id" := VObjectId (next_oid (db w))]>
                       (user_doc_of phone_number e user_data)]
            /\ out = inr (<["_id" := VObjectId (next_oid (db w))]>
                            (user_doc_of phone_number e user_data)))).
Proof.
  rewrite run_find_or_create_user.
  destruct (by_phone phone_number w) as [u |] eqn:Ep.
  { intros [= <- <-]. repeat split; try done. left. split; [done |].
    intros u' [= <-]. unfold by_phone in Ep.
    destruct (present phone_number); [| done].
    apply find_some in Ep as [Hin _]. by apply list_elem_of_In. }
  cbv zeta.
  destruct (by_email email w) as [u |] eqn:Ee.
  { intros [= <- <-]. repeat split; try done. left. split; [done |].
    intros u' [= <-]. unfold by_email in Ee.
    destruct (present email); [| done].
    apply find_some in Ee as [Hin _]. by apply list_elem_of_In. }
  destruct (create_user_from_conversation _ _ _ _) as [[e | created] w1] eqn:Ec.
  { apply create_user_footprint in Ec as (Ha & Hh & Hu).
    intros [= <- <-]. repeat split; try done. left. split; [| done].
    by destruct Hu as [[Hu _] | (? & ? & _ & _ & ?)]. }
  apply create_user_footprint in Ec as (Ha & Hh & Hu).
  destruct Hu as [[Hu Hin] | (user_data & e & _ & Hu & Hout)].
  - destruct (found created) eqn:Ef; intros [= <- <-]; repeat split;
      try done; left; (split; [done |]).
    + intros u [= <-]. destruct created as [c |]; [| done].
      by apply Hin.
    + done.
  - injection Hout as ->. rewrite found_insert.
    intros [= <- <-]. repeat split; try done. right.
    by exists user_data, e.
Qed.

Lemma upsert_analytics_footprint user_id g w :
  users_of (db (upsert_analytics user_id g w).2) = users_of (db w)
  /\ conversationHistory_of (db (upsert_analytics user_id g w).2)
     = conversationHistory_of (db w)
  /\ exists evs,
       log (upsert_analytics user_id g w).2 = log w ++ evs
       /\ Forall (fun e => identity_event e = false) evs.
Proof.
  rewrite run_upsert_analytics.
  destruct (analytics_reply g) as [analytics_data |].
  2:{ repeat split; try done. eexists. split; [done |]. by repeat constructor. }
  cbv zeta.
  pose proof (ObjectId_footprint user_id
                (logged w [Chat chat_analytics; Chat chat_follow_up]))
    as (Hu & _ & Hh & Hl).
  destruct (ObjectId user_id _) as [[e | oid] w1]; cbn [snd] in Hu, Hh, Hl.
  { repeat split; try done. eexists. split; [exact Hl |].
    by repeat constructor. }
  destruct (List.find _ _) as [existing |];
    cbn [snd db log set_docs fresh_oid users_of conversationHistory_of].
  - repeat split; try done. eexists.
    split; [rewrite Hl; cbn [logged log]; by rewrite <- !app_assoc |].
    destruct (negb _); by repeat constructor.
  - repeat split; try done. eexists.
    split; [rewrite Hl; cbn [logged log]; by rewrite <- !app_assoc |].
    by repeat constructor.
Qed.

Lemma store_history_footprint conversation user_id languages_used now w :
  users_of (db (store_history conversation user_id languages_used now w).2)
  = users_of (db w)
  /\ userAnalytics_of
       (db (store_history conversation user_id languages_used now w).2)
     = userAnalytics_of (db w)
  /\ exists evs,
       log (store_history conversation user_id languages_used now w).2
       = log w ++ evs
       /\ Forall (fun e => identity_event e = false) evs.
Proof.
  rewrite run_store_history.
  pose proof (ObjectId_footprint user_id w) as (Hu & Ha & _ & Hl).
  destruct (ObjectId user_id w) as [[e | oid] w1]; cbn [snd] in Hu, Ha, Hl.
  { repeat split; try done. exists []. split; [by rewrite app_nil_r |].
    constructor. }
  cbv zeta. cbn [snd db log set_docs fresh_oid users_of userAnalytics_of].
  repeat split; try done. eexists. split; [by rewrite Hl |].
  by repeat constructor.
Qed.

End Footprints.

(** ** The handler as a chain of phases *)

Section Handler.
Import Pipeline PipelineSpec.

Lemma process_conversation_blank request g now w :
  blank (conversation_of request) ->
  process_conversation request g now w = (inl InvalidInput, w).
Proof.
  intros Hb. unfold process_conversation.
  apply blank_rejected in Hb. by rewrite Hb.
Qed.

(** The world a request leaves behind, whatever its outcome. *)
Lemma process_conversation_world request g now w :
  ¬ blank (conversation_of request) ->
  (process_conversation request g now w).2
  = match identify g w with
    | (inl _, w1) => w1
    | (inr (phone_number, email), w1) =>
        match find_or_create_user phone_number email g
                (logged w1 [Chat chat_languages; Connect]) with
        | (inl _, w2) => w2
        | (inr user, w2) =>
            if truthy (get user "_id") then
              match upsert_analytics (get user "_id") g w2 with
              | (inl _, w3) => w3
              | (inr _, w3) =>
                  (store_history (conversation_of request) (get user "_id")
                     (languages_reply g) now w3).2
              end
            else w2
        end
    end.
Proof.
  intros Hb. unfold process_conversation. rewrite reraise_as_world.
  destruct (negb _ || negb _) eqn:E; [by apply blank_rejected in E |].
  rewrite run_bind.
  destruct (identify g w) as [[e | [phone_number email]] w1]; [done |].
  unfold detect_languages. mrun.
  destruct (find_or_create_user _ _ _ _) as [[e | user] w2]; [done |].
  destruct (truthy (get user "_id")); cbn [negb]; cbv iota; [| done].
  rewrite run_bind.
  destruct (upsert_analytics _ _ _) as [[e | a] w3]; [done |].
  rewrite run_bind.
  by destruct (store_history _ _ _ _ _) as [[e | h] w4].
Qed.

(** A request that succeeds went through every phase. *)
Lemma process_conversation_inr request g now w r w' :
  process_conversation request g now w = (inr r, w') ->
  ¬ blank (conversation_of request)
  /\ exists phone_number email w1 user w2 a w3 h,
       identify g w = (inr (phone_number, email), w1)
       /\ find_or_create_user phone_number email g
            (logged w1 [Chat chat_languages; Connect]) = (inr user, w2)
       /\ truthy (get user "_id") = true
       /\ upsert_analytics (get user "_id") g w2 = (inr a, w3)
       /\ store_history (conversation_of request) (get user "_id")
            (languages_reply g) now w3 = (inr h, w')
       /\ r = response_of user a h.
Proof.
  intros H%reraise_as_inr. revert H.
  destruct (negb _ || negb _) eqn:E; [done |].
  assert (¬ blank (conversation_of request)) as Hb.
  { intros Hb%blank_rejected. by rewrite Hb in E. }
  split; [done |]. revert H. rewrite run_bind.
  destruct (identify g w) as [[e | [phone_number email]] w1]; [done |].
  unfold detect_languages. mrun.
  destruct (find_or_create_user _ _ _ _) as [[e | user] w2] eqn:Ef; [done |].
  destruct (truthy (get user "_id")) eqn:Et; cbn [negb]; cbv iota; [| done].
  rewrite run_bind.
  destruct (upsert_analytics _ _ _) as [[e | a] w3] eqn:Eu; [done |].
  rewrite run_bind.
  destruct (store_history _ _ _ _ _) as [[e | h] w4] eqn:Eh; [done |].
  rewrite run_ret. intros [= <- <-].
  by exists phone_number, email, w1, user, w2, a, w3, h.
Qed.

Lemma identify_footprint g w out w1 :
  identify g w = (out, w1) ->
  db w1 = db w
  /\ forall phone_number email, out = inr (phone_number, email) ->
       phone_number = phone_of_reply (phone_reply g)
       /\ (Py.truthy_opt phone_number = true -> email = None).
Proof.
  rewrite run_identify.
  destruct (Py.truthy_opt (phone_of_reply (phone_reply g))) eqn:Ep.
  - intros [= <- <-]. split; [done |]. by intros ? ? [= <- <-].
  - destruct (Py.truthy_opt (email_of_reply (email_reply g)));
      intros [= <- <-]; (split; [done |]); [| done].
    intros ? ? [= <- <-]. split; [done |]. by rewrite Ep.
Qed.

(** The users collection after a request: as before, or with one more
    document, made from the phone number extracted for this request. *)
Lemma process_conversation_users request g now w :
  let w' := (process_conversation request g now w).2 in
  let phone_number := phone_of_reply (phone_reply g) in
  users_of (db w') = users_of (db w)
  \/ exists user_data e,
       by_phone phone_number w = None
       /\ users_of (db w')
          = users_of (db w)
            ++ [<["_id" := VObjectId (next_oid (db w))]>
                  (user_doc_of phone_number e user_data)].
Proof.
  cbv zeta.
  destruct (decide (blank (conversation_of request))) as [Hb | Hb].
  { rewrite process_conversation_blank by done. by left. }
  rewrite process_conversation_world by done.
  destruct (identify g w) as [[e | [phone_number email]] w1] eqn:Ei.
  { apply identify_footprint in Ei as [-> _]. by left. }
  apply identify_footprint in Ei as [Hdb Hp].
  destruct (Hp _ _ eq_refl) as [-> _]. clear Hp.
  destruct (find_or_create_user _ _ _ _) as [out w2] eqn:Ef.
  apply find_or_create_user_footprint in Ef as (_ & _ & Hu).
  assert (users_of (db w2) = users_of (db w)
          \/ exists user_data e,
               by_phone (phone_of_reply (phone_reply g)) w = None
               /\ users_of (db w2)
                  = users_of (db w)
                    ++ [<["_id" := VObjectId (next_oid (db w))]>
                          (user_doc_of (phone_of_reply (phone_reply g))
                             e user_data)]) as Hw2.
  { unfold by_phone in *. cbn [logged db] in Hu. rewrite Hdb in Hu.
    destruct Hu as [[Hu _] | (user_data & e & Hn & Hu & _)]; [by left |].
    right. by exists user_data, e. }
  clear Hu. destruct out as [e | user]; [done |].
  destruct (truthy (get user "_id")); [| done].
  pose proof (upsert_analytics_footprint (get user "_id") g w2) as (Hu3 & _).
  destruct (upsert_analytics _ _ _) as [[e | a] w3]; cbn [snd] in Hu3.
  { by rewrite Hu3. }
  pose proof (store_history_footprint (conversation_of request)
                (get user "_id") (languages_reply g) now w3) as (Hu4 & _).
  by rewrite Hu4, Hu3.
Qed.

End Handler.

(** ** Users: phone number format and identity resolution *)

Section Identity.
Import Pipeline PipelineSpec.

(** A request leaves the users collection as it was or adds one document
    to it.  When a phone number was extracted for the request, the
    document added holds "91" followed by that number, which is ten
    characters that [str.isdigit] accepts; otherwise (the e-mail path) it
    has no phone number. *)
Lemma process_conversation_phone_number request g now w :
  let w' := (process_conversation request g now w).2 in
  users_of (db w') = users_of (db w)
  \/ exists d,
       users_of (db w') = users_of (db w) ++ [d]
       /\ match phone_of_reply (phone_reply g) with
          | Some p =>
              d !! "phone_number" = Some (VStr (text "91" ++ p))
              /\ length p = 10 /\ digits p
          | None => d !! "phone_number" = None
          end.
Proof.
  cbv zeta.
  destruct (process_conversation_users request g now w)
    as [Hu | (user_data & e & _ & Hu)]; [by left |].
  right. eexists. split; [exact Hu |].
  rewrite user_doc_phone_number.
  destruct (phone_of_reply (phone_reply g)) as [p |] eqn:Ep; [| done].
  rewrite (present_phone_of_reply _ _ Ep).
  by destruct (phone_of_reply_format _ _ Ep) as [Hl Hd].
Qed.

(** C4.  The claim fails on the code: [str.isdigit] accepts digits that
    are not decimal.  For an answer of the service of ten superscript
    digits the number passes the length check of [extract_phone_number],
    and the user created for it is stored with "91" followed by these
    ten characters, which is not "91" and ten decimal digits. *)
Theorem inserted_user_phone_number_not_decimal :
  let run :=
    process_conversation Samples.request Samples.superscript_answers 10
      Samples.empty_world in
  Phone.normalize_phone_number Samples.superscripts = Samples.superscripts
  /\ phone_of_reply (phone_reply Samples.superscript_answers)
     = Some Samples.superscripts
  /\ length (users_of (db run.2)) = 1
  /\ Samples.first_user run.2 !! "phone_number"
     = Some (VStr (text "91" ++ Samples.superscripts))
  /\ ¬ phone_number_format (VStr (text "91" ++ Samples.superscripts)).
Proof.
  cbv zeta. repeat (split; [vm_compute; reflexivity |]).
  intros (p & Heq & _ & Hd). injection Heq as <-.
  apply Forall_cons in Hd as [Hd _]. discriminate Hd.
Qed.

Lemma find_app_new {A} (f : A -> bool) l d :
  List.find f l = None -> f d = true -> List.find f (l ++ [d]) = Some d.
Proof.
  induction l as [| x l IH]; simpl.
  - by intros _ ->.
  - destruct (f x); [done |]. apply IH.
Qed.

Lemma selects_lookup field v (d : doc) :
  selects field v d = true <-> d !! field = Some v.
Proof. unfold selects. apply bool_decide_eq_true. Qed.

(** A user returned with the phone number of the request is the one the
    phone look-up finds from then on. *)
Lemma find_or_create_user_then_found p email g w user w2 :
  present (Some p) = Some p ->
  find_or_create_user (Some p) email g w = (inr user, w2) ->
  user !! "phone_number" = Some (phone_db_format p) ->
  List.find (selects "phone_number" (phone_db_format p)) (users_of (db w2))
  = Some user.
Proof.
  intros Hp Hrun Hph. revert Hrun. rewrite run_find_or_create_user.
  unfold by_phone at 1. rewrite Hp.
  destruct (List.find _ (users_of (db w))) as [u |] eqn:Ep.
  { by intros [= <- <-]. }
  assert (forall u, u ∈ users_of (db w) ->
                    u !! "phone_number" <> Some (phone_db_format p)) as Hno.
  { intros u Hin Hu. apply list_elem_of_In in Hin.
    eapply find_none in Ep; [| exact Hin]. apply selects_lookup in Hu.
    congruence. }
  cbv zeta. destruct (by_email email w) as [u |] eqn:Ee.
  { intros [= <- <-]. unfold by_email in Ee.
    destruct (present email); [| done].
    apply find_some in Ee as [Hin _]. apply list_elem_of_In in Hin.
    by apply Hno in Hin. }
  destruct (create_user_from_conversation _ _ _ _) as [[e | created] w1] eqn:Ec;
    [done |].
  apply create_user_footprint in Ec as (_ & _ & Hu).
  destruct Hu as [[Hu Hin] | (user_data & e & _ & Hu & Hout)].
  - destruct (found created) eqn:Ef; [| done]. intros [= <- <-].
    destruct created as [c |]; [| done].
    specialize (Hin c eq_refl). by apply Hno in Hin.
  - injection Hout as ->. rewrite found_insert. intros [= <- <-].
    rewrite Hu. cbn [default from_option id] in *.
    by apply find_app_new; [| apply selects_lookup].
Qed.

Lemma user_of_phone_number u a h :
  user_of (response_of u a h) !! "phone_number" = Some (get u "phone_number").
Proof.
  unfold response_of. cbn [user_of].
  rewrite !lookup_insert_ne by done. by rewrite lookup_singleton_eq.
Qed.

Lemma user_of_id u a h :
  user_of (response_of u a h) !! "_id" = Some (get u "_id").
Proof. unfold response_of. cbn [user_of]. by rewrite lookup_insert_eq. Qed.

(** When the phone look-up finds a user, the request goes on with it. *)
Lemma process_conversation_found request g now w p u out w' :
  ¬ blank (conversation_of request) ->
  phone_of_reply (phone_reply g) = Some p ->
  List.find (selects "phone_number" (phone_db_format p)) (users_of (db w))
  = Some u ->
  process_conversation request g now w = (out, w') ->
  users_of (db w') = users_of (db w)
  /\ (exists evs,
        log w' = log w
                 ++ [Chat chat_phone; Chat chat_languages; Connect;
                     FindOne users "phone_number" (phone_db_format p)]
                 ++ evs
        /\ Forall (fun e => identity_event e = false) evs)
  /\ (forall r, out = inr r -> exists a h, r = response_of u a h).
Proof.
  intros Hb Hp Hfind Hrun.
  pose proof (present_phone_of_reply _ _ Hp) as Hpres.
  assert (identify g w = (inr (Some p, None), logged w [Chat chat_phone]))
    as Hid.
  { rewrite run_identify, truthy_phone_of_reply, Hp.
    by rewrite bool_decide_true. }
  assert (find_or_create_user (Some p) None g
            (logged (logged w [Chat chat_phone]) [Chat chat_languages; Connect])
          = (inr u, logged w [Chat chat_phone; Chat chat_languages; Connect;
                              FindOne users "phone_number" (phone_db_format p)]))
    as Hfoc.
  { rewrite run_find_or_create_user. unfold by_phone, phone_lookup.
    rewrite Hpres. cbn [logged db]. rewrite Hfind.
    unfold logged. cbn [db log]. by rewrite <- !app_assoc. }
  split; [| split].
  - replace w' with (process_conversation request g now w).2
      by (by rewrite Hrun).
    rewrite process_conversation_world, Hid, Hfoc by done.
    destruct (truthy (get u "_id")); [| done].
    pose proof (upsert_analytics_footprint (get u "_id") g
      (logged w [Chat chat_phone; Chat chat_languages; Connect;
                 FindOne users "phone_number" (phone_db_format p)]))
      as (Hu3 & _).
    destruct (upsert_analytics _ _ _) as [[e | a] w3]; cbn [snd] in Hu3;
      [done |].
    pose proof (store_history_footprint (conversation_of request)
                  (get u "_id") (languages_reply g) now w3) as (Hu4 & _).
    by rewrite Hu4, Hu3.
  - replace w' with (process_conversation request g now w).2
      by (by rewrite Hrun).
    rewrite process_conversation_world, Hid, Hfoc by done.
    destruct (truthy (get u "_id"));
      [| exists []; split; [by rewrite app_nil_r | constructor]].
    pose proof (upsert_analytics_footprint (get u "_id") g
      (logged w [Chat chat_phone; Chat chat_languages; Connect;
                 FindOne users "phone_number" (phone_db_format p)]))
      as (_ & _ & evs3 & Hl3 & Hq3).
    destruct (upsert_analytics _ _ _) as [[e | a] w3]; cbn [snd] in Hl3.
    { exists evs3. split; [| done]. rewrite Hl3. cbn [logged log].
      by rewrite <- !app_assoc. }
    pose proof (store_history_footprint (conversation_of request)
                  (get u "_id") (languages_reply g) now w3)
      as (_ & _ & evs4 & Hl4 & Hq4).
    exists (evs3 ++ evs4). split; [| by apply Forall_app].
    rewrite Hl4, Hl3. cbn [logged log]. by rewrite <- !app_assoc.
  - intros r ->.
    apply process_conversation_inr in Hrun
      as (_ & ph & em & w1 & user & w2 & a & w3 & h & Hid' & Hfoc' & _ & _ & _ & ->).
    rewrite Hid in Hid'. injection Hid' as <- <- <-.
    rewrite Hfoc in Hfoc'. injection Hfoc' as <- <-.
    by exists a, h.
Qed.

(** C5 (amended).  When the phone look-up finds a user, the users
    collection is left unchanged, the only event of identity resolution is
    that look-up (no e-mail look-up, no profile extraction, no insert),
    and a response is built from the user found.  For two successive
    requests with the same phone number, if the first succeeds and returns
    a user holding that number, the second, when it succeeds, returns the
    same identifier and leaves the users collection unchanged. *)
Theorem identity_resolution :
  (forall request g now w p u out w',
     ¬ blank (conversation_of request) ->
     phone_of_reply (phone_reply g) = Some p ->
     List.find (selects "phone_number" (phone_db_format p)) (users_of (db w))
     = Some u ->
     process_conversation request g now w = (out, w') ->
     users_of (db w') = users_of (db w)
     /\ (exists evs,
           log w' = log w
                    ++ [Chat chat_phone; Chat chat_languages; Connect;
                        FindOne users "phone_number" (phone_db_format p)]
                    ++ evs
           /\ Forall (fun e => identity_event e = false) evs)
     /\ (forall r, out = inr r -> exists a h, r = response_of u a h))
  /\ (forall request1 g1 now1 request2 g2 now2 w0 r1 w1 r2 w2 p,
        phone_of_reply (phone_reply g1) = Some p ->
        phone_of_reply (phone_reply g2) = Some p ->
        process_conversation request1 g1 now1 w0 = (inr r1, w1) ->
        user_of r1 !! "phone_number" = Some (phone_db_format p) ->
        process_conversation request2 g2 now2 w1 = (inr r2, w2) ->
        user_of r2 !! "_id" = user_of r1 !! "_id"
        /\ users_of (db w2) = users_of (db w1)).
Proof.
  split; [exact process_conversation_found |].
  intros request1 g1 now1 request2 g2 now2 w0 r1 w1 r2 w2 p Hp1 Hp2 H1 Hph H2.
  pose proof (present_phone_of_reply _ _ Hp1) as Hpres.
  apply process_conversation_inr in H1
    as (_ & ph & em & wa & user & wb & a & wc & h
        & Hid & Hfoc & _ & Hup & Hhist & ->).
  apply identify_footprint in Hid as [_ Hid].
  destruct (Hid _ _ eq_refl) as [-> _]. rewrite Hp1 in Hfoc.
  rewrite user_of_phone_number in Hph. injection Hph as Hph.
  assert (user !! "phone_number" = Some (phone_db_format p)) as Hph'.
  { unfold get, phone_db_format in *.
    destruct (user !! "phone_number"); simpl in Hph; [by subst | done]. }
  pose proof (find_or_create_user_then_found _ _ _ _ _ _ Hpres Hfoc Hph')
    as Hfind.
  assert (users_of (db w1) = users_of (db wb)) as Hsame.
  { pose proof (upsert_analytics_footprint (get user "_id") g1 wb) as (Hu3 & _).
    pose proof (store_history_footprint (conversation_of request1)
                  (get user "_id") (languages_reply g1) now1 wc) as (Hu4 & _).
    rewrite Hup in Hu3. rewrite Hhist in Hu4. cbn [snd] in *.
    by rewrite Hu4, Hu3. }
  rewrite <- Hsame in Hfind.
  pose proof (process_conversation_inr _ _ _ _ _ _ H2) as [Hb _].
  destruct (process_conversation_found _ _ _ _ _ _ _ _ Hb Hp2 Hfind H2)
    as (Hu & _ & Hr).
  destruct (Hr r2 eq_refl) as (a2 & h2 & ->).
  split; [| done]. by rewrite !user_of_id.
Qed.

End Identity.

(** ** Analytics upsert *)

Section Analytics.
Import Pipeline PipelineSpec.

Lemma set_first_found field v upd l existing :
  List.find (selects field v) l = Some existing ->
  exists before after,
    l = before ++ existing :: after
    /\ Forall (fun d => selects field v d = false) before
    /\ set_first field v upd l = before ++ (upd ∪ existing) :: after.
Proof.
  induction l as [| d l IH]; simpl; [done |].
  destruct (selects field v d) eqn:Ed.
  - intros [= ->]. by exists [], l.
  - intros (before & after & -> & Hb & Hs)%IH.
    exists (d :: before), after. repeat split; [by constructor |].
    by rewrite Hs.
Qed.

Lemma length_filter_set_first v v' upd l :
  upd !! "user_id" = Some v ->
  length (List.filter (selects "user_id" v') (set_first "user_id" v upd l))
  = length (List.filter (selects "user_id" v') l).
Proof.
  intros Hupd. induction l as [| d l IH]; simpl; [done |].
  destruct (selects "user_id" v d) eqn:Ed.
  - simpl. apply selects_lookup in Ed.
    assert (selects "user_id" v' (upd ∪ d) = selects "user_id" v' d) as ->.
    { unfold selects. rewrite (lookup_union_Some_l _ _ _ _ Hupd).
      by rewrite Ed. }
    by destruct (selects "user_id" v' d).
  - simpl. destruct (selects "user_id" v' d); simpl; by rewrite IH.
Qed.

Lemma one_per_user_set_first v upd l :
  upd !! "user_id" = Some v ->
  one_per_user l -> one_per_user (set_first "user_id" v upd l).
Proof.
  intros Hupd Hone v'. rewrite length_filter_set_first by done. apply Hone.
Qed.

Lemma find_none_filter {A} (f : A -> bool) l :
  List.find f l = None -> List.filter f l = [].
Proof.
  induction l as [| x l IH]; simpl; [done |]. destruct (f x); [done |].
  apply IH.
Qed.

Lemma one_per_user_new v d l :
  d !! "user_id" = Some v ->
  List.find (selects "user_id" v) l = None ->
  one_per_user l -> one_per_user (l ++ [d]).
Proof.
  intros Hd Hnone Hone v'. rewrite List.filter_app, length_app. simpl.
  destruct (selects "user_id" v' d) eqn:Ed; simpl.
  - apply selects_lookup in Ed. rewrite Hd in Ed. injection Ed as <-.
    by rewrite (find_none_filter _ _ Hnone).
  - specialize (Hone v'). lia.
Qed.

Lemma analytics_doc_of_user_id user_id analytics_data follow_up :
  analytics_doc_of user_id analytics_data follow_up !! "user_id"
  = Some user_id.
Proof. unfold analytics_doc_of. by rewrite lookup_insert_eq. Qed.

(** Only for a string that [ObjectId] reads does the identifier looked
    up differ from the one given. *)
Lemma validate_not_hex v oid :
  validate v = inr oid -> hex_id v = false -> oid = v.
Proof.
  destruct v; simpl; try done.
  - by destruct (if length s =? 24 then _ else _).
  - by intros [= <-].
Qed.

Lemma upsert_analytics_one_per_user user_id g w :
  user_id <> VNone -> hex_id user_id = false ->
  one_per_user (userAnalytics_of (db w)) ->
  one_per_user (userAnalytics_of (db (upsert_analytics user_id g w).2)).
Proof.
  intros Hne Hhex Hone. rewrite run_upsert_analytics.
  destruct (analytics_reply g) as [analytics_data |]; [| done].
  cbv zeta. rewrite run_ObjectId by done.
  destruct (validate user_id) as [e | oid] eqn:Ev; [done |].
  apply validate_not_hex in Ev as ->; [| done].
  cbn [logged db].
  destruct (List.find (selects "user_id" user_id) _) as [existing |] eqn:Ef;
    cbn [snd db set_docs fresh_oid userAnalytics_of].
  - apply one_per_user_set_first; [| done].
    destruct (negb _).
    + rewrite lookup_insert_ne by done. apply analytics_doc_of_user_id.
    + apply analytics_doc_of_user_id.
  - apply (one_per_user_new user_id); [| done | done].
    rewrite lookup_insert_ne by done. apply analytics_doc_of_user_id.
Qed.

(** The user a request goes on with is one of the store or a new one,
    whose [_id] is an ObjectId. *)
Lemma find_or_create_user_no_hex_id phone_number email g w user w2 :
  no_hex_ids (users_of (db w)) ->
  find_or_create_user phone_number email g w = (inr user, w2) ->
  hex_id (get user "_id") = false.
Proof.
  intros Hno Hf.
  apply find_or_create_user_footprint in Hf as (_ & _ & Hu).
  destruct Hu as [[_ Hin] | (user_data & e & _ & _ & [= ->])].
  - specialize (Hin user eq_refl). unfold no_hex_ids in Hno.
    rewrite Forall_forall in Hno. by apply Hno.
  - by rewrite user_doc_id.
Qed.

Lemma process_conversation_one_per_user request g now w :
  no_hex_ids (users_of (db w)) ->
  one_per_user (userAnalytics_of (db w)) ->
  one_per_user
    (userAnalytics_of (db (process_conversation request g now w).2)).
Proof.
  intros Hno Hone.
  destruct (decide (blank (conversation_of request))) as [Hb | Hb].
  { by rewrite process_conversation_blank. }
  rewrite process_conversation_world by done.
  destruct (identify g w) as [[e | [phone_number email]] w1] eqn:Ei.
  { apply identify_footprint in Ei as [-> _]. done. }
  apply identify_footprint in Ei as [Hdb _].
  destruct (find_or_create_user _ _ _ _) as [out w2] eqn:Ef.
  pose proof (find_or_create_user_footprint _ _ _ _ _ _ Ef) as (Ha & _ & _).
  cbn [logged db] in Ha. rewrite Hdb in Ha.
  destruct out as [e | user]; [by rewrite Ha |].
  apply find_or_create_user_no_hex_id in Ef;
    [| by cbn [logged db]; rewrite Hdb].
  destruct (truthy (get user "_id")) eqn:Et; [| by rewrite Ha].
  rewrite <- Ha in Hone.
  pose proof (upsert_analytics_one_per_user (get user "_id") g w2
                (truthy_not_None _ Et) Ef Hone) as H3.
  destruct (upsert_analytics _ _ _) as [[e | a] w3]; cbn [snd] in H3; [done |].
  pose proof (store_history_footprint (conversation_of request)
                (get user "_id") (languages_reply g) now w3) as (_ & Ha4 & _).
  by rewrite Ha4.
Qed.

Lemma analytics_of_field u a h k :
  k ∈ derived_fields ->
  analytics_of (response_of u a h) !! k = Some (get a k).
Proof.
  unfold derived_fields, response_of. cbn [analytics_of].
  rewrite !elem_of_cons, elem_of_nil.
  intros [-> | [-> | [-> | [-> | []]]]].
  - rewrite lookup_insert_ne by done. by rewrite lookup_insert_eq.
  - rewrite !lookup_insert_ne by done. by rewrite lookup_insert_eq.
  - rewrite !lookup_insert_ne by done. by rewrite lookup_insert_eq.
  - rewrite !lookup_insert_ne by done. by rewrite lookup_singleton_eq.
Qed.

Lemma analytics_of_id u a h :
  analytics_of (response_of u a h) !! "_id" = Some (get a "_id").
Proof.
  unfold response_of. cbn [analytics_of]. by rewrite lookup_insert_eq.
Qed.

Lemma dom_analytics_doc_of user_id analytics_data follow_up :
  dom (analytics_doc_of user_id analytics_data follow_up)
  = (list_to_set derived_fields : gset string).
Proof.
  unfold analytics_doc_of, derived_fields.
  rewrite !dom_insert_L, dom_singleton_L. simpl. set_solver.
Qed.

Lemma user_of_get_id u a h :
  get (user_of (response_of u a h)) "_id" = get u "_id".
Proof. unfold get at 1. by rewrite user_of_id. Qed.

(** C6 (amended).  The record of a user is looked up under
    [ObjectId(user_id)], which is the [_id] of the user when that is an
    ObjectId.  When a request succeeds and a record is found there, that
    record, and no other, is rewritten: the four fields of the derived
    document (user_id, country, intent_level, follow_up) take the derived
    values, which are those of the response; every other field of the
    record, its identifier among them, stays as it was; when the record
    had no follow_up, the derived follow_up is the one detected afresh.
    In a store none of whose users has a string that reads as an
    identifier for [_id], at most one analytics record for each user id
    stays so, whatever the outcome of a request. *)
Theorem analytics_upsert :
  (forall request g now w r w' oid existing,
     process_conversation request g now w = (inr r, w') ->
     validate (get (user_of r) "_id") = inr oid ->
     List.find (selects "user_id" oid) (userAnalytics_of (db w))
     = Some existing ->
     exists (derived : doc) before after,
       userAnalytics_of (db w) = before ++ existing :: after
       /\ Forall (fun d => selects "user_id" oid d = false) before
       /\ userAnalytics_of (db w') = before ++ (derived ∪ existing) :: after
       /\ dom derived = (list_to_set derived_fields : gset string)
       /\ (forall k, k ∈ derived_fields ->
             (derived ∪ existing) !! k = derived !! k
             /\ analytics_of r !! k = derived !! k)
       /\ (forall k, k ∉ derived_fields ->
             (derived ∪ existing) !! k = existing !! k)
       /\ analytics_of r !! "_id" = Some (get existing "_id")
       /\ (existing !! "follow_up" = None ->
           derived !! "follow_up"
           = Some (VBool (follow_up_of (follow_up_reply_again g)))))
  /\ (forall request g now w,
        no_hex_ids (users_of (db w)) ->
        one_per_user (userAnalytics_of (db w)) ->
        one_per_user
          (userAnalytics_of (db (process_conversation request g now w).2))).
Proof.
  split; [| exact process_conversation_one_per_user].
  intros request g now w r w' oid existing Hrun Hoid Hfind.
  apply process_conversation_inr in Hrun
    as (_ & ph & em & w1 & user & w2 & a & w3 & h
        & Hid & Hfoc & Ht & Hup & Hhist & ->).
  rewrite user_of_get_id in *.
  apply identify_footprint in Hid as [Hdb _].
  apply find_or_create_user_footprint in Hfoc as (Ha2 & _ & _).
  cbn [logged db] in Ha2. rewrite Hdb in Ha2.
  pose proof (store_history_footprint (conversation_of request)
                (get user "_id") (languages_reply g) now w3) as (_ & Ha4 & _).
  rewrite Hhist in Ha4. cbn [snd] in Ha4.
  rewrite run_upsert_analytics in Hup.
  destruct (analytics_reply g) as [analytics_data |]; [| done].
  cbv zeta in Hup.
  rewrite run_ObjectId, Hoid in Hup by (by apply truthy_not_None).
  cbn [logged db log] in Hup. rewrite Ha2, Hfind in Hup.
  set (derived :=
         if negb (bool_decide (is_Some (existing !! "follow_up")))
         then <["follow_up" := VBool (follow_up_of (follow_up_reply_again g))]>
                (analytics_doc_of (get user "_id") analytics_data
                   (follow_up_of (follow_up_reply g)))
         else analytics_doc_of (get user "_id") analytics_data
                (follow_up_of (follow_up_reply g))) in *.
  injection Hup as <- <-. rewrite Ha4.
  cbn [db set_docs fresh_oid userAnalytics_of].
  destruct (set_first_found "user_id" oid derived _ _ Hfind)
    as (before & after & Hl & Hb & Hs).
  assert (dom derived = (list_to_set derived_fields : gset string)) as Hdom.
  { unfold derived. destruct (negb _); [| apply dom_analytics_doc_of].
    rewrite dom_insert_L, dom_analytics_doc_of. unfold derived_fields.
    simpl. set_solver. }
  exists derived, before, after.
  split; [done |]. split; [done |]. split; [done |]. split; [done |].
  split; [| split; [| split]].
  - intros k Hk.
    assert (is_Some (derived !! k)) as [v Hv].
    { apply elem_of_dom. rewrite Hdom. by apply elem_of_list_to_set. }
    split; [by rewrite (lookup_union_Some_l _ _ _ _ Hv) |].
    rewrite analytics_of_field by done. unfold get.
    rewrite lookup_insert_ne, Hv; [done |].
    intros <-. revert Hk. unfold derived_fields.
    rewrite !elem_of_cons, elem_of_nil.
    by intros [? | [? | [? | [? | []]]]].
  - intros k Hk. apply lookup_union_r. apply not_elem_of_dom.
    rewrite Hdom. by rewrite elem_of_list_to_set.
  - rewrite analytics_of_id. unfold get at 1. by rewrite lookup_insert_eq.
  - intros Hnone. unfold derived. rewrite Hnone.
    rewrite bool_decide_false by (by intros [? ?]). cbn [negb].
    by rewrite lookup_insert_eq.
Qed.

End Analytics.

(** ** The statements on sample requests *)

Section OnSamples.
Import Pipeline PipelineSpec Samples.

Ltac failed_run E :=
  exfalso;
  apply (f_equal (fun x : (exn + response) * world =>
                    match x.1 with inl _ => true | inr _ => false end)) in E;
  vm_compute in E; discriminate E.

Lemma identity_resolution_witness :
  let first :=
    process_conversation request
      (answers "+91 98765 43210" "asha@example.com" "mofu") 10 empty_world in
  let second :=
    process_conversation request (answers "9876543210" "" "bofu") 20
      first.2 in
  exists r1 r2,
    first.1 = inr r1 /\ second.1 = inr r2
    /\ user_of r2 !! "_id" = user_of r1 !! "_id"
    /\ users_of (db second.2) = users_of (db first.2).
Proof.
  cbv zeta.
  destruct (process_conversation request
              (answers "+91 98765 43210" "asha@example.com" "mofu") 10
              empty_world) as [[e1 | r1] w1] eqn:E1; [failed_run E1 |].
  cbn [fst snd].
  destruct (process_conversation request (answers "9876543210" "" "bofu") 20
              w1) as [[e2 | r2] w2] eqn:E2.
  { assert (w1 = (process_conversation request
                    (answers "+91 98765 43210" "asha@example.com" "mofu") 10
                    empty_world).2) as -> by (by rewrite E1).
    failed_run E2. }
  exists r1, r2. split; [done |]. split; [done |]. cbn [fst snd].
  apply (proj2 identity_resolution request
           (answers "+91 98765 43210" "asha@example.com" "mofu") 10%N
           request (answers "9876543210" "" "bofu") 20%N
           empty_world r1 w1 r2 w2 (text "9876543210")).
  - reflexivity.
  - reflexivity.
  - exact E1.
  - change ((fun x : (exn + response) * world =>
                match x.1 with
                      | inr r' => user_of r' !! "phone_number"
                      | inl _ => None
                      end) (inr r1, w1)
            = Some (phone_db_format (text "9876543210"))).
    rewrite <- E1. vm_compute. reflexivity.
  - exact E2.
Defined.

(** C5, as stated, fails: the first request is resolved through the e-mail
    address of the profile to a user without phone number; the second,
    with the same phone number and no e-mail address, creates a user. *)
Lemma identity_resolution_same_phone_counterexample :
  let first :=
    process_conversation request
      (answers "9876543210" "asha@example.com" "mofu") 10 email_world in
  let second :=
    process_conversation request (answers "9876543210" "" "mofu") 20
      first.2 in
  phone_of_reply (phone_reply (answers "9876543210" "asha@example.com" "mofu"))
  = Some (text "9876543210")
  /\ phone_of_reply (phone_reply (answers "9876543210" "" "mofu"))
     = Some (text "9876543210")
  /\ returned_user "_id" first.1 = Some (VObjectId 1)
  /\ returned_user "_id" second.1 = Some (VObjectId 4)
  /\ returned_user "_id" second.1 <> returned_user "_id" first.1
  /\ length (users_of (db first.2)) = 1
  /\ length (users_of (db second.2)) = 2.
Proof. vm_compute. repeat split; discriminate. Qed.

Lemma analytics_upsert_witness :
  exists r w',
    process_conversation request (answers "9876543210" "" "bofu") 10
      legacy_world = (inr r, w')
    /\ exists (derived : doc) before after,
         userAnalytics_of (db legacy_world) = before ++ legacy_record :: after
         /\ Forall (fun d => selects "user_id" (VObjectId 1) d = false) before
         /\ userAnalytics_of (db w') = before ++ (derived ∪ legacy_record) :: after
         /\ dom derived = (list_to_set derived_fields : gset string)
         /\ (forall k, k ∈ derived_fields ->
               (derived ∪ legacy_record) !! k = derived !! k
               /\ analytics_of r !! k = derived !! k)
         /\ (forall k, k ∉ derived_fields ->
               (derived ∪ legacy_record) !! k = legacy_record !! k)
         /\ analytics_of r !! "_id" = Some (get legacy_record "_id")
         /\ (legacy_record !! "follow_up" = None ->
             derived !! "follow_up"
             = Some (VBool (follow_up_of
                              (follow_up_reply_again
                                 (answers "9876543210" "" "bofu"))))).
Proof.
  destruct (process_conversation request (answers "9876543210" "" "bofu") 10
              legacy_world) as [[e | r] w'] eqn:E; [failed_run E |].
  exists r, w'. split; [done |].
  apply (proj1 analytics_upsert request (answers "9876543210" "" "bofu") 10%N
           legacy_world r w' (VObjectId 1) legacy_record E).
  - change ((fun x : (exn + response) * world =>
                match x.1 with
                | inr r' => validate (get (user_of r') "_id")
                | inl e => inl e
                end) (inr r, w') = inr (VObjectId 1)).
    rewrite <- E. vm_compute. reflexivity.
  - vm_compute. reflexivity.
Defined.

(** C6, as stated, fails: the update writes the derived fields over the
    record and keeps the others.  A record with a field that the derived
    document does not have still has it afterwards, so the record is not
    the derived document under the old identifier.  And there can be more
    than one record for a user id: for a user whose [_id] is a string
    that reads as an identifier, the record is looked up under the
    ObjectId read and stored under the string, so that a second request
    stores a second record. *)
Lemma analytics_upsert_overwrite_counterexample :
  let run :=
    process_conversation request (answers "9876543210" "" "bofu") 10
      legacy_world in
  let derived :=
    <["follow_up" := VBool false]>
      (analytics_doc_of (VObjectId 1)
         (<["country" := VStr (text "India")]>
            {[ "intent_level" := VStr (text "bofu") ]}) true) in
  let once :=
    process_conversation request (answers "9876543210" "" "bofu") 10
      hex_world in
  let twice :=
    process_conversation request (answers "9876543210" "" "bofu") 20
      once.2 in
  returned_user "_id" once.1 = hex_user !! "_id"
  /\ returned_user "_id" twice.1 = hex_user !! "_id"
  /\ length (List.filter (selects "user_id" (get hex_user "_id"))
               (userAnalytics_of (db twice.2))) = 2
  /\ returned_user "_id" run.1 = Some (VObjectId 1)
  /\ length (userAnalytics_of (db run.2)) = 1
  /\ first_record run.2 !! "_id" = Some (VObjectId 2)
  /\ first_record run.2 !! "intent_level" = derived !! "intent_level"
  /\ first_record run.2 !! "follow_up" = derived !! "follow_up"
  /\ returned_analytics "intent_level" run.1 = derived !! "intent_level"
  /\ returned_analytics "budget" run.1 = None
  /\ derived !! "budget" = None
  /\ first_record run.2 !! "budget" = Some (VStr (text "1,90,000-2,00,000"))
  /\ first_record run.2 <> <["_id" := VObjectId 2]> derived.
Proof.
  cbv zeta. repeat (split; [vm_compute; reflexivity |]).
  intros H. apply (f_equal (fun d : doc => d !! "budget")) in H.
  vm_compute in H. discriminate H.
Qed.

End OnSamples.

(** * Further properties *)

(** ** The phone normaliser, all inputs *)

Section PhoneMore.
Import Phone Pipeline PipelineSpec Helpers HelpersSpec.

(** X1.  The result is made of characters that [str.isdigit] accepts:
    it is a tail of the digits of the input, as long as the branch taken
    says, with as many zeros in front of it as the digits are short of
    ten. *)
Theorem normalize_phone_number_tail_of_digits (x : str) :
  digits (normalize_phone_number x)
  /\ exists tail,
       normalize_phone_number x
       = replicate (10 - length (digits_only x)) "0"%char ++ tail
       /\ tail `suffix_of` digits_only x
       /\ length tail
          = if startswith (text "91") (digits_only x)
               && (10 <? length (digits_only x))
            then length (digits_only x) - 2
            else Nat.min (length (digits_only x)) 10.
Proof.
  split; [apply normalize_phone_number_digits |].
  unfold normalize_phone_number.
  pose proof (digits_only_digits x) as Hd.
  destruct (_ && _) eqn:E.
  { apply andb_true_iff in E as [_ Hlt%Nat.ltb_lt].
    exists (drop 2 (digits_only x)).
    replace (10 - length (digits_only x)) with 0 by lia.
    split; [done |]. split; [apply suffix_drop |].
    rewrite length_drop. lia. }
  destruct (Nat.ltb_spec 10 (length (digits_only x))).
  { exists (drop (length (digits_only x) - 10) (digits_only x)).
    replace (10 - length (digits_only x)) with 0 by lia.
    split; [done |]. split; [apply suffix_drop |].
    rewrite length_drop. lia. }
  destruct (Nat.ltb_spec (length (digits_only x)) 10).
  - exists (digits_only x).
    split; [by apply zfill_digits |]. split; [done | lia].
  - exists (digits_only x).
    replace (10 - length (digits_only x)) with 0 by lia.
    split; [done |]. split; [done | lia].
Qed.

(** X2.  The length of the result: two less than the number of digits
    when these start with "91" and are more than ten, and ten in every
    other case. *)
Theorem normalize_phone_number_length (x : str) :
  length (normalize_phone_number x)
  = if startswith (text "91") (digits_only x)
       && (10 <? length (digits_only x))
    then length (digits_only x) - 2
    else 10.
Proof.
  destruct (_ && _) eqn:E.
  - by apply normalize_phone_number_length_91.
  - by apply normalize_phone_number_length_other.
Qed.

Lemma startswith_app p s : startswith p (p ++ s) = true.
Proof.
  induction p as [| c p IH]; simpl; [done |].
  by destruct (decide (c = c)).
Qed.

(** X3.  The stored form is read back: whatever separates them, the
    digits "91" followed by ten digits give these ten digits, and ten
    digits alone are returned as they are. *)
Theorem normalize_phone_number_of_stored (x p : str) :
  length p = 10 ->
  digits_only x = text "91" ++ p \/ digits_only x = p ->
  normalize_phone_number x = p.
Proof.
  intros Hl [Hx | Hx]; unfold normalize_phone_number; rewrite Hx.
  - rewrite startswith_app. rewrite length_app, Hl. done.
  - rewrite Hl. simpl. by rewrite andb_false_r.
Qed.

Lemma normalize_phone_number_of_stored_witness :
  normalize_phone_number (text "+91-98765 43210") = text "9876543210"
  /\ normalize_phone_number (text "(987) 654-3210") = text "9876543210".
Proof.
  split.
  - apply normalize_phone_number_of_stored; [reflexivity |].
    left. reflexivity.
  - apply normalize_phone_number_of_stored; [reflexivity |].
    right. reflexivity.
Defined.

(** X4.  A second pass leaves the result as it is exactly when the first
    result has ten characters. *)
Theorem normalize_phone_number_second_pass (x : str) :
  normalize_phone_number (normalize_phone_number x) = normalize_phone_number x
  <-> length (normalize_phone_number x) = 10.
Proof. apply normalize_phone_number_idem_iff. Qed.

Lemma digits_only_lstrip s :
  digits_only (Py.lstrip_by isspace s) = digits_only s.
Proof.
  unfold digits_only. induction s as [| c s IH]; simpl; [done |].
  destruct (isspace c) eqn:Hc; [| done].
  assert (isdigit c = false) as ->; [| done].
  destruct c as [[] [] [] [] [] [] [] []]; by vm_compute in Hc |- *.
Qed.

Lemma digits_only_rev s : digits_only (rev s) = rev (digits_only s).
Proof.
  unfold digits_only. induction s as [| c s IH]; simpl; [done |].
  rewrite List.filter_app, IH. simpl.
  destruct (isdigit c); simpl; [done | by rewrite app_nil_r].
Qed.

Lemma digits_only_strip s : digits_only (Py.strip s) = digits_only s.
Proof.
  unfold Py.strip, Py.strip_by, Py.rstrip_by.
  rewrite digits_only_rev, digits_only_lstrip, digits_only_rev, rev_involutive.
  apply digits_only_lstrip.
Qed.

Lemma normalize_phone_number_Forall (P : ascii -> Prop) x :
  P "0"%char -> Forall P (digits_only x) ->
  Forall P (normalize_phone_number x).
Proof.
  intros H0 Hd. unfold normalize_phone_number.
  destruct (_ && _); [by apply Forall_drop |].
  destruct (Nat.ltb_spec 10 (length (digits_only x)));
    [by apply Forall_drop |].
  destruct (Nat.ltb_spec (length (digits_only x)) 10); [| done].
  rewrite zfill_digits by (done || apply digits_only_digits).
  apply Forall_app. split; [by apply Forall_replicate | done].
Qed.

Lemma phone_of_reply_decimals content p :
  Forall (fun c => isdigit c = true -> decimal c = true) content ->
  phone_of_reply (Some content) = Some p -> decimals p.
Proof.
  intros Hc. unfold phone_of_reply.
  destruct (_ || _); [done |]. destruct (negb _); [done |].
  intros [= <-]. apply normalize_phone_number_Forall; [done |].
  rewrite digits_only_strip. unfold digits_only.
  apply Forall_forall. intros c Hin.
  apply list_elem_of_In, filter_In in Hin as [Hin Hd].
  rewrite Forall_forall in Hc. apply Hc; [| done]. by apply list_elem_of_In.
Qed.

Lemma phone_of_reply_usable content :
  usable content ->
  phone_of_reply (Some content)
  = if length (normalize_phone_number content) =? 10
    then Some (normalize_phone_number content)
    else None.
Proof.
  intros [Hne Hnf]. unfold phone_of_reply.
  rewrite bool_decide_false by done. unfold Py.nonempty.
  rewrite bool_decide_false by done. simpl.
  assert (normalize_phone_number (Py.strip content)
          = normalize_phone_number content) as ->.
  { unfold normalize_phone_number. by rewrite digits_only_strip. }
  by destruct (_ =? 10).
Qed.

(** X5.  What [extract_phone_number] accepts.  A reply that is not blank
    and not NOT_FOUND is turned down exactly when its digits start with
    "91" and are more than ten but not twelve; in every other case it
    gives the normalised number, even when that is mostly padding. *)
Theorem phone_of_reply_accepts (content : str) :
  usable content ->
  let d := digits_only content in
  (phone_of_reply (Some content) = None
   <-> startswith (text "91") d = true /\ 10 < length d /\ length d <> 12)
  /\ (phone_of_reply (Some content) <> None ->
      phone_of_reply (Some content) = Some (normalize_phone_number content)).
Proof.
  intros Hu d. rewrite (phone_of_reply_usable _ Hu).
  rewrite normalize_phone_number_length. fold d.
  destruct (startswith (text "91") d) eqn:Es; simpl.
  - destruct (Nat.ltb_spec 10 (length d)) as [Hlt | Hge].
    + destruct (Nat.eqb_spec (length d - 2) 10) as [He | Hne].
      * split; [| done]. split; [done |]. intros (_ & _ & ?). lia.
      * split; [| done]. split; [| done]. intros _. repeat split; [done |].
        lia.
    + simpl. split; [| done]. split; [done |]. intros (_ & ? & _). lia.
  - split; [| done]. split; [done |]. by intros (? & _).
Qed.

Lemma phone_of_reply_accepts_witness :
  phone_of_reply (Some (text " 91 12345 6789 ")) = None
  /\ phone_of_reply (Some (text "ext. 4321"))
     = Some (normalize_phone_number (text "ext. 4321")).
Proof.
  split.
  - apply (phone_of_reply_accepts (text " 91 12345 6789 ")).
    + split; intros H; by vm_compute in H.
    + repeat split; simpl; lia.
  - apply (phone_of_reply_accepts (text "ext. 4321")).
    + split; intros H; by vm_compute in H.
    + intros H. by vm_compute in H.
Defined.

(** X6.  A reply without any digit, unless it is blank or NOT_FOUND, is
    taken as the phone number "0000000000". *)
Theorem phone_of_reply_without_digits (content : str) :
  usable content ->
  digits_only content = [] ->
  phone_of_reply (Some content) = Some (text "0000000000").
Proof.
  intros Hu Hd. rewrite (phone_of_reply_usable _ Hu).
  unfold normalize_phone_number. by rewrite Hd.
Qed.

Lemma phone_of_reply_without_digits_witness :
  phone_of_reply (Some (text "No phone number was mentioned."))
  = Some (text "0000000000").
Proof.
  apply phone_of_reply_without_digits; [| reflexivity].
  split; intros H; by vm_compute in H.
Defined.

End PhoneMore.

(** ** Python strings: stripping and case *)

Section Strings.
Import Pipeline Helpers HelpersSpec.

Lemma lower_lower c : Re.lower (Re.lower c) = Re.lower c.
Proof. destruct c as [[] [] [] [] [] [] [] []]; by vm_compute. Qed.

Lemma upper_upper c : Re.upper (Re.upper c) = Re.upper c.
Proof. destruct c as [[] [] [] [] [] [] [] []]; by vm_compute. Qed.

Lemma isspace_lower c : isspace (Re.lower c) = isspace c.
Proof. destruct c as [[] [] [] [] [] [] [] []]; by vm_compute. Qed.

Lemma lowercase_lower s : lowercase (Py.lower s).
Proof.
  unfold lowercase, Py.lower. rewrite map_map.
  apply map_ext. intros c. apply lower_lower.
Qed.

Lemma upper_upper_chars c : Py.upper (Py.upper_chars c) = Py.upper_chars c.
Proof. destruct c as [[] [] [] [] [] [] [] []]; by vm_compute. Qed.

Lemma upper_app a b : Py.upper (a ++ b) = Py.upper a ++ Py.upper b.
Proof. unfold Py.upper. by rewrite map_app, concat_app. Qed.

Lemma uppercase_upper s : uppercase (Py.upper s).
Proof.
  unfold uppercase. induction s as [| c s IH]; [done |].
  change (Py.upper (c :: s)) with (Py.upper_chars c ++ Py.upper s).
  by rewrite upper_app, upper_upper_chars, IH.
Qed.

Lemma lowercase_Forall s :
  lowercase s <-> Forall (fun c => Re.lower c = c) s.
Proof.
  unfold lowercase, Py.lower. induction s as [| c s IH]; simpl.
  - split; [constructor | done].
  - rewrite Forall_cons, <- IH. split.
    + by intros [= -> ->].
    + by intros [-> ->].
Qed.

Lemma lstrip_by_suffix set s : Py.lstrip_by set s `suffix_of` s.
Proof.
  destruct (lstrip_by_pieces set s) as (w & Hs & _). by exists w.
Qed.

Lemma rstrip_by_prefix set s : Py.rstrip_by set s `prefix_of` s.
Proof.
  unfold Py.rstrip_by. destruct (lstrip_by_suffix set (rev s)) as [k Hk].
  exists (rev k). apply (f_equal (@rev ascii)) in Hk.
  by rewrite rev_involutive, rev_app_distr in Hk.
Qed.

(** What is left after stripping is a part of the text. *)
Lemma strip_by_pieces set s :
  exists before after, s = before ++ Py.strip_by set s ++ after.
Proof.
  unfold Py.strip_by.
  destruct (lstrip_by_suffix set s) as [before Hb].
  destruct (rstrip_by_prefix set (Py.lstrip_by set s)) as [after Ha].
  exists before, after. by rewrite <- Ha.
Qed.

Lemma strip_by_Forall (P : ascii -> Prop) set s :
  Forall P s -> Forall P (Py.strip_by set s).
Proof.
  destruct (strip_by_pieces set s) as (b & a & Hs). intros H.
  rewrite Hs in H. apply Forall_app in H as [_ H].
  by apply Forall_app in H as [H _].
Qed.

Lemma rstrip_by_Forall (P : ascii -> Prop) set s :
  Forall P s -> Forall P (Py.rstrip_by set s).
Proof.
  destruct (rstrip_by_prefix set s) as [k Hk]. intros H.
  rewrite Hk in H. by apply Forall_app in H as [H _].
Qed.

Lemma rstrip_by_last set s c :
  last (Py.rstrip_by set s) = Some c -> set c = false.
Proof.
  unfold Py.rstrip_by.
  destruct (Py.lstrip_by set (rev s)) as [| x r] eqn:E; [done |].
  simpl. rewrite last_snoc. intros [= <-]. by apply lstrip_by_head in E.
Qed.

Lemma lstrip_by_map_lower s :
  Py.lstrip_by isspace (Py.lower s) = Py.lower (Py.lstrip_by isspace s).
Proof.
  unfold Py.lower. induction s as [| c s IH]; simpl; [done |].
  rewrite isspace_lower. by destruct (isspace c).
Qed.

(** Stripping and lowering commute. *)
Lemma strip_lower s : Py.strip (Py.lower s) = Py.lower (Py.strip s).
Proof.
  unfold Py.strip, Py.strip_by, Py.rstrip_by.
  rewrite lstrip_by_map_lower. unfold Py.lower at 1.
  rewrite <- map_rev. fold (Py.lower (rev (Py.lstrip_by isspace s))).
  rewrite lstrip_by_map_lower. unfold Py.lower. by rewrite map_rev.
Qed.

Lemma lstrip_by_stable set s :
  Py.lstrip_by set (Py.lstrip_by set s) = Py.lstrip_by set s.
Proof.
  destruct (Py.lstrip_by set s) as [| c r] eqn:E; [done |].
  apply lstrip_by_head in E. simpl. by rewrite E.
Qed.

Lemma lstrip_by_app_keep set a b :
  Py.lstrip_by set a <> [] ->
  Py.lstrip_by set (a ++ b) = Py.lstrip_by set a ++ b.
Proof.
  induction a as [| c a IH]; simpl; [done |].
  destruct (set c); [apply IH | done].
Qed.

(** Stripping the right end does not bring white space to the left end. *)
Lemma lstrip_by_rstrip_by set s :
  Py.lstrip_by set s = s -> Py.lstrip_by set (Py.rstrip_by set s)
                            = Py.rstrip_by set s.
Proof.
  intros Hs. destruct (Py.rstrip_by set s) as [| c r] eqn:E; [done |].
  destruct (rstrip_by_prefix set s) as [k Hk]. rewrite E in Hk.
  rewrite Hk in Hs. simpl in Hs. simpl.
  destruct (set c); [| done]. exfalso.
  pose proof (lstrip_by_suffix set (r ++ k)) as [k' Hk'].
  rewrite Hs in Hk'. apply (f_equal length) in Hk'.
  rewrite (length_app k') in Hk'. simpl in Hk'. lia.
Qed.

Lemma strip_by_stable set s :
  Py.strip_by set (Py.strip_by set s) = Py.strip_by set s.
Proof.
  unfold Py.strip_by.
  rewrite lstrip_by_rstrip_by by apply lstrip_by_stable.
  unfold Py.rstrip_by.
  by rewrite rev_involutive, lstrip_by_stable.
Qed.

Lemma stripped_strip s : stripped (Py.strip s).
Proof. apply strip_by_stable. Qed.

End Strings.

(** ** E-mail extraction *)

Section Email.
Import Tags Pipeline PipelineSpec Helpers HelpersSpec.

Lemma split_two sep s a b :
  split sep s = [a; b] -> s = a ++ sep :: b /\ (sep ∉ a) /\ (sep ∉ b).
Proof.
  intros Hs. pose proof (join_split sep s) as Hj.
  pose proof (split_no_sep sep s) as Hn. rewrite Hs in Hj, Hn.
  simpl in Hj. inversion Hn as [| ? ? Ha Hb']; subst.
  inversion Hb' as [| ? ? Hb _]; subst. done.
Qed.

(** X7.  An address that [extract_email] returns has one "@", with a
    non-empty part before it and a part with a dot after it; it is in
    lower case and does not end in one of the characters .,;:!? *)
Theorem email_of_reply_form (reply : option str) (e : str) :
  email_of_reply reply = Some e ->
  (exists name domain,
     e = name ++ "@"%char :: domain
     /\ name <> [] /\ ("@"%char ∉ name) /\ ("@"%char ∉ domain)
     /\ ("."%char ∈ domain))
  /\ lowercase e
  /\ (forall c, last e = Some c -> c ∉ text ".,;:!?").
Proof.
  unfold email_of_reply. destruct reply as [content |]; [| done].
  destruct (_ || _); [done |].
  set (e0 := Py.rstrip_by _ _).
  destruct (negb (bool_decide _) || negb (bool_decide _)); [done |].
  destruct (negb (length (split "@" e0) =? 2) || _ || _) eqn:Ec; [done |].
  destruct (negb (bool_decide ("."%char ∈ nth 1 (split "@" e0) [])))
    eqn:Ed; [done |].
  intros [= <-].
  apply orb_false_iff in Ec as [Ec Hb]. apply orb_false_iff in Ec as [Hl Ha].
  apply negb_false_iff, Nat.eqb_eq in Hl.
  destruct (split "@" e0) as [| a [| b [| ? ?]]] eqn:Es; try done.
  simpl in Ha, Hb, Ed.
  apply split_two in Es as (He & Hna & Hnb).
  split; [| split].
  - exists a, b. split; [done |].
    apply negb_false_iff, negb_true_iff, bool_decide_eq_false in Ha.
    apply negb_false_iff, bool_decide_eq_true in Ed. done.
  - apply lowercase_Forall. unfold e0.
    apply rstrip_by_Forall, strip_by_Forall, strip_by_Forall, strip_by_Forall.
    apply lowercase_Forall, lowercase_lower.
  - intros c Hc. unfold e0 in Hc. apply rstrip_by_last in Hc.
    unfold Py.one_of in Hc. by apply bool_decide_eq_false in Hc.
Qed.

Lemma email_of_reply_form_witness :
  (exists name domain,
     text "asha.k@example.com" = name ++ "@"%char :: domain
     /\ name <> [] /\ ("@"%char ∉ name) /\ ("@"%char ∉ domain)
     /\ ("."%char ∈ domain))
  /\ lowercase (text "asha.k@example.com")
  /\ (forall c, last (text "asha.k@example.com") = Some c ->
                c ∉ text ".,;:!?").
Proof.
  apply (email_of_reply_form (Some (text "  Asha.K@Example.com. "))).
  reflexivity.
Defined.

End Email.

(** ** Language detection *)

Section Languages.
Import Pipeline Helpers HelpersSpec.

Lemma code_inj x y : code x = code y -> x = y.
Proof.
  unfold code. intros H. apply (f_equal ascii_of_nat) in H.
  by rewrite !ascii_nat_embedding in H.
Qed.

Global Instance str_le_total : Total str_le.
Proof.
  intros a. unfold str_le. induction a as [| x a IH]; intros [| y b]; simpl;
    auto.
  destruct (Nat.ltb_spec (code x) (code y)); [by left |].
  destruct (Nat.ltb_spec (code y) (code x)); [by right |]. apply IH.
Qed.

Global Instance str_le_trans : Transitive str_le.
Proof.
  intros a. unfold str_le. induction a as [| x a IH]; intros [| y b] [| z c];
    simpl; try done.
  destruct (Nat.ltb_spec (code x) (code y)),
           (Nat.ltb_spec (code y) (code x)),
           (Nat.ltb_spec (code y) (code z)),
           (Nat.ltb_spec (code z) (code y)),
           (Nat.ltb_spec (code x) (code z)),
           (Nat.ltb_spec (code z) (code x)); try done; try lia.
  apply IH.
Qed.

Global Instance str_le_antisymm : AntiSymm (=) str_le.
Proof.
  intros a. unfold str_le. induction a as [| x a IH]; intros [| y b]; simpl;
    try done.
  destruct (Nat.ltb_spec (code x) (code y)),
           (Nat.ltb_spec (code y) (code x)); try done; try lia.
  intros Hab Hba. f_equal; [apply code_inj; lia | by apply IH].
Qed.

Lemma sorted_set_Sorted l : Sorted str_le (sorted_set l).
Proof. apply (Sorted_merge_sort str_le). Qed.

Lemma sorted_set_Permutation l : sorted_set l ≡ₚ remove_dups l.
Proof. apply (merge_sort_Permutation str_le). Qed.

Lemma elem_of_sorted_set l x : x ∈ sorted_set l <-> x ∈ l.
Proof. by rewrite sorted_set_Permutation, elem_of_remove_dups. Qed.

Lemma NoDup_sorted_set l : NoDup (sorted_set l).
Proof. rewrite sorted_set_Permutation. apply NoDup_remove_dups. Qed.

(** The sorted list depends on the elements only, not on the order in
    which the set gives them. *)
Lemma sorted_set_unique l1 l2 :
  (forall x, x ∈ l1 <-> x ∈ l2) -> sorted_set l1 = sorted_set l2.
Proof.
  intros H. apply (Sorted_unique str_le); try apply sorted_set_Sorted.
  apply NoDup_Permutation; try apply NoDup_sorted_set.
  intros x. by rewrite !elem_of_sorted_set.
Qed.

Lemma english_clean : english <> [] /\ lowercase english /\ stripped english.
Proof. repeat split. done. Qed.

(** X8.  The list of languages that [detect_languages] returns is never
    empty, is in ascending order without repetition, and its entries are
    non-empty, in lower case and without white space at their ends. *)
Theorem languages_of_reply_clean (reply : option doc) :
  let languages := languages_of_reply reply in
  languages <> []
  /\ Sorted str_le languages /\ NoDup languages
  /\ Forall (fun l => l <> [] /\ lowercase l /\ stripped l) languages.
Proof.
  cbv zeta.
  assert (forall l, l <> [] ->
            Forall (fun l => l <> [] /\ lowercase l /\ stripped l) l ->
            sorted_set l <> []
            /\ Sorted str_le (sorted_set l) /\ NoDup (sorted_set l)
            /\ Forall (fun l => l <> [] /\ lowercase l /\ stripped l)
                 (sorted_set l)) as Hgen.
  { intros l Hne Hall. split; [| split; [| split]].
    - destruct l as [| x l]; [done |]. intros Hnil.
      assert (x ∈ sorted_set (x :: l)) as Hx
        by (apply elem_of_sorted_set; left).
      rewrite Hnil in Hx. by apply not_elem_of_nil in Hx.
    - apply sorted_set_Sorted.
    - apply NoDup_sorted_set.
    - rewrite Forall_forall in *. intros y Hy.
      apply (proj1 (elem_of_sorted_set _ _)) in Hy. by apply Hall. }
  assert ([english] <> []
          /\ Sorted str_le [english] /\ NoDup [english]
          /\ Forall (fun l => l <> [] /\ lowercase l /\ stripped l) [english])
    as Hen.
  { split; [done |]. split; [by repeat constructor |].
    split; [apply NoDup_singleton |]. repeat constructor; apply english_clean. }
  unfold languages_of_reply.
  destruct reply as [result |]; [| by destruct Hen as (?&?&?&?)].
  destruct (iterate _) as [ls |] eqn:Ei; [| by destruct Hen as (?&?&?&?)].
  set (cleaned := map _ (List.filter _ ls)).
  assert (Forall (fun l => l <> [] /\ lowercase l /\ stripped l) cleaned)
    as Hcl.
  { unfold cleaned. apply Forall_map, Forall_forall.
    intros lang Hin. apply list_elem_of_In, filter_In in Hin as [_ Hf].
    apply andb_prop in Hf as [_ Hf]. split; [| split].
    - rewrite strip_lower. unfold Py.nonempty in Hf.
      apply negb_true_iff, bool_decide_eq_false in Hf.
      unfold Py.lower. by destruct (Py.strip lang).
    - apply lowercase_Forall, strip_by_Forall, lowercase_Forall,
        lowercase_lower.
    - apply stripped_strip. }
  destruct (bool_decide_reflect (cleaned = [])) as [Hc | Hc].
  - change (sorted_set [english]) with [english].
    by destruct Hen as (?&?&?&?).
  - by apply Hgen.
Qed.

End Languages.

(** ** Budget formatting *)

Section Budget.
Import Pipeline Helpers HelpersSpec.

Lemma startswith_prefix p s :
  startswith p s = true <-> exists rest, s = p ++ rest.
Proof.
  revert s. induction p as [| c p IH]; intros s; simpl.
  - split; [by exists s | done].
  - destruct s as [| x s].
    + split; [done | by intros [? ?]].
    + destruct (decide (c = x)) as [-> | Hne].
      * rewrite IH. split; intros [rest Hr]; exists rest; [by rewrite Hr |].
        by injection Hr.
      * split; [done |]. intros [rest [= ? _]]. done.
Qed.

(** [sub in s]: [sub] occurs somewhere in [s]. *)
Lemma contains_occurs sub s :
  contains sub s = true <-> exists before after, s = before ++ sub ++ after.
Proof.
  induction s as [| x s IH]; simpl.
  - rewrite orb_false_r, startswith_prefix. split.
    + intros [rest Hr]. by exists [], rest.
    + intros (b & a & H). destruct b; [by exists a |]. done.
  - rewrite orb_true_iff, startswith_prefix, IH. split.
    + intros [[rest Hr] | (b & a & ->)].
      * by exists [], rest.
      * by exists (x :: b), a.
    + intros (b & a & H). destruct b as [| y b].
      * left. by exists a.
      * right. injection H as -> ->. by exists b, a.
Qed.

Lemma contains_strip_by set sub s :
  contains sub (Py.strip_by set s) = true -> contains sub s = true.
Proof.
  rewrite !contains_occurs. intros (b & a & Hs).
  destruct (strip_by_pieces set s) as (b' & a' & Hs').
  exists (b' ++ b), (a ++ a'). rewrite Hs', Hs. by rewrite <- !app_assoc.
Qed.

Lemma elem_of_lstrip_by set (c : ascii) s :
  set c = false -> c ∈ s -> c ∈ Py.lstrip_by set s.
Proof.
  intros Hc. induction s as [| x s IH]; simpl; [done |].
  destruct (set x) eqn:Hx; [| done].
  rewrite elem_of_cons. intros [-> | Hin]; [congruence | by apply IH].
Qed.

Lemma elem_of_rev_iff (c : ascii) s : c ∈ rev s <-> c ∈ s.
Proof. rewrite !list_elem_of_In. symmetry. apply in_rev. Qed.

Lemma elem_of_strip_by set (c : ascii) s :
  set c = false -> c ∈ s -> c ∈ Py.strip_by set s.
Proof.
  intros Hc Hin. unfold Py.strip_by, Py.rstrip_by.
  apply elem_of_rev_iff, elem_of_lstrip_by; [done |].
  by apply elem_of_rev_iff, elem_of_lstrip_by.
Qed.

Lemma already_formatted_strip t :
  already_formatted t = true -> already_formatted (Py.strip t) = true.
Proof.
  unfold already_formatted. rewrite !andb_true_iff, !negb_true_iff.
  rewrite !bool_decide_eq_true.
  intros [[[Hd Hc] Hl] Hp]. repeat split.
  - by apply elem_of_strip_by.
  - by apply elem_of_strip_by.
  - destruct (contains _ (Py.lower (Py.strip t))) eqn:E; [| done].
    rewrite <- strip_lower in E. apply contains_strip_by in E. congruence.
  - destruct (contains _ (Py.lower (Py.strip t))) eqn:E; [| done].
    rewrite <- strip_lower in E. apply contains_strip_by in E. congruence.
Qed.

(** X9.  A budget text that already has a dash and a comma and mentions
    neither "lakh" nor "per" is returned stripped, without asking the
    service, and formatting the result again gives the same text, again
    without asking. *)
Theorem format_budget_indian_style_formatted (t : str) (reply again : option str) :
  already_formatted t = true ->
  format_budget_indian_style (VStr t) reply = (Py.strip t, false)
  /\ format_budget_indian_style (VStr (Py.strip t)) again
     = (Py.strip t, false).
Proof.
  intros Hf. pose proof (already_formatted_strip t Hf) as Hf'.
  assert (forall u, already_formatted u = true -> Py.nonempty u = true) as Hne.
  { intros u Hu. unfold already_formatted in Hu.
    rewrite !andb_true_iff, bool_decide_eq_true in Hu.
    destruct Hu as [[[Hd _] _] _]. unfold Py.nonempty.
    apply negb_true_iff, bool_decide_eq_false. intros ->.
    by apply not_elem_of_nil in Hd. }
  unfold format_budget_indian_style.
  rewrite (Hne _ Hf), (Hne _ Hf'), Hf, Hf'. simpl.
  split; [done |]. f_equal. apply stripped_strip.
Qed.

Lemma format_budget_indian_style_formatted_witness :
  format_budget_indian_style (VStr (text " 1,90,000-2,00,000 ")) None
  = (text "1,90,000-2,00,000", false)
  /\ format_budget_indian_style (VStr (text "1,90,000-2,00,000"))
       (Some (text "anything"))
     = (text "1,90,000-2,00,000", false).
Proof.
  apply (format_budget_indian_style_formatted (text " 1,90,000-2,00,000 ")).
  reflexivity.
Defined.

End Budget.

(** ** The derived analytics document *)

Section Derived.
Import Pipeline PipelineSpec Helpers HelpersSpec.

(** X10.  The derived analytics document has the four fields user_id,
    country, intent_level and follow_up and no other.  Its intent level
    is a string in upper case: the answer's in upper case when that is a
    non-empty string, "TOFU" otherwise; no check is made that it is one
    of TOFU, MOFU, BOFU. *)
Theorem analytics_doc_of_intent_level user_id (analytics_data : doc) follow_up :
  dom (analytics_doc_of user_id analytics_data follow_up)
  = (list_to_set derived_fields : gset string)
  /\ exists level,
       analytics_doc_of user_id analytics_data follow_up !! "intent_level"
       = Some (VStr level)
       /\ uppercase level
       /\ level = match analytics_data !! "intent_level" with
                  | Some (VStr (c :: s)) => Py.upper (c :: s)
                  | _ => text "TOFU"
                  end.
Proof.
  split; [apply dom_analytics_doc_of |].
  unfold analytics_doc_of.
  rewrite lookup_insert_ne by done. rewrite lookup_insert_ne by done.
  rewrite lookup_insert_eq. unfold py_or, get.
  destruct (analytics_data !! "intent_level") as [[| b | z | s | n | l | t] |];
    simpl; try (eexists; split; [reflexivity |]; by split).
  - destruct b; simpl; eexists; (split; [reflexivity |]); by split.
  - destruct (bool_decide (z = 0%Z)); simpl; eexists;
      (split; [reflexivity |]); by split.
  - destruct s as [| c s]; simpl.
    + eexists. split; [reflexivity |]. by split.
    + eexists. split; [reflexivity |]. split; [| done].
      apply (uppercase_upper (c :: s)).
  - destruct (bool_decide (l = [])); simpl; eexists;
      (split; [reflexivity |]); by split.
Qed.

End Derived.

(** ** The tag normaliser, further *)

Section TagsMore.
Import Re Tags TagSpec HelpersSpec.

Lemma split_line_no_nl x i line : split nl x !! i = Some line -> nl ∉ line.
Proof.
  intros Hi. pose proof (split_no_sep nl x) as Hall.
  rewrite Forall_forall in Hall. apply Hall.
  by eapply list_elem_of_lookup_2.
Qed.

(** X11.  A text none of whose lines carries a speaker tag is returned
    as it is. *)
Theorem normalize_conversation_tags_untagged (x : str) :
  (forall line, line ∈ split nl x ->
     (forall a, ¬ tagged agent_tag line a)
     /\ (forall a, ¬ tagged user_tag line a)) ->
  normalize_conversation_tags x = x.
Proof.
  intros Hun. rewrite normalize_conversation_tags_lines.
  rewrite <- (join_split nl x) at 2. f_equal.
  rewrite <- (map_id (split nl x)) at 2.
  apply Forall_fmap_ext_1, Forall_forall. intros line Hin.
  destruct (Hun line Hin) as [Hna Hnu].
  apply normalize_line_other; [| done | done].
  pose proof (split_no_sep nl x) as Hall.
  rewrite Forall_forall in Hall. by apply Hall.
Qed.

Lemma normalize_conversation_tags_untagged_witness :
  normalize_conversation_tags
    (text "(call connected)" ++ nl :: text "" ++ nl :: text "  Agent: late")
  = text "(call connected)" ++ nl :: text "" ++ nl :: text "  Agent: late".
Proof.
  apply normalize_conversation_tags_untagged.
  intros line Hin. vm_compute in Hin.
  repeat (apply elem_of_cons in Hin as [-> | Hin]);
    [| | | by apply not_elem_of_nil in Hin];
    (split; intros a Ht;
     [apply agent_scan_complete in Ht | apply user_scan_complete in Ht];
     by vm_compute in Ht).
Defined.

Lemma tagged_remainder_suffix tag line after :
  tagged tag line after -> remainder after `suffix_of` line.
Proof.
  intros (t & w & _ & _ & ->). destruct (lstrip_by_suffix isspace after)
    as [k Hk].
  exists (t ++ w ++ ":"%char :: k). unfold remainder.
  rewrite Hk at 1. by rewrite <- !app_assoc.
Qed.

Lemma user_scan_agent_prefix rest : user_scan (text "Agent: " ++ rest) = None.
Proof. reflexivity. Qed.

(** X12.  Each line of the result is the line of the input at the same
    position, or one of the two tags "Agent: " and "User: " followed by
    the end of that line, which does not begin with white space.  In the
    result a line that carries an agent tag begins with "Agent: " and a
    line that carries the user tag begins with "User: ". *)
Theorem normalize_conversation_tags_canonical (x : str) (i : nat) (out : str) :
  split nl (normalize_conversation_tags x) !! i = Some out ->
  exists line,
    split nl x !! i = Some line
    /\ (out = line
        \/ exists rest,
             rest `suffix_of` line /\ no_leading_blank rest
             /\ (out = text "Agent: " ++ rest \/ out = text "User: " ++ rest))
    /\ (forall after, tagged agent_tag out after ->
          exists rest, out = text "Agent: " ++ rest)
    /\ (forall after, tagged user_tag out after ->
          exists rest, out = text "User: " ++ rest).
Proof.
  rewrite split_normalize_conversation_tags, list_lookup_fmap.
  destruct (split nl x !! i) as [line |] eqn:Hi; [| done].
  intros [= <-]. exists line. split; [done |].
  pose proof (split_line_no_nl _ _ _ Hi) as Hnl.
  pose proof (no_nl_normalize_line _ Hnl) as Hnl'.
  pose proof (normalize_line_idempotent _ Hnl) as Hidem.
  split; [| split].
  - destruct (normalize_line_kinds line Hnl)
      as [(after & Ht & ->) | [(after & Ht & ->) | ->]]; [| | by left].
    + right. exists (remainder after).
      split; [by eapply tagged_remainder_suffix |].
      split; [apply lstrip_by_stable | by left].
    + right. exists (remainder after).
      split; [by eapply tagged_remainder_suffix |].
      split; [apply lstrip_by_stable | by right].
  - intros after Ht. exists (remainder after).
    rewrite <- Hidem at 1. by apply normalize_line_agent.
  - intros after Ht. exists (remainder after).
    rewrite <- Hidem at 1. unfold normalize_line at 1.
    rewrite agent_scan_correct, user_scan_correct by done.
    rewrite (user_scan_complete _ _ Ht).
    destruct (agent_scan (normalize_line line)) as [m |] eqn:Ea; [| done].
    exfalso. revert Hidem. unfold normalize_line at 1.
    rewrite agent_scan_correct, Ea by done. intros Heq.
    apply user_scan_complete in Ht. rewrite <- Heq in Ht.
    by rewrite user_scan_agent_prefix in Ht.
Qed.

Lemma normalize_conversation_tags_canonical_witness :
  exists line,
    split nl (text "agent (Natalie) :  hello " ++ nl :: text "USER:hi") !! 0
    = Some line
    /\ (text "Agent: hello " = line
        \/ exists rest,
             rest `suffix_of` line /\ no_leading_blank rest
             /\ (text "Agent: hello " = text "Agent: " ++ rest
                 \/ text "Agent: hello " = text "User: " ++ rest))
    /\ (forall after, tagged agent_tag (text "Agent: hello ") after ->
          exists rest, text "Agent: hello " = text "Agent: " ++ rest)
    /\ (forall after, tagged user_tag (text "Agent: hello ") after ->
          exists rest, text "Agent: hello " = text "User: " ++ rest).
Proof.
  apply (normalize_conversation_tags_canonical
           (text "agent (Natalie) :  hello " ++ nl :: text "USER:hi") 0).
  reflexivity.
Defined.

End TagsMore.

(** ** The handler, further: history, analytics look-up, uniqueness *)

Section HandlerMore.
Import Pipeline PipelineSpec Helpers HelpersSpec.

Lemma history_entry_fields (oid uid : value) conversation now languages :
  let entry : doc :=
    <["_id" := oid]>
      (<["user_id" := uid]>
        (<["conversation" := VStr conversation]>
          (<["timestamp" := VDatetime now]>
            {[ "languages_used" := VStrList languages ]}))) in
  entry !! "_id" = Some oid
  /\ entry !! "user_id" = Some uid
  /\ entry !! "conversation" = Some (VStr conversation)
  /\ entry !! "timestamp" = Some (VDatetime now)
  /\ entry !! "languages_used" = Some (VStrList languages).
Proof.
  cbv zeta. split; [| split; [| split; [| split]]].
  - by rewrite lookup_insert_eq.
  - rewrite lookup_insert_ne by done. by rewrite lookup_insert_eq.
  - rewrite !lookup_insert_ne by done. by rewrite lookup_insert_eq.
  - rewrite !lookup_insert_ne by done. by rewrite lookup_insert_eq.
  - rewrite !lookup_insert_ne by done. by rewrite lookup_singleton_eq.
Qed.

Lemma conversation_history_of_fields u a h :
  conversation_history_of (response_of u a h) !! "_id" = Some (get h "_id")
  /\ conversation_history_of (response_of u a h) !! "user_id"
     = Some (get h "user_id")
  /\ conversation_history_of (response_of u a h) !! "conversation"
     = Some (get h "conversation").
Proof.
  unfold response_of. cbn [conversation_history_of].
  split; [| split].
  - by rewrite lookup_insert_eq.
  - rewrite lookup_insert_ne by done. by rewrite lookup_insert_eq.
  - rewrite !lookup_insert_ne by done. by rewrite lookup_singleton_eq.
Qed.

(** X13.  The history is only ever appended to: whatever the outcome, a
    request leaves the entries that were there and adds at most one.  A
    request that succeeds adds exactly one, which holds the normalised
    conversation, the time, the languages detected and, as user_id,
    [ObjectId(_id)] for the [_id] of the user of the response: that [_id]
    itself unless it is a string that reads as an identifier.  The
    response reports the identifier and the conversation of that entry. *)
Theorem history_append :
  (forall request g now w,
     exists new,
       conversationHistory_of (db (process_conversation request g now w).2)
       = conversationHistory_of (db w) ++ new
       /\ length new <= 1)
  /\ (forall request g now w r w',
        process_conversation request g now w = (inr r, w') ->
        exists entry,
          conversationHistory_of (db w')
          = conversationHistory_of (db w) ++ [entry]
          /\ entry !! "conversation"
             = Some (VStr (Tags.normalize_conversation_tags
                             (conversation_of request)))
          /\ (exists oid,
                validate (get (user_of r) "_id") = inr oid
                /\ entry !! "user_id" = Some oid)
          /\ (hex_id (get (user_of r) "_id") = false ->
              entry !! "user_id" = user_of r !! "_id")
          /\ entry !! "timestamp" = Some (VDatetime now)
          /\ entry !! "languages_used" = Some (VStrList (languages_reply g))
          /\ conversation_history_of r !! "_id" = entry !! "_id"
          /\ conversation_history_of r !! "conversation"
             = entry !! "conversation").
Proof.
  split.
  - intros request g now w.
    destruct (decide (blank (conversation_of request))) as [Hb | Hb].
    { rewrite process_conversation_blank by done. exists [].
      split; [by rewrite app_nil_r | simpl; lia]. }
    rewrite process_conversation_world by done.
    destruct (identify g w) as [[e | [phone_number email]] w1] eqn:Ei;
      apply identify_footprint in Ei as [Hdb _].
    { exists []. rewrite Hdb. split; [by rewrite app_nil_r | simpl; lia]. }
    destruct (find_or_create_user _ _ _ _) as [out w2] eqn:Ef.
    apply find_or_create_user_footprint in Ef as (_ & Hh2 & _).
    cbn [logged db] in Hh2. rewrite Hdb in Hh2.
    destruct out as [e | user].
    { exists []. rewrite Hh2. split; [by rewrite app_nil_r | simpl; lia]. }
    destruct (truthy (get user "_id")).
    2:{ exists []. rewrite Hh2. split; [by rewrite app_nil_r | simpl; lia]. }
    pose proof (upsert_analytics_footprint (get user "_id") g w2)
      as (_ & Hh3 & _).
    destruct (upsert_analytics _ _ _) as [[e | a] w3]; cbn [snd] in Hh3.
    { exists []. rewrite Hh3, Hh2.
      split; [by rewrite app_nil_r | simpl; lia]. }
    rewrite run_store_history.
    pose proof (ObjectId_footprint (get user "_id") w3) as (_ & _ & Hh4 & _).
    destruct (ObjectId (get user "_id") w3) as [[e | oid] w4];
      cbn [snd] in Hh4.
    { exists []. cbn [snd]. rewrite Hh4, Hh3, Hh2.
      split; [by rewrite app_nil_r | simpl; lia]. }
    eexists [_]. cbn [snd db fresh_oid set_docs conversationHistory_of].
    rewrite Hh4, Hh3, Hh2. split; [done | simpl; lia].
  - intros request g now w r w' Hrun.
    apply process_conversation_inr in Hrun
      as (_ & ph & em & w1 & user & w2 & a & w3 & h
          & Hid & Hfoc & Ht & Hup & Hhist & ->).
    apply identify_footprint in Hid as [Hdb _].
    apply find_or_create_user_footprint in Hfoc as (_ & Hh2 & _).
    cbn [logged db] in Hh2. rewrite Hdb in Hh2.
    pose proof (upsert_analytics_footprint (get user "_id") g w2)
      as (_ & Hh3 & _).
    rewrite Hup in Hh3. cbn [snd] in Hh3.
    rewrite run_store_history, run_ObjectId in Hhist
      by (by apply truthy_not_None).
    destruct (validate (get user "_id")) as [e | oid] eqn:Ev; [done |].
    cbv zeta in Hhist. injection Hhist as <- <-.
    eexists. cbn [db fresh_oid set_docs conversationHistory_of].
    rewrite Hh3, Hh2. split; [reflexivity |].
    destruct (history_entry_fields (VObjectId (next_oid (db w3))) oid
                (Tags.normalize_conversation_tags (conversation_of request))
                now (languages_reply g)) as (H1 & H2 & H3 & H4 & H5).
    destruct (conversation_history_of_fields user a
                (<["_id" := VObjectId (next_oid (db w3))]>
                   (<["user_id" := oid]>
                      (<["conversation" :=
                           VStr (Tags.normalize_conversation_tags
                                   (conversation_of request))]>
                         (<["timestamp" := VDatetime now]>
                            {[ "languages_used" :=
                                 VStrList (languages_reply g) ]})))))
      as (R1 & _ & R3).
    rewrite user_of_get_id, user_of_id, Ev, R1, R3. unfold get at 2 3.
    rewrite H1, H2, H3, H4, H5.
    split; [done |]. split; [by exists oid |].
    split; [| done]. intros Hhex.
    by rewrite (validate_not_hex _ _ Ev Hhex).
Qed.

Lemma history_append_witness :
  exists r w' entry,
    process_conversation Samples.request
      (Samples.answers "9876543210" "" "bofu") 10 Samples.legacy_world
    = (inr r, w')
    /\ conversationHistory_of (db w')
       = conversationHistory_of (db Samples.legacy_world) ++ [entry]
    /\ entry !! "user_id" = user_of r !! "_id".
Proof.
  destruct (process_conversation Samples.request
              (Samples.answers "9876543210" "" "bofu") 10
              Samples.legacy_world) as [[e | r] w'] eqn:E.
  { exfalso.
    apply (f_equal (fun x : (exn + response) * world =>
                      match x.1 with inl _ => true | inr _ => false end)) in E.
    vm_compute in E. discriminate E. }
  destruct (proj2 history_append _ _ _ _ _ _ E) as (entry & Hh & _ & _ & Hu & _).
  exists r, w', entry. split; [done |]. split; [done |].
  apply Hu.
  change ((fun x : (exn + response) * world =>
              match x.1 with
              | inr r' => hex_id (get (user_of r') "_id")
              | inl _ => true
              end) (inr r, w') = false).
  rewrite <- E. vm_compute. reflexivity.
Defined.

Lemma find_set_first field v upd l existing :
  List.find (selects field v) l = Some existing ->
  upd !! field = Some v ->
  List.find (selects field v) (set_first field v upd l)
  = Some (upd ∪ existing).
Proof.
  intros Hf Hupd. induction l as [| d l IH]; simpl in *; [done |].
  destruct (selects field v d) eqn:Ed.
  - injection Hf as ->. simpl.
    assert (selects field v (upd ∪ existing) = true) as ->; [| done].
    apply selects_lookup. by apply lookup_union_Some_l.
  - simpl. rewrite Ed. by apply IH.
Qed.

Lemma get_insert_ne (d : doc) (k k' : string) v :
  k <> k' -> get (<[k := v]> d) k' = get d k'.
Proof. intros Hne. unfold get. by rewrite lookup_insert_ne. Qed.

Lemma get_union_l (d1 d2 : doc) k :
  is_Some (d1 !! k) -> get (d1 ∪ d2) k = get d1 k.
Proof.
  intros [v Hv]. unfold get. by rewrite (lookup_union_Some_l _ _ _ _ Hv), Hv.
Qed.

Lemma get_union_r (d1 d2 : doc) k :
  d1 !! k = None -> get (d1 ∪ d2) k = get d2 k.
Proof. intros Hn. unfold get. by rewrite lookup_union_r. Qed.

Lemma derived_field_not_id k : k ∈ derived_fields -> k <> "_id".
Proof.
  unfold derived_fields. rewrite !elem_of_cons, elem_of_nil.
  by intros [-> | [-> | [-> | [-> | []]]]].
Qed.

(** The record that a request which succeeds leaves for its user. *)
Lemma upsert_analytics_then_found user_id g w a w3 :
  user_id <> VNone ->
  upsert_analytics user_id g w = (inr a, w3) ->
  a !! "user_id" = Some user_id
  /\ exists record,
       record ∈ userAnalytics_of (db w3)
       /\ get record "_id" = get a "_id"
       /\ (forall k, k ∈ derived_fields -> get record k = get a k)
       /\ (hex_id user_id = false ->
           List.find (selects "user_id" user_id) (userAnalytics_of (db w3))
           = Some record).
Proof.
  intros Hne. rewrite run_upsert_analytics.
  destruct (analytics_reply g) as [analytics_data |]; [| done].
  cbv zeta. rewrite run_ObjectId by done.
  destruct (validate user_id) as [e | oid] eqn:Ev; [done |].
  cbn [logged db log].
  destruct (List.find _ _) as [existing |] eqn:Ef.
  - set (derived :=
           if negb (bool_decide (is_Some (existing !! "follow_up")))
           then <["follow_up" := VBool (follow_up_of (follow_up_reply_again g))]>
                  (analytics_doc_of user_id analytics_data
                     (follow_up_of (follow_up_reply g)))
           else analytics_doc_of user_id analytics_data
                  (follow_up_of (follow_up_reply g))).
    assert (dom derived = (list_to_set derived_fields : gset string)) as Hdom.
    { unfold derived. destruct (negb _); [| apply dom_analytics_doc_of].
      rewrite dom_insert_L, dom_analytics_doc_of. unfold derived_fields.
      simpl. set_solver. }
    assert (derived !! "user_id" = Some user_id) as Huid.
    { unfold derived. destruct (negb _).
      - rewrite lookup_insert_ne by done. apply analytics_doc_of_user_id.
      - apply analytics_doc_of_user_id. }
    intros [= <- <-]. split.
    { by rewrite lookup_insert_ne. }
    exists (derived ∪ existing).
    cbn [db set_docs userAnalytics_of].
    split; [| split; [| split]].
    + destruct (set_first_found "user_id" oid derived _ _ Ef)
        as (before & after & _ & _ & ->).
      apply elem_of_app. right. by left.
    + rewrite get_union_r.
      * unfold get at 2. by rewrite lookup_insert_eq.
      * apply not_elem_of_dom. rewrite Hdom, elem_of_list_to_set.
        by intros H%derived_field_not_id.
    + intros k Hk. rewrite get_union_l.
      * rewrite get_insert_ne; [done |]. intros <-.
        by apply derived_field_not_id in Hk.
      * apply elem_of_dom. rewrite Hdom. by apply elem_of_list_to_set.
    + intros Hhex. apply validate_not_hex in Ev as ->; [| done].
      by apply find_set_first.
  - intros [= <- <-]. split.
    { rewrite lookup_insert_ne by done. apply analytics_doc_of_user_id. }
    eexists. cbn [db set_docs fresh_oid userAnalytics_of].
    split; [| split; [reflexivity | split; [done |]]].
    + apply elem_of_app. right. by left.
    + intros Hhex. apply validate_not_hex in Ev as ->; [| done].
      apply find_app_new; [done |]. apply selects_lookup.
      rewrite lookup_insert_ne by done. apply analytics_doc_of_user_id.
Qed.

(** X14.  After a request that succeeds, the analytics of the response
    refer to the user of the response, and the analytics collection
    holds a record with the identifier and the four derived fields that
    the response reports.  Unless the [_id] of that user is a string that
    reads as an identifier, looking up the collection by that [_id] finds
    this record. *)
Theorem analytics_found_after (request : ConversationRequest) g now w r w' :
  process_conversation request g now w = (inr r, w') ->
  analytics_of r !! "user_id" = user_of r !! "_id"
  /\ exists record,
       record ∈ userAnalytics_of (db w')
       /\ Some (get record "_id") = analytics_of r !! "_id"
       /\ (forall k, k ∈ derived_fields ->
             Some (get record k) = analytics_of r !! k)
       /\ (hex_id (get (user_of r) "_id") = false ->
           List.find (selects "user_id" (get (user_of r) "_id"))
             (userAnalytics_of (db w')) = Some record).
Proof.
  intros Hrun.
  apply process_conversation_inr in Hrun
    as (_ & ph & em & w1 & user & w2 & a & w3 & h
        & _ & _ & Ht & Hup & Hhist & ->).
  rewrite user_of_get_id, user_of_id.
  apply upsert_analytics_then_found in Hup
    as (Huid & record & Hin & Hid & Hk & Hf); [| by apply truthy_not_None].
  pose proof (store_history_footprint (conversation_of request)
                (get user "_id") (languages_reply g) now w3) as (_ & Ha & _).
  rewrite Hhist in Ha. cbn [snd] in Ha.
  split.
  - rewrite analytics_of_field by (apply elem_of_cons; by left).
    unfold get at 1. by rewrite Huid.
  - exists record. rewrite Ha. split; [done |]. split; [| split; [| done]].
    + by rewrite analytics_of_id, Hid.
    + intros k Hin'. by rewrite analytics_of_field, Hk.
Qed.

Lemma analytics_found_after_witness :
  exists r w' record,
    process_conversation Samples.request
      (Samples.answers "9876543210" "" "bofu") 10 Samples.legacy_world
    = (inr r, w')
    /\ analytics_of r !! "user_id" = user_of r !! "_id"
    /\ Some (get record "_id") = analytics_of r !! "_id"
    /\ List.find (selects "user_id" (get (user_of r) "_id"))
         (userAnalytics_of (db w')) = Some record.
Proof.
  destruct (process_conversation Samples.request
              (Samples.answers "9876543210" "" "bofu") 10
              Samples.legacy_world) as [[e | r] w'] eqn:E.
  { exfalso.
    apply (f_equal (fun x : (exn + response) * world =>
                      match x.1 with inl _ => true | inr _ => false end)) in E.
    vm_compute in E. discriminate E. }
  destruct (analytics_found_after _ _ _ _ _ _ E)
    as (Hu & record & _ & Hi & _ & Hf).
  exists r, w', record. split; [done |]. split; [done |]. split; [done |].
  apply Hf.
  change ((fun x : (exn + response) * world =>
              match x.1 with
              | inr r' => hex_id (get (user_of r') "_id")
              | inl _ => true
              end) (inr r, w') = false).
  rewrite <- E. vm_compute. reflexivity.
Defined.

(** The handler on a conversation that is not blank, phase by phase. *)
Lemma run_process_conversation request g now w :
  ¬ blank (conversation_of request) ->
  process_conversation request g now w
  = match identify g w with
    | (inl e, w1) => (inl (as_http e), w1)
    | (inr (phone_number, email), w1) =>
        match find_or_create_user phone_number email g
                (logged w1 [Chat chat_languages; Connect]) with
        | (inl e, w2) => (inl (as_http e), w2)
        | (inr user, w2) =>
            if truthy (get user "_id") then
              match upsert_analytics (get user "_id") g w2 with
              | (inl e, w3) => (inl (as_http e), w3)
              | (inr a, w3) =>
                  match store_history (conversation_of request)
                          (get user "_id") (languages_reply g) now w3 with
                  | (inl e, w4) => (inl (as_http e), w4)
                  | (inr h, w4) => (inr (response_of user a h), w4)
                  end
              end
            else (inl (HTTPException 500 "User ID not found"), w2)
        end
    end.
Proof.
  intros Hb. unfold process_conversation, reraise_as.
  destruct (negb _ || negb _) eqn:E; [by apply blank_rejected in E |].
  rewrite run_bind.
  destruct (identify g w) as [[e | [phone_number email]] w1];
    [by destruct e |].
  unfold detect_languages. mrun.
  destruct (find_or_create_user _ _ _ _) as [[e | user] w2]; [by destruct e |].
  destruct (truthy (get user "_id")); cbn [negb]; cbv iota; [| by mrun].
  rewrite run_bind.
  destruct (upsert_analytics _ _ _) as [[e | a] w3]; [by destruct e |].
  rewrite run_bind.
  destruct (store_history _ _ _ _ _) as [[e | h] w4]; [by destruct e |].
  by mrun.
Qed.

Lemma identify_phone g w p :
  phone_of_reply (phone_reply g) = Some p ->
  identify g w = (inr (Some p, None), logged w [Chat chat_phone]).
Proof.
  intros Hp. rewrite run_identify, truthy_phone_of_reply, Hp.
  by rewrite bool_decide_true.
Qed.

Lemma by_phone_logged ph w evs : by_phone ph (logged w evs) = by_phone ph w.
Proof. reflexivity. Qed.

Lemma by_email_logged em w evs : by_email em (logged w evs) = by_email em w.
Proof. reflexivity. Qed.

Lemma by_phone_find p w :
  present (Some p) = Some p ->
  by_phone (Some p) w
  = List.find (selects "phone_number" (phone_db_format p)) (users_of (db w)).
Proof. intros Hp. unfold by_phone. by rewrite Hp. Qed.



(** X16.  Without a user for the phone number, a profile that cannot be
    produced (no answer, or an e-mail field that is not a string) makes
    the request fail with "Failed to create user"; the store is left as
    it was. *)
Theorem process_conversation_no_profile
    (request : ConversationRequest) g now w p :
  ¬ blank (conversation_of request) ->
  phone_of_reply (phone_reply g) = Some p ->
  List.find (selects "phone_number" (phone_db_format p)) (users_of (db w))
  = None ->
  profile_reply g = None
  \/ (exists user_data, profile_reply g = Some user_data
        /\ extracted_email_of None user_data = None) ->
  (process_conversation request g now w).1
  = inl (HTTPException 500 "Failed to create user")
  /\ db (process_conversation request g now w).2 = db w.
Proof.
  intros Hb Hp Hfind Hprof.
  pose proof (present_phone_of_reply _ _ Hp) as Hpres.
  destruct (process_conversation request g now w) as [out w'] eqn:E.
  cbn [fst snd]. revert E.
  rewrite run_process_conversation, (identify_phone _ _ _ Hp) by done.
  assert (forall w', db w' = db w -> by_phone (Some p) w' = None) as Hbp.
  { intros w0 Hw. by rewrite by_phone_find, Hw. }
  rewrite run_find_or_create_user, Hbp by done. cbv zeta.
  unfold by_email. cbn [present].
  rewrite run_create_user_from_conversation.
  destruct Hprof as [-> | (user_data & -> & ->)]; by intros [= <- <-].
Qed.

Lemma process_conversation_no_profile_witness :
  (process_conversation Samples.request
     {| phone_reply := Some (text "98765 43210"); email_reply := None;
        languages_reply := [english];
        profile_reply := Some {[ "email" := VInt 7 ]};
        analytics_reply := None; follow_up_reply := None;
        follow_up_reply_again := None |} 10 Samples.empty_world).1
  = inl (HTTPException 500 "Failed to create user")
  /\ db (process_conversation Samples.request
           {| phone_reply := Some (text "98765 43210"); email_reply := None;
              languages_reply := [english];
              profile_reply := Some {[ "email" := VInt 7 ]};
              analytics_reply := None; follow_up_reply := None;
              follow_up_reply_again := None |} 10 Samples.empty_world).2
     = db Samples.empty_world.
Proof.
  apply (process_conversation_no_profile Samples.request
           {| phone_reply := Some (text "98765 43210"); email_reply := None;
              languages_reply := [english];
              profile_reply := Some {[ "email" := VInt 7 ]};
              analytics_reply := None; follow_up_reply := None;
              follow_up_reply_again := None |} 10%N Samples.empty_world
           (text "9876543210")).
  - intros H. by vm_compute in H.
  - reflexivity.
  - reflexivity.
  - right. exists {[ "email" := VInt 7 ]}. split; reflexivity.
Defined.

(** Once the user is there, the rest of the request leaves the users
    collection alone and answers with that user. *)
Lemma process_conversation_after_user
    (request : ConversationRequest) g now w ph em w1 u w2 out w' :
  ¬ blank (conversation_of request) ->
  identify g w = (inr (ph, em), w1) ->
  find_or_create_user ph em g (logged w1 [Chat chat_languages; Connect])
  = (inr u, w2) ->
  process_conversation request g now w = (out, w') ->
  users_of (db w') = users_of (db w2)
  /\ (exists evs,
        log w' = log w2 ++ evs
        /\ Forall (fun e => identity_event e = false) evs)
  /\ (forall r, out = inr r -> exists a h, r = response_of u a h).
Proof.
  intros Hb Hid Hfoc. rewrite run_process_conversation, Hid, Hfoc by done.
  destruct (truthy (get u "_id")).
  2:{ intros [= <- <-]. split; [done |]. split; [| done].
      exists []. split; [by rewrite app_nil_r | constructor]. }
  pose proof (upsert_analytics_footprint (get u "_id") g w2)
    as (Hu3 & _ & evs3 & Hl3 & Hq3).
  destruct (upsert_analytics _ _ _) as [[e | a] w3]; cbn [snd] in Hu3, Hl3.
  { intros [= <- <-]. split; [done |]. split; [| done]. by exists evs3. }
  pose proof (store_history_footprint (conversation_of request)
                (get u "_id") (languages_reply g) now w3)
    as (Hu4 & _ & evs4 & Hl4 & Hq4).
  destruct (store_history _ _ _ _ _) as [[e | h] w4]; cbn [snd] in Hu4, Hl4;
    intros [= <- <-]; (split; [by rewrite Hu4 |]); (split;
      [exists (evs3 ++ evs4); split;
         [by rewrite Hl4, Hl3, <- app_assoc | by apply Forall_app] |]).
  - done.
  - intros r [= <-]. by exists a, h.
Qed.

Lemma email_of_reply_nonempty reply e :
  email_of_reply reply = Some e -> present (Some e) = Some e.
Proof.
  unfold email_of_reply. destruct reply as [content |]; [| done].
  destruct (_ || _); [done |]. cbv zeta.
  destruct (negb (bool_decide ("@"%char ∈ _)) || _) eqn:E1; [done |].
  apply orb_false_iff in E1 as [E1 _].
  apply negb_false_iff, bool_decide_eq_true in E1.
  destruct (_ || _); [done |]. destruct (negb _); [done |].
  intros [= <-]. unfold present, Py.nonempty.
  rewrite bool_decide_false; [done |].
  intros Hnil. apply (elem_of_nil "@"%char). rewrite <- Hnil. exact E1.
Qed.

(** X17.  Without a phone number, the user is looked up by the e-mail
    address extracted, lowered and stripped, and a user found this way is
    the one the request goes on with: it is the user of the response, and
    neither a profile is asked for nor a user stored. *)
Theorem process_conversation_found_by_email
    (request : ConversationRequest) g now w e u out w' :
  ¬ blank (conversation_of request) ->
  phone_of_reply (phone_reply g) = None ->
  email_of_reply (email_reply g) = Some e ->
  List.find (selects "email" (VStr (Py.strip (Py.lower e)))) (users_of (db w))
  = Some u ->
  process_conversation request g now w = (out, w') ->
  users_of (db w') = users_of (db w)
  /\ (exists evs,
        log w' = log w
                 ++ [Chat chat_phone; Chat chat_email; Chat chat_languages;
                     Connect;
                     FindOne users "email" (VStr (Py.strip (Py.lower e)))]
                 ++ evs
        /\ Forall (fun e => identity_event e = false) evs)
  /\ (forall r, out = inr r -> exists a h, r = response_of u a h).
Proof.
  intros Hb Hp He Hfind Hrun.
  pose proof (email_of_reply_nonempty _ _ He) as Hpres.
  assert (identify g w
          = (inr (None, Some e), logged w [Chat chat_phone; Chat chat_email]))
    as Hid.
  { rewrite run_identify, Hp, He. cbn [Py.truthy_opt].
    unfold present in Hpres. by destruct (Py.nonempty e). }
  assert (find_or_create_user None (Some e) g
            (logged (logged w [Chat chat_phone; Chat chat_email])
               [Chat chat_languages; Connect])
          = (inr u,
             logged w [Chat chat_phone; Chat chat_email; Chat chat_languages;
                       Connect;
                       FindOne users "email" (VStr (Py.strip (Py.lower e)))]))
    as Hfoc.
  { rewrite run_find_or_create_user. unfold by_phone. cbn [present].
    cbv zeta. unfold by_email, email_lookup, phone_lookup.
    rewrite Hpres. cbn [present logged db]. rewrite Hfind.
    unfold logged. cbn [db log]. by rewrite <- !app_assoc. }
  destruct (process_conversation_after_user _ _ _ _ _ _ _ _ _ _ _
              Hb Hid Hfoc Hrun) as (Hu & (evs & Hl & Hq) & Hr).
  split; [done |]. split; [| done].
  exists evs. split; [| done]. rewrite Hl. cbn [logged log].
  by rewrite <- !app_assoc.
Qed.

Lemma process_conversation_found_by_email_witness :
  users_of
    (db (process_conversation Samples.request
           {| phone_reply := Some NOT_FOUND;
              email_reply := Some (text " Asha@Example.com. ");
              languages_reply := [english]; profile_reply := None;
              analytics_reply := None; follow_up_reply := None;
              follow_up_reply_again := None |} 10 Samples.email_world).2)
  = [Samples.email_user].
Proof.
  destruct (process_conversation_found_by_email Samples.request
              {| phone_reply := Some NOT_FOUND;
                 email_reply := Some (text " Asha@Example.com. ");
                 languages_reply := [english]; profile_reply := None;
                 analytics_reply := None; follow_up_reply := None;
                 follow_up_reply_again := None |} 10%N Samples.email_world
              (text "asha@example.com") Samples.email_user
              (process_conversation Samples.request
                 {| phone_reply := Some NOT_FOUND;
                    email_reply := Some (text " Asha@Example.com. ");
                    languages_reply := [english]; profile_reply := None;
                    analytics_reply := None; follow_up_reply := None;
                    follow_up_reply_again := None |} 10
                 Samples.email_world).1
              (process_conversation Samples.request
                 {| phone_reply := Some NOT_FOUND;
                    email_reply := Some (text " Asha@Example.com. ");
                    languages_reply := [english]; profile_reply := None;
                    analytics_reply := None; follow_up_reply := None;
                    follow_up_reply_again := None |} 10
                 Samples.email_world).2) as (Hu & _).
  - intros H. by vm_compute in H.
  - reflexivity.
  - reflexivity.
  - reflexivity.
  - apply surjective_pairing.
  - exact Hu.
Defined.

(** The look-ups and the profile extraction never ask for the e-mail
    address. *)
Lemma find_or_create_user_log phone_number email g w :
  exists evs,
    log (find_or_create_user phone_number email g w).2 = log w ++ evs
    /\ Forall (fun e => asks_email e = false) evs.
Proof.
  assert (Forall (fun e => asks_email e = false) (phone_lookup phone_number))
    as Hpl.
  { unfold phone_lookup. destruct (present phone_number); by repeat constructor. }
  assert (Forall (fun e => asks_email e = false) (email_lookup email)) as Hel.
  { unfold email_lookup. destruct (present email); by repeat constructor. }
  assert (forall (created : option doc) (w' : world) evs,
            log w' = log w ++ evs ->
            Forall (fun e => asks_email e = false) evs ->
            exists evs,
              log (if found created
                   then (inr (default ∅ created) : exn + doc, w')
                   else (inl (HTTPException 500 "Failed to create user"), w')).2
              = log w ++ evs
              /\ Forall (fun e => asks_email e = false) evs) as Hend.
  { intros created w' evs Hl Hq. exists evs. by destruct (found created). }
  rewrite run_find_or_create_user.
  destruct (by_phone phone_number w); [by eexists |].
  cbv zeta. destruct (by_email email w).
  { eexists. split; [done |]. by apply Forall_app. }
  rewrite run_create_user_from_conversation.
  destruct (profile_reply g) as [user_data |].
  2:{ eapply Hend; [by rewrite logged_logged |].
      by rewrite !Forall_app; repeat split; repeat constructor. }
  destruct (extracted_email_of email user_data) as [e |].
  2:{ eapply Hend; [by rewrite logged_logged |].
      by rewrite !Forall_app; repeat split; repeat constructor. }
  cbv zeta.
  assert (Forall (fun e => asks_email e = false)
            (if truthy e then [FindOne users "email" e] else [])) as Hfe.
  { destruct (truthy e); by repeat constructor. }
  destruct (by_phone phone_number (logged w _)).
  { eapply Hend; [by rewrite logged_logged |].
    by rewrite !Forall_app; repeat split; repeat constructor. }
  destruct (if truthy e then List.find _ _ else None).
  { eapply Hend; [by rewrite logged_logged |].
    by rewrite !Forall_app; repeat split; repeat constructor. }
  eapply Hend; [cbn [log logged]; by rewrite <- !app_assoc |].
  by rewrite !Forall_app; repeat split; repeat constructor.
Qed.

Lemma identity_event_asks_email e :
  identity_event e = false -> asks_email e = false.
Proof. by destruct e as [[] | | | |]. Qed.

(** X18.  The phone number goes first: every request that is not blank
    asks for the phone number, and it asks for the e-mail address exactly
    when no phone number came out of that. *)
Theorem email_asked_iff_no_phone (request : ConversationRequest) g now w :
  ¬ blank (conversation_of request) ->
  exists evs,
    log (process_conversation request g now w).2
    = log w ++ Chat chat_phone :: evs
    /\ (Exists (fun e => asks_email e = true) evs
        <-> phone_of_reply (phone_reply g) = None).
Proof.
  intros Hb. rewrite process_conversation_world by done.
  assert (forall w2 evs2,
            log w2 = log w ++ Chat chat_phone :: evs2 ->
            Forall (fun e => asks_email e = false) evs2 ->
            forall user : doc,
            exists evs,
              log (if truthy (get user "_id")
                   then match upsert_analytics (get user "_id") g w2 with
                        | (inl _, w3) => w3
                        | (inr _, w3) =>
                            (store_history (conversation_of request)
                               (get user "_id") (languages_reply g) now w3).2
                        end
                   else w2)
              = log w ++ Chat chat_phone :: evs
              /\ Forall (fun e => asks_email e = false) evs) as Hrest.
  { intros w2 evs2 Hl2 Hq2 user.
    destruct (truthy (get user "_id")); [| by exists evs2].
    pose proof (upsert_analytics_footprint (get user "_id") g w2)
      as (_ & _ & evs3 & Hl3 & Hq3).
    pose proof (Forall_impl _ _ _ Hq3 identity_event_asks_email) as Hq3'.
    destruct (upsert_analytics _ _ _) as [[e | a] w3]; cbn [snd] in Hl3.
    { exists (evs2 ++ evs3). split; [| by apply Forall_app].
      by rewrite Hl3, Hl2, <- app_assoc. }
    pose proof (store_history_footprint (conversation_of request)
                  (get user "_id") (languages_reply g) now w3)
      as (_ & _ & evs4 & Hl4 & Hq4).
    pose proof (Forall_impl _ _ _ Hq4 identity_event_asks_email) as Hq4'.
    exists (evs2 ++ evs3 ++ evs4). split; [| by rewrite !Forall_app].
    by rewrite Hl4, Hl3, Hl2, <- !app_assoc. }
  assert (forall l, Forall (fun e => asks_email e = false) l ->
                    ¬ Exists (fun e => asks_email e = true) l) as Hnot.
  { intros l Hall Hex. apply Exists_exists in Hex as (x & Hin & Hx).
    rewrite Forall_forall in Hall. specialize (Hall _ Hin). congruence. }
  rewrite run_identify, truthy_phone_of_reply.
  destruct (phone_of_reply (phone_reply g)) as [p |] eqn:Ep.
  - rewrite bool_decide_true by done.
    pose proof (find_or_create_user_log (Some p) None g
                  (logged (logged w [Chat chat_phone])
                     [Chat chat_languages; Connect])) as (evs2 & Hl2 & Hq2).
    destruct (find_or_create_user _ _ _ _) as [[e | user] w2];
      cbn [snd] in Hl2.
    + exists ([Chat chat_languages; Connect] ++ evs2).
      split; [by rewrite Hl2; cbn [logged log]; rewrite <- !app_assoc |].
      split; [| done]. intros Hex. exfalso. revert Hex. apply Hnot.
      by repeat constructor.
    + destruct (Hrest w2 ([Chat chat_languages; Connect] ++ evs2))
        with (user := user) as (evs & Hl & Hq).
      { by rewrite Hl2; cbn [logged log]; rewrite <- !app_assoc. }
      { by repeat constructor. }
      exists evs. split; [done |]. split; [| done].
      intros Hex. by apply Hnot in Hex.
  - rewrite bool_decide_false by (by intros [? ?]).
    assert (forall w1 : world,
              log w1 = log w ++ [Chat chat_phone; Chat chat_email] ->
              forall w' : world, (exists evs, log w' = log w1 ++ evs) ->
              exists evs,
                log w' = log w ++ Chat chat_phone :: evs
                /\ (Exists (fun e => asks_email e = true) evs
                    <-> @None str = None))
      as Hgo.
    { intros w1 Hl1 w' (evs & Hl). exists (Chat chat_email :: evs).
      split; [by rewrite Hl, Hl1, <- app_assoc |].
      split; [done |]. intros _. by apply Exists_cons_hd. }
    destruct (Py.truthy_opt (email_of_reply (email_reply g))).
    2:{ apply (Hgo (logged w [Chat chat_phone; Chat chat_email]) eq_refl).
        exists []. by rewrite app_nil_r. }
    apply (Hgo (logged w [Chat chat_phone; Chat chat_email]) eq_refl).
    pose proof (find_or_create_user_log None (email_of_reply (email_reply g)) g
                  (logged (logged w [Chat chat_phone; Chat chat_email])
                     [Chat chat_languages; Connect])) as (evs2 & Hl2 & _).
    destruct (find_or_create_user _ _ _ _) as [[e | user] w2];
      cbn [snd] in Hl2.
    { exists ([Chat chat_languages; Connect] ++ evs2).
      by rewrite Hl2; cbn [logged log]; rewrite <- !app_assoc. }
    destruct (truthy (get user "_id")).
    2:{ exists ([Chat chat_languages; Connect] ++ evs2).
        by rewrite Hl2; cbn [logged log]; rewrite <- !app_assoc. }
    pose proof (upsert_analytics_footprint (get user "_id") g w2)
      as (_ & _ & evs3 & Hl3 & _).
    destruct (upsert_analytics _ _ _) as [[e | a] w3]; cbn [snd] in Hl3.
    { exists ([Chat chat_languages; Connect] ++ evs2 ++ evs3).
      by rewrite Hl3, Hl2; cbn [logged log]; rewrite <- !app_assoc. }
    pose proof (store_history_footprint (conversation_of request)
                  (get user "_id") (languages_reply g) now w3)
      as (_ & _ & evs4 & Hl4 & _).
    exists ([Chat chat_languages; Connect] ++ evs2 ++ evs3 ++ evs4).
    by rewrite Hl4, Hl3, Hl2; cbn [logged log]; rewrite <- !app_assoc.
Qed.

Lemma email_asked_iff_no_phone_witness :
  exists evs,
    log (process_conversation Samples.request
           (Samples.answers "call me" "asha@example.com" "mofu") 10
           Samples.empty_world).2
    = log Samples.empty_world ++ Chat chat_phone :: evs
    /\ (Exists (fun e => asks_email e = true) evs
        <-> phone_of_reply
              (phone_reply
                 (Samples.answers "call me" "asha@example.com" "mofu"))
            = None).
Proof.
  apply (email_asked_iff_no_phone Samples.request
           (Samples.answers "call me" "asha@example.com" "mofu") 10%N
           Samples.empty_world).
  intros H. by vm_compute in H.
Defined.

(** ** No second user for a phone number or an e-mail address *)

Lemma unique_on_new field (d : doc) l :
  (forall v, truthy v = true -> d !! field = Some v ->
             List.find (selects field v) l = None) ->
  unique_on field l -> unique_on field (l ++ [d]).
Proof.
  intros Hd Hu v Hv. rewrite List.filter_app, length_app. simpl.
  destruct (selects field v d) eqn:E; simpl.
  - apply selects_lookup in E.
    by rewrite (find_none_filter _ _ (Hd v Hv E)).
  - specialize (Hu v Hv). lia.
Qed.

Lemma user_doc_email phone_number e user_data oid :
  (<["_id" := oid]> (user_doc_of phone_number e user_data)) !! "email" = Some e.
Proof.
  unfold user_doc_of. rewrite lookup_insert_ne by done.
  destruct (present phone_number); [rewrite lookup_insert_ne by done |];
    by rewrite lookup_insert_eq.
Qed.

(** A user is stored only after both look-ups found nothing. *)
Lemma create_user_inserts phone_number email reply w :
  users_of (db (create_user_from_conversation phone_number email reply w).2)
  = users_of (db w)
  \/ exists user_data e,
       by_phone phone_number w = None
       /\ (truthy e = true ->
           List.find (selects "email" e) (users_of (db w)) = None)
       /\ users_of
            (db (create_user_from_conversation phone_number email reply w).2)
          = users_of (db w)
            ++ [<["_id" := VObjectId (next_oid (db w))]>
                  (user_doc_of phone_number e user_data)].
Proof.
  rewrite run_create_user_from_conversation.
  destruct reply as [user_data |]; [| by left].
  destruct (extracted_email_of email user_data) as [e |]; [| by left].
  cbv zeta. destruct (by_phone phone_number w) eqn:Ep; [by left |].
  destruct (if truthy e then List.find _ _ else None) eqn:Ee; [by left |].
  right. exists user_data, e. split; [done |]. split; [| done].
  intros Ht. by rewrite Ht in Ee.
Qed.

Lemma find_or_create_user_inserts phone_number email g w :
  users_of (db (find_or_create_user phone_number email g w).2)
  = users_of (db w)
  \/ exists user_data e,
       by_phone phone_number w = None
       /\ (truthy e = true ->
           List.find (selects "email" e) (users_of (db w)) = None)
       /\ users_of (db (find_or_create_user phone_number email g w).2)
          = users_of (db w)
            ++ [<["_id" := VObjectId (next_oid (db w))]>
                  (user_doc_of phone_number e user_data)].
Proof.
  rewrite run_find_or_create_user.
  destruct (by_phone phone_number w) eqn:Ep; [by left |].
  cbv zeta. destruct (by_email email w); [by left |].
  pose proof (create_user_inserts phone_number email (profile_reply g)
                (logged w (phone_lookup phone_number ++ email_lookup email)))
    as H.
  cbn [logged db] in H.
  assert (forall w2 : world,
            users_of (db w2)
            = users_of
                (db (create_user_from_conversation phone_number email
                       (profile_reply g)
                       (logged w
                          (phone_lookup phone_number ++ email_lookup email))).2)
            -> users_of (db w2) = users_of (db w)
               \/ exists user_data e,
                    @None doc = None
                    /\ (truthy e = true ->
                        List.find (selects "email" e) (users_of (db w)) = None)
                    /\ users_of (db w2)
                       = users_of (db w)
                         ++ [<["_id" := VObjectId (next_oid (db w))]>
                               (user_doc_of phone_number e user_data)]) as Hgo.
  { intros w2 ->. destruct H as [H | (user_data & e & _ & He & Hu)];
      [by left |].
    right. by exists user_data, e. }
  destruct (create_user_from_conversation _ _ _ _) as [[e | created] w'];
    cbn [snd] in Hgo |- *; [by apply Hgo |].
  destruct (found created); by apply Hgo.
Qed.

Lemma process_conversation_inserts (request : ConversationRequest) g now w :
  users_of (db (process_conversation request g now w).2) = users_of (db w)
  \/ exists phone_number user_data e,
       by_phone phone_number w = None
       /\ (truthy e = true ->
           List.find (selects "email" e) (users_of (db w)) = None)
       /\ users_of (db (process_conversation request g now w).2)
          = users_of (db w)
            ++ [<["_id" := VObjectId (next_oid (db w))]>
                  (user_doc_of phone_number e user_data)].
Proof.
  destruct (decide (blank (conversation_of request))) as [Hb | Hb].
  { rewrite process_conversation_blank by done. by left. }
  rewrite process_conversation_world by done.
  destruct (identify g w) as [[e | [phone_number email]] w1] eqn:Ei.
  { apply identify_footprint in Ei as [-> _]. by left. }
  apply identify_footprint in Ei as [Hdb _].
  pose proof (find_or_create_user_inserts phone_number email g
                (logged w1 [Chat chat_languages; Connect])) as Hu.
  unfold by_phone in Hu. cbn [logged db] in Hu. rewrite Hdb in Hu.
  destruct (find_or_create_user _ _ _ _) as [out w2]. cbn [snd] in Hu.
  assert (forall w3, users_of (db w3) = users_of (db w2) ->
            users_of (db w3) = users_of (db w)
            \/ exists phone_number user_data e,
                 by_phone phone_number w = None
                 /\ (truthy e = true ->
                     List.find (selects "email" e) (users_of (db w)) = None)
                 /\ users_of (db w3)
                    = users_of (db w)
                      ++ [<["_id" := VObjectId (next_oid (db w))]>
                            (user_doc_of phone_number e user_data)]) as Hgo.
  { intros w3 ->. destruct Hu as [Hu | (user_data & e & Hu)]; [by left |].
    right. by exists phone_number, user_data, e. }
  destruct out as [e | user]; [by apply Hgo |].
  destruct (truthy (get user "_id")); [| by apply Hgo].
  pose proof (upsert_analytics_footprint (get user "_id") g w2) as (Hu3 & _).
  destruct (upsert_analytics _ _ _) as [[e | a] w3]; cbn [snd] in Hu3;
    [by apply Hgo |].
  pose proof (store_history_footprint (conversation_of request)
                (get user "_id") (languages_reply g) now w3) as (Hu4 & _).
  apply Hgo. by rewrite Hu4.
Qed.

(** X19.  The handler never stores a second user for a phone number or
    for an e-mail address that is not empty: when the users collection
    has at most one user for each phone number and each non-empty e-mail
    address, it still has after a request, whatever the outcome. *)
Theorem users_stay_unique (request : ConversationRequest) g now w :
  unique_on "phone_number" (users_of (db w)) ->
  unique_on "email" (users_of (db w)) ->
  unique_on "phone_number"
    (users_of (db (process_conversation request g now w).2))
  /\ unique_on "email"
       (users_of (db (process_conversation request g now w).2)).
Proof.
  intros Hphone Hemail.
  destruct (process_conversation_inserts request g now w)
    as [-> | (phone_number & user_data & e & Hp & He & ->)]; [done |].
  split; apply unique_on_new; try done.
  - intros v _. rewrite user_doc_phone_number. unfold by_phone in Hp.
    destruct (present phone_number) as [p |]; [| done].
    by intros [= <-].
  - intros v Hv. rewrite user_doc_email. intros [= <-]. by apply He.
Qed.

Lemma users_stay_unique_witness :
  unique_on "phone_number"
    (users_of
       (db (process_conversation Samples.request
              (Samples.answers "98765 43210" "asha@example.com" "mofu") 10
              Samples.email_world).2))
  /\ unique_on "email"
       (users_of
          (db (process_conversation Samples.request
                 (Samples.answers "98765 43210" "asha@example.com" "mofu") 10
                 Samples.email_world).2)).
Proof.
  apply (users_stay_unique Samples.request
           (Samples.answers "98765 43210" "asha@example.com" "mofu") 10%N
           Samples.email_world).
  - intros v _. simpl. destruct (selects _ _ _); simpl; lia.
  - intros v _. simpl. destruct (selects _ _ _); simpl; lia.
Defined.

(** X20.  When the digits in the answer of the service are all decimal,
    the user that a request stores for the phone number extracted holds
    the fixed format: "91" followed by ten decimal digits. *)
Theorem inserted_user_phone_number_decimal
    (request : ConversationRequest) g now w :
  (forall content, phone_reply g = Some content ->
     Forall (fun c => isdigit c = true -> decimal c = true) content) ->
  users_of (db (process_conversation request g now w).2) = users_of (db w)
  \/ exists d,
       users_of (db (process_conversation request g now w).2)
       = users_of (db w) ++ [d]
       /\ match phone_of_reply (phone_reply g) with
          | Some p =>
              d !! "phone_number" = Some (VStr (text "91" ++ p))
              /\ phone_number_format (VStr (text "91" ++ p))
          | None => d !! "phone_number" = None
          end.
Proof.
  intros Hdec.
  destruct (process_conversation_phone_number request g now w)
    as [Hu | (d & Hu & Hd)]; [by left |].
  right. exists d. split; [done |].
  destruct (phone_of_reply (phone_reply g)) as [p |] eqn:Ep; [| done].
  destruct Hd as (Hd & Hl & _). split; [done |].
  exists p. split; [done |]. split; [done |].
  destruct (phone_reply g) as [content |] eqn:Er; [| done].
  by apply (phone_of_reply_decimals content); [apply Hdec |].
Qed.

Lemma inserted_user_phone_number_decimal_witness :
  exists d,
    users_of
      (db (process_conversation Samples.request
             (Samples.answers "+91 98765 43210" "asha@example.com" "mofu") 10
             Samples.empty_world).2) = [d]
    /\ d !! "phone_number" = Some (VStr (text "919876543210"))
    /\ phone_number_format (VStr (text "919876543210")).
Proof.
  destruct (inserted_user_phone_number_decimal Samples.request
              (Samples.answers "+91 98765 43210" "asha@example.com" "mofu")
              10%N Samples.empty_world) as [Hu | (d & Hu & Hd)].
  - intros content [= <-]. repeat (constructor; [by vm_compute |]).
    constructor.
  - exfalso. apply (f_equal length) in Hu. vm_compute in Hu. discriminate Hu.
  - exists d. split; [exact Hu |]. exact Hd.
Defined.

End HandlerMore.
